(** * yt_download: speed history, format selection, merge strategy, rename

    A shallow embedding of [yt_download.py].  Pure helpers are Rocq
    functions; code that can raise returns a [result]; code that talks to
    the outside world (the speed file, subprocesses, the console, the
    file system) takes the answers of the world as an explicit
    environment and returns the trace of what it did.

    Numbers follow Python: [int] is [Z]; [float] is IEEE binary64, given
    by the Standard Library's executable specification [SpecFloat] at
    precision 53 and maximal exponent 1024.  Text is a [string] whose
    characters are the code points 0..255, for which the three character
    classes the program relies on ([str.isspace], [str.isdigit] and the
    decimal digits [int] accepts) are written out in full.

    The download step and [main] are sequences of such steps; what the
    extraction library answers is part of their environment.

    Left out: the digits of a float in a printed line (a menu row and
    the text of a size keep the numbers they are formatted from);
    [resource_path] (the paths of the two programs are parameters); what
    the progress thread prints while a transcode runs; the interpreter's
    optional limit on the number of digits of an int text. *)

From Stdlib Require Import ZArith QArith Qround Qminmax Lia List Bool Ascii String.
From Stdlib Require Import Floats.SpecFloat.
From stdpp Require Import base gmap strings pretty.
Import ListNotations.

Local Open Scope string_scope.
Local Open Scope list_scope.
Local Open Scope Z_scope.

(** ** Exceptions and results *)

Inductive exn : Type :=
  | OverflowError
  | ValueError
  | ZeroDivisionError
  | EOFError
  | IndexError
  | KeyError
  | OSError (errno : Z)
  | CalledProcessError (returncode : Z).

Inductive result (A : Type) : Type :=
  | Ok (a : A)
  | Raise (e : exn).
Arguments Ok {A} a.
Arguments Raise {A} e.

Definition rbind {A B} (r : result A) (k : A -> result B) : result B :=
  match r with
  | Ok a => k a
  | Raise e => Raise e
  end.

#[global] Instance result_bind : MBind result := fun A B k r => rbind r k.
#[global] Instance result_ret : MRet result := @Ok.

Definition is_ok {A} (r : result A) : bool :=
  match r with Ok _ => true | Raise _ => false end.

(** ** Python numbers *)

Module PyNum.

Definition float := spec_float.

Definition prec : Z := 53.
Definition emax : Z := 1024.

Inductive pynum : Type :=
  | PInt (z : Z)
  | PFloat (x : float).

Definition is_inf (x : float) : bool :=
  match x with S754_infinity _ => true | _ => false end.

Definition is_zero (x : float) : bool :=
  match x with S754_zero _ => true | _ => false end.

Definition is_finite (x : float) : bool :=
  match x with S754_zero _ | S754_finite _ _ _ => true | _ => false end.

(** [float(z)]: the nearest binary64, ties to even; an [int] beyond
    the range of binary64 raises. *)
Definition float_of_int (z : Z) : result float :=
  let x := binary_normalize prec emax z 0 false in
  if is_inf x then Raise OverflowError else Ok x.

(** [a / b] on two ints: the correctly rounded quotient ([SFdiv] rounds
    the exact quotient of the two mantissas, whatever their size); a
    quotient beyond the range of binary64 raises. *)
Definition int_truediv (a b : Z) : result float :=
  match a, b with
  | _, Z0 => Raise ZeroDivisionError
  | Z0, Zpos _ => Ok (S754_zero false)
  | Z0, Zneg _ => Ok (S754_zero true)
  | Zpos m, Zpos n =>
      let x := SFdiv prec emax (S754_finite false m 0) (S754_finite false n 0) in
      if is_inf x then Raise OverflowError else Ok x
  | Zpos m, Zneg n =>
      let x := SFdiv prec emax (S754_finite false m 0) (S754_finite true n 0) in
      if is_inf x then Raise OverflowError else Ok x
  | Zneg m, Zpos n =>
      let x := SFdiv prec emax (S754_finite true m 0) (S754_finite false n 0) in
      if is_inf x then Raise OverflowError else Ok x
  | Zneg m, Zneg n =>
      let x := SFdiv prec emax (S754_finite true m 0) (S754_finite true n 0) in
      if is_inf x then Raise OverflowError else Ok x
  end.

Definition to_float (n : pynum) : result float :=
  match n with
  | PInt z => float_of_int z
  | PFloat x => Ok x
  end.

(** [a * b]: exact on ints; otherwise both operands become floats and
    the product is rounded (overflow gives an infinity, no exception). *)
Definition mul (a b : pynum) : result pynum :=
  match a, b with
  | PInt x, PInt y => Ok (PInt (x * y))
  | _, _ =>
      x ← to_float a;
      y ← to_float b;
      Ok (PFloat (SFmul prec emax x y))
  end.

(** [a / b]: true division. *)
Definition truediv (a b : pynum) : result pynum :=
  match a, b with
  | PInt x, PInt y => q ← int_truediv x y; Ok (PFloat q)
  | _, _ =>
      x ← to_float a;
      y ← to_float b;
      if is_zero y then Raise ZeroDivisionError
      else Ok (PFloat (SFdiv prec emax x y))
  end.

(** [int(x)] on a float: truncation towards zero. *)
Definition trunc (x : float) : result Z :=
  match x with
  | S754_zero _ => Ok 0
  | S754_finite s m e =>
      let a := match e with
               | Zneg k => Z.shiftr (Zpos m) (Zpos k)
               | _ => Z.shiftl (Zpos m) e
               end in
      Ok (if s then - a else a)
  | S754_infinity _ => Raise OverflowError
  | S754_nan => Raise ValueError
  end.

Definition to_int (n : pynum) : result Z :=
  match n with
  | PInt z => Ok z
  | PFloat x => trunc x
  end.

(** Truth value of a number: everything but a zero (a NaN is true). *)
Definition truthy (n : pynum) : bool :=
  match n with
  | PInt z => negb (z =? 0)
  | PFloat x => negb (is_zero x)
  end.

(** The exact value of a number, for comparisons: Python compares an
    int with a float, and two floats, by their mathematical values. *)
Inductive value : Type :=
  | VNaN
  | VNegInf
  | VFin (q : Q)
  | VPosInf.

Definition dyadic (m e : Z) : Q :=
  match e with
  | Zneg k => m # (2 ^ k)%positive
  | _ => inject_Z (m * 2 ^ e)
  end.

Definition value_of (n : pynum) : value :=
  match n with
  | PInt z => VFin (inject_Z z)
  | PFloat (S754_zero _) => VFin 0
  | PFloat (S754_finite s m e) => VFin (dyadic (if s then Zneg m else Zpos m) e)
  | PFloat (S754_infinity s) => if s then VNegInf else VPosInf
  | PFloat S754_nan => VNaN
  end.

(** [a > b]. *)
Definition gt (a b : pynum) : bool :=
  match value_of a, value_of b with
  | VNaN, _ | _, VNaN => false
  | VPosInf, VPosInf => false
  | VPosInf, _ => true
  | _, VPosInf => false
  | VNegInf, _ => false
  | VFin _, VNegInf => true
  | VFin x, VFin y => match y ?= x with Lt => true | _ => false end
  end%Q.

(** [a >= b]. *)
Definition ge (a b : pynum) : bool :=
  match value_of a, value_of b with
  | VNaN, _ | _, VNaN => false
  | VPosInf, _ => true
  | _, VNegInf => true
  | VNegInf, _ => false
  | VFin _, VPosInf => false
  | VFin x, VFin y => match y ?= x with Gt => false | _ => true end
  end%Q.

(** [sum(l)] on a list of ints. *)
Definition sum (l : list Z) : Z := fold_left Z.add l 0.

(** [sum(l) / len(l)] on a list of ints. *)
Definition mean (l : list Z) : result float :=
  int_truediv (sum l) (Z.of_nat (length l)).

(** Float literals of the program: the nearest binary64 to the decimal. *)
Definition lit_0_05 : float :=
  Eval vm_compute in
    match int_truediv 5 100 with Ok x => x | Raise _ => S754_nan end.

Definition lit_1_5 : float :=
  Eval vm_compute in
    match int_truediv 3 2 with Ok x => x | Raise _ => S754_nan end.

End PyNum.
Import PyNum.


(** ** Python text *)

Module PyStr.

Definition code (c : ascii) : Z := Z.of_N (N_of_ascii c).

Definition between (lo hi n : Z) : bool := (lo <=? n) && (n <=? hi).

(** [c.isspace()] for the code points below 256: tab to carriage
    return, the four separators 28..31, space, NEL and no-break space. *)
Definition isspace (c : ascii) : bool :=
  let n := code c in
  between 9 13 n || between 28 31 n || (n =? 32) || (n =? 133) || (n =? 160).

(** The characters [int] reads as decimal digits. *)
Definition decimal_value (c : ascii) : option Z :=
  let n := code c in
  if between 48 57 n then Some (n - 48) else None.

(** [c.isdigit()] for the code points below 256: the decimal digits and
    the superscripts two, three and one. *)
Definition isdigit_char (c : ascii) : bool :=
  let n := code c in
  between 48 57 n || (n =? 178) || (n =? 179) || (n =? 185).

Fixpoint all_chars (p : ascii -> bool) (s : string) : bool :=
  match s with
  | EmptyString => true
  | String c r => p c && all_chars p r
  end.

(** [s.isdigit()]: at least one character, all of them digits. *)
Definition isdigit (s : string) : bool :=
  match s with
  | EmptyString => false
  | _ => all_chars isdigit_char s
  end.

Fixpoint lstrip (s : string) : string :=
  match s with
  | EmptyString => EmptyString
  | String c r => if isspace c then lstrip r else s
  end.

Fixpoint rstrip (s : string) : string :=
  match s with
  | EmptyString => EmptyString
  | String c r =>
      match rstrip r with
      | EmptyString => if isspace c then EmptyString else String c EmptyString
      | r' => String c r'
      end
  end.

(** [s.strip()]. *)
Definition strip (s : string) : string := rstrip (lstrip s).

(** [c.lower()] for the code points below 256. *)
Definition lower_char (c : ascii) : ascii :=
  let n := code c in
  if between 65 90 n || (between 192 222 n && negb (n =? 215))
  then ascii_of_N (Z.to_N (n + 32)) else c.

Fixpoint lower (s : string) : string :=
  match s with
  | EmptyString => EmptyString
  | String c r => String (lower_char c) (lower r)
  end.

Fixpoint int_of_digits (acc : Z) (s : string) : result Z :=
  match s with
  | EmptyString => Ok acc
  | String c r =>
      match decimal_value c with
      | Some d => int_of_digits (10 * acc + d) r
      | None => Raise ValueError
      end
  end.

(** [int(s)] for a string [s] without sign, underscore or blank (the
    program only calls it on strings that passed [isdigit]): the value
    of the decimal digits; any other character is an invalid literal. *)
Definition int_of_str (s : string) : result Z :=
  match s with
  | EmptyString => Raise ValueError
  | _ => int_of_digits 0 s
  end.

(** [str(z)], also what [f"{z}"] prints. *)
Definition str_of_int (z : Z) : string := pretty z.

Definition LF : ascii := "010"%char.
Definition CR : ascii := "013"%char.

(** The lines a text file yields when iterated in text mode: a line
    ends at "\n", "\r\n" or "\r", and is handed over with the single
    terminator "\n"; a last line without terminator is handed over as
    it is. *)
Fixpoint file_lines_from (cur : string) (s : string) : list string :=
  match s with
  | EmptyString =>
      match cur with EmptyString => [] | _ => [cur] end
  | String c r =>
      if Ascii.eqb c LF then (cur +:+ String LF "") :: file_lines_from "" r
      else if Ascii.eqb c CR then
        match r with
        | String c' r' =>
            if Ascii.eqb c' LF
            then (cur +:+ String LF "") :: file_lines_from "" r'
            else (cur +:+ String LF "") :: file_lines_from "" r
        | EmptyString => [cur +:+ String LF ""]
        end
      else file_lines_from (cur +:+ String c "") r
  end.

Definition file_lines (s : string) : list string := file_lines_from "" s.

(** [sub in s]. *)
Fixpoint contains (sub s : string) : bool :=
  String.prefix sub s ||
  match s with
  | EmptyString => false
  | String _ r => contains sub r
  end.

(** [s.endswith(suffix)]. *)
Definition endswith (s suffix : string) : bool :=
  let n := String.length s in
  let k := String.length suffix in
  (k <=? n)%nat && String.eqb (String.substring (n - k) k s) suffix.

End PyStr.
Import PyStr.

(** ** Speed history store *)

Module SpeedStore.

(** What is at [LAST_SPEED_FILE]: nothing, something that exists but
    cannot be opened or decoded, or a text. *)
Inductive file : Type :=
  | NoFile
  | Unreadable (e : exn)
  | Text (content : string).

(** The store and its environment: [write_error] is the exception
    that opening the file for writing raises, if any. *)
Record store : Type := {
  speed_file : file;
  write_error : option exn
}.

(** The three diagnostics the store prints. *)
Inductive log : Type :=
  | FailedLoadForSaving (e : exn)
  | FailedSave (e : exn)
  | FailedLoad (e : exn).

Definition MAX_SPEEDS : nat := 10.

(** [os.path.exists(LAST_SPEED_FILE)]. *)
Definition file_exists (f : file) : bool :=
  match f with NoFile => false | _ => true end.

(** [open(LAST_SPEED_FILE, "r")] and the iteration over its lines. *)
Definition open_read (f : file) : result (list string) :=
  match f with
  | NoFile => Raise (OSError 2)
  | Unreadable e => Raise e
  | Text content => Ok (file_lines content)
  end.

(** [[int(line.strip()) for line in f if line.strip().isdigit()]]. *)
Fixpoint parse_lines (lines : list string) : result (list Z) :=
  match lines with
  | [] => Ok []
  | line :: rest =>
      if isdigit (strip line) then
        v ← int_of_str (strip line);
        vs ← parse_lines rest;
        Ok (v :: vs)
      else parse_lines rest
  end.

Definition read_speeds (f : file) : result (list Z) :=
  lines ← open_read f; parse_lines lines.

(** [speeds[-n:]]. *)
Definition last_n {A} (n : nat) (l : list A) : list A :=
  skipn (length l - n) l.

(** The text written by the loop [f.write(f"{s}\n")]. *)
Fixpoint render (speeds : list Z) : string :=
  match speeds with
  | [] => ""
  | s :: rest => str_of_int s +:+ String LF "" +:+ render rest
  end.

(** The body of the first [try] of [save_last_speed]: the speeds the
    file holds. *)
Definition stored_speeds (f : file) : result (list Z) :=
  if file_exists f then read_speeds f else Ok [].

Definition save_last_speed (speed_bps : pynum) (st : store)
  : store * list log * result unit :=
  let '(speeds, log1) :=
    match stored_speeds (speed_file st) with
    | Ok l => (l, [])
    | Raise e => ([], [FailedLoadForSaving e])
    end in
  match to_int speed_bps with
  | Raise e => (st, log1, Raise e)
  | Ok v =>
      let speeds := last_n MAX_SPEEDS (speeds ++ [v]) in
      match write_error st with
      | Some e => (st, log1 ++ [FailedSave e], Ok ())
      | None =>
          ({| speed_file := Text (render speeds); write_error := None |},
           log1, Ok ())
      end
  end.

Definition bin_speed_dynamic (speed : Z) (avg_speed : pynum) : result Z :=
  let min_bin := 50000 in
  p ← mul avg_speed (PFloat lit_0_05);
  i ← to_int p;
  let bin_size := Z.max min_bin i in
  Ok ((speed + bin_size / 2) / bin_size * bin_size).

(** [Counter]: the counts, in the order the values were first seen. *)
Fixpoint counter_add (x : Z) (c : list (Z * nat)) : list (Z * nat) :=
  match c with
  | [] => [(x, 1%nat)]
  | (y, n) :: rest =>
      if x =? y then (y, S n) :: rest else (y, n) :: counter_add x rest
  end.

Definition Counter (l : list Z) : list (Z * nat) :=
  fold_left (fun c x => counter_add x c) l [].

(** [max(items, key=itemgetter(1))]: the first item with the largest
    count. *)
Fixpoint first_max (best : Z * nat) (items : list (Z * nat)) : Z * nat :=
  match items with
  | [] => best
  | it :: rest =>
      if (snd best <? snd it)%nat then first_max it rest
      else first_max best rest
  end.

(** [counter.most_common(1)]. *)
Definition most_common_1 (c : list (Z * nat)) : list (Z * nat) :=
  match c with
  | [] => []
  | it :: rest => [first_max it rest]
  end.

Fixpoint map_result {A B} (f : A -> result B) (l : list A) : result (list B) :=
  match l with
  | [] => Ok []
  | a :: rest => b ← f a; bs ← map_result f rest; Ok (b :: bs)
  end.

(** The body of the [try] of [load_last_speed], after the existence
    test. *)
Definition representative (f : file) : result (option Z) :=
  speeds ← read_speeds f;
  match speeds with
  | [] => Ok None
  | _ =>
      avg_speed ← mean speeds;
      binned_speeds ← map_result (fun s => bin_speed_dynamic s (PFloat avg_speed)) speeds;
      match most_common_1 (Counter binned_speeds) with
      | (most_common_binned_speed, count) :: _ => Ok (Some most_common_binned_speed)
      | [] => Raise IndexError
      end
  end.

Definition load_last_speed (st : store) : list log * result (option Z) :=
  match (if negb (file_exists (speed_file st)) then Ok None
         else representative (speed_file st)) with
  | Ok r => ([], Ok r)
  | Raise e => ([FailedLoad e], Ok None)
  end.

End SpeedStore.

(** ** The text of a size *)

Module SizeText.

(** The literal [1024.0]. *)
Definition lit_1024 : float :=
  Eval vm_compute in
    match float_of_int 1024 with Ok x => x | Raise _ => S754_nan end.

(** [format(n, '.0f')] and the like, as in [f"{n:.0f}"]: an int is
    converted to a float first, which raises beyond the range of
    binary64; the text keeps the number, not its digits. *)
Definition fixed (n : pynum) : result pynum :=
  match n with
  | PInt z => _ ← float_of_int z; Ok n
  | PFloat _ => Ok n
  end.

(** [abs(n)]. *)
Definition abs (n : pynum) : pynum :=
  match n with
  | PInt z => PInt (Z.abs z)
  | PFloat x => PFloat (SFabs x)
  end.

(** [a < b]. *)
Definition lt (a b : pynum) : bool := gt b a.

(** The text of a size: "N/A", or [f"{num:.1f}{unit}{suffix}"] (the
    text keeps the number, not its digits). *)
Inductive size_text : Type :=
  | NotAvailable
  | Sized (num : pynum) (unit suffix : string).

(** The loop over the units, and the return after it. *)
Fixpoint scale (units : list string) (num : pynum) (suffix : string)
  : result size_text :=
  match units with
  | [] => Ok (Sized num "Y" suffix)
  | unit :: rest =>
      if lt (abs num) (PFloat lit_1024) then Ok (Sized num unit suffix)
      else
        num ← truediv num (PFloat lit_1024);
        scale rest num suffix
  end.

Definition sizeof_fmt (num : option pynum) (suffix : string) : result size_text :=
  match num with
  | None => Ok NotAvailable
  | Some n => scale [""; "K"; "M"; "G"; "T"; "P"] n suffix
  end.

End SizeText.

(** ** Format selector *)

Module FormatSelector.

(** A stream descriptor, with the keys the program reads.  [None] is a
    key that is absent or holds [None]; for 'ext', which is read with a
    default, [None] is an absent key and [Some None] a key that holds
    [None].  Sizes are ints (bytes); frame rate, bitrate and duration
    are ints or floats. *)
Record format : Type := {
  format_id : option string;
  vcodec : option string;
  height : option Z;
  fps : option pynum;
  ext : option (option string);
  filesize : option Z;
  filesize_approx : option Z;
  tbr : option pynum
}.

(** An entry of [best_formats]; 'ext' holds a text or [None]. *)
Record candidate : Type := {
  c_format_id : option string;
  c_fps : pynum;
  c_ext : option string;
  c_filesize : option pynum;
  c_vcodec : option string
}.

Definition estimate_size (format_info : format) (duration_sec : option pynum)
  : result (option Z) :=
  match filesize format_info with
  | Some s => Ok (Some s)
  | None =>
      match filesize_approx format_info with
      | Some s => Ok (Some s)
      | None =>
          match tbr format_info, duration_sec with
          | Some t, Some d =>
              if truthy t && truthy d then
                x ← mul d t;
                y ← mul x (PInt 1000);
                z ← truediv y (PInt 8);
                n ← to_int z;
                Ok (Some n)
              else Ok None
          | _, _ => Ok None
          end
      end
  end.

Definition targets : list (string * string) :=
  [("4320", "   8K"); ("2160", "   4K"); ("1440", "1440p"); ("1080", "1080p")].

Definition init_best : gmap string (option candidate) :=
  list_to_map (map (fun t => (fst t, None)) targets).

Definition init_sizes : gmap string (list Z) :=
  list_to_map (map (fun t => (fst t, [])) targets).

(** [str(f.get('height'))]. *)
Definition height_key (f : format) : string :=
  match height f with
  | Some z => str_of_int z
  | None => "None"
  end.

(** [f.get('fps') or 0]. *)
Definition fps_or_0 (f : format) : pynum :=
  match fps f with
  | Some x => if truthy x then x else PInt 0
  | None => PInt 0
  end.

(** The candidate built from stream [f] with size estimate [est_size]. *)
Definition candidate_of (f : format) (est_size : option Z) : candidate :=
  {| c_format_id := format_id f;
     c_fps := fps_or_0 f;
     c_ext := match ext f with Some e => e | None => Some "" end;
     c_filesize := option_map PInt est_size;
     c_vcodec := vcodec f |}.

Definition is_audio_only (f : format) : bool :=
  match vcodec f with
  | Some v => String.eqb v "none"
  | None => false
  end.

Definition scan_state : Type :=
  gmap string (option candidate) * gmap string (list Z).

(** One turn of the loop over [formats]. *)
Definition scan_step (duration_sec : option pynum) (st : scan_state) (f : format)
  : result scan_state :=
  let '(best_formats, size_estimates) := st in
  if is_audio_only f then Ok st
  else
    let h := height_key f in
    match best_formats !! h with
    | None => Ok st
    | Some bf =>
        est_size ← estimate_size f duration_sec;
        size_estimates ←
          match est_size with
          | Some e =>
              match size_estimates !! h with
              | Some l => Ok (<[h := l ++ [e]]> size_estimates)
              | None => Raise KeyError
              end
          | None => Ok size_estimates
          end;
        let replace :=
          match bf with
          | None => true
          | Some b => gt (fps_or_0 f) (c_fps b)
          end in
        if replace
        then Ok (<[h := Some (candidate_of f est_size)]> best_formats, size_estimates)
        else Ok (best_formats, size_estimates)
    end.

Fixpoint scan (duration_sec : option pynum) (formats : list format) (st : scan_state)
  : result scan_state :=
  match formats with
  | [] => Ok st
  | f :: rest => st' ← scan_step duration_sec st f; scan duration_sec rest st'
  end.

Definition set_filesize (c : candidate) (size : pynum) : candidate :=
  {| c_format_id := c_format_id c;
     c_fps := c_fps c;
     c_ext := c_ext c;
     c_filesize := Some size;
     c_vcodec := c_vcodec c |}.

(** The loop [for res in size_estimates], whose keys are the targets
    in their order of insertion. *)
Fixpoint average (keys : list string) (size_estimates : gmap string (list Z))
    (best_formats : gmap string (option candidate))
  : result (gmap string (option candidate)) :=
  match keys with
  | [] => Ok best_formats
  | res :: rest =>
      match size_estimates !! res with
      | None => Raise KeyError
      | Some [] => average rest size_estimates best_formats
      | Some l =>
          avg_size ← mean l;
          match best_formats !! res with
          | None => Raise KeyError
          | Some None => average rest size_estimates best_formats
          | Some (Some c) =>
              average rest size_estimates
                (<[res := Some (set_filesize c (PFloat avg_size))]> best_formats)
          end
      end
  end.

(** [best_formats] as it stands when the menu is printed. *)
Definition compute_best (formats : list format) (duration_sec : option pynum)
  : result (gmap string (option candidate)) :=
  st ← scan duration_sec formats (init_best, init_sizes);
  average (map fst targets) (snd st) (fst st).

(** A time estimate of the menu: the text "N/A", or the text
    [f"{int(est // 60)}m {int(est % 60)}s"] of the estimate [est_sec]
    (the row keeps the estimate, not its digits). *)
Inductive time_text : Type :=
  | NA
  | MinSec (est_sec : pynum).

(** A line of the menu.  A row of an available resolution holds the
    values its text is formatted from: index, label, frame rate, the
    text of the size and the two time estimates. *)
Inductive row : Type :=
  | RowFormat (i : nat) (name : string) (fps : pynum) (size_str : SizeText.size_text)
      (est_time_str_s est_time_str_f : time_text)
  | RowNotAvailable (i : nat) (name : string).

(** What the program writes to the console. *)
Inductive out : Type :=
  | Header
  | Line (r : row)
  | Prompt
  | NotAvailableAgain
  | InvalidChoice.

(** [int(est // 60)] and [int(est % 60)]: defined for every int and
    every finite float; an infinity or a NaN gives a NaN quotient, which
    [int] refuses. *)
Definition min_sec (est : pynum) : result time_text :=
  match est with
  | PInt _ => Ok (MinSec est)
  | PFloat x => if is_finite x then Ok (MinSec est) else Raise ValueError
  end.

Definition option_truthy (n : option pynum) : bool :=
  match n with
  | Some x => truthy x
  | None => false
  end.

(** The two time columns of a row. *)
Definition time_columns (size_bytes download_speed_bps : option pynum)
  : result (time_text * time_text) :=
  match size_bytes, download_speed_bps with
  | Some size, Some speed =>
      if truthy size && truthy speed then
        q ← truediv size speed;
        est_sec_s ← mul q (PFloat lit_1_5);
        q' ← truediv size speed;
        est_sec_f ← truediv q' (PFloat lit_1_5);
        s ← min_sec est_sec_s;
        f ← min_sec est_sec_f;
        Ok (s, f)
      else Ok (NA, NA)
  | _, _ => Ok (NA, NA)
  end.

(** One turn of the loop over the targets: the size text, then the
    time estimates, then the line, whose f-string formats the frame
    rate with [:.0f]. *)
Definition menu_row (i : nat) (name : string) (fmt : option candidate)
    (download_speed_bps : option pynum) : result row :=
  match fmt with
  | Some c =>
      let size_bytes := c_filesize c in
      size_str ← SizeText.sizeof_fmt size_bytes "B";
      t ← time_columns size_bytes download_speed_bps;
      fps ← SizeText.fixed (c_fps c);
      Ok (RowFormat i name fps size_str (fst t) (snd t))
  | None => Ok (RowNotAvailable i name)
  end.

(** The loop over [enumerate(targets, 1)]: the rows printed, and the
    exception that stopped the loop, if any. *)
Fixpoint menu_rows (i : nat) (ts : list (string * string))
    (best_formats : gmap string (option candidate))
    (download_speed_bps : option pynum) : list out * result unit :=
  match ts with
  | [] => ([], Ok ())
  | (res, name) :: rest =>
      match best_formats !! res with
      | None => ([], Raise KeyError)
      | Some fmt =>
          match menu_row i name fmt download_speed_bps with
          | Raise e => ([], Raise e)
          | Ok r =>
              let '(o, x) := menu_rows (S i) rest best_formats download_speed_bps in
              (Line r :: o, x)
          end
      end
  end.

Definition menu (best_formats : gmap string (option candidate))
    (download_speed_bps : option pynum) : list out * result unit :=
  let '(o, x) := menu_rows 1 targets best_formats download_speed_bps in
  (Header :: o, x).

(** The loop [while True] over the lines typed by the user. *)
Fixpoint choose (best_formats : gmap string (option candidate)) (stdin : list string)
  : list out * result candidate :=
  match stdin with
  | [] => ([Prompt], Raise EOFError)
  | line :: rest =>
      let choice := strip line in
      if existsb (String.eqb choice) ["1"; "2"; "3"; "4"] then
        match int_of_str choice with
        | Raise e => ([Prompt], Raise e)
        | Ok n =>
            match nth_error targets (Z.to_nat (n - 1)) with
            | None => ([Prompt], Raise IndexError)
            | Some (chosen_res, _) =>
                match best_formats !! chosen_res with
                | None => ([Prompt], Raise KeyError)
                | Some (Some c) => ([Prompt], Ok c)
                | Some None =>
                    let '(o, x) := choose best_formats rest in
                    (Prompt :: NotAvailableAgain :: o, x)
                end
            end
        end
      else
        let '(o, x) := choose best_formats rest in
        (Prompt :: InvalidChoice :: o, x)
  end.

Definition pick_video_format (formats : list format) (duration_sec : option pynum)
    (download_speed_bps : option pynum) (stdin : list string)
  : list out * result candidate :=
  match compute_best formats duration_sec with
  | Raise e => ([], Raise e)
  | Ok best_formats =>
      match menu best_formats download_speed_bps with
      | (o, Raise e) => (o, Raise e)
      | (o, Ok _) =>
          let '(o', x) := choose best_formats stdin in (o ++ o', x)
      end
  end.

End FormatSelector.

(** ** Merge strategy *)

Module Merge.

(** [s.splitlines()] for the code points below 256: a line ends at
    "\n", "\r", "\r\n", "\v", "\f", one of the separators 28..30, or
    NEL; the terminators are dropped. *)
Definition is_line_boundary (c : ascii) : bool :=
  let n := code c in
  between 10 13 n || between 28 30 n || (n =? 133).

Fixpoint splitlines_from (cur : string) (s : string) : list string :=
  match s with
  | EmptyString =>
      match cur with EmptyString => [] | _ => [cur] end
  | String c r =>
      if is_line_boundary c then
        match r with
        | String c' r' =>
            if Ascii.eqb c CR && Ascii.eqb c' LF
            then cur :: splitlines_from "" r'
            else cur :: splitlines_from "" r
        | EmptyString => [cur]
        end
      else splitlines_from (cur +:+ String c "") r
  end.

Definition splitlines (s : string) : list string := splitlines_from "" s.

(** What the merge step does to the outside world, in order. *)
Inductive event : Type :=
  | Exec (argv : list string)
  | Print (text : string)
  | PrintDetectFailed (e : exn)
  | Input (prompt : string)
  | StartEtaThread
  | JoinEtaThread.

(** The answers of the outside world: the output (or the exception) of
    the two capability listings and of the codec probe, the exception
    raised by a checked [subprocess.run], the size of a file, and the
    lines the user types. *)
Record env : Type := {
  encoders_output : result string;
  decoders_output : result string;
  probe_output : result string;
  run_error : list string -> option exn;
  getsize : string -> result Z;
  stdin : list string
}.

Section WithPaths.

Variables FFMPEG_PATH FFPROBE_PATH : string.

Definition encoders_cmd : list string := [FFMPEG_PATH; "-hide_banner"; "-encoders"].
Definition decoders_cmd : list string := [FFMPEG_PATH; "-hide_banner"; "-decoders"].

Definition gpu_supports_nvenc_nvdec (w : env) : list event * (bool * bool) :=
  match encoders_output w with
  | Raise e => ([Exec encoders_cmd; PrintDetectFailed e], (false, false))
  | Ok out =>
      let nvenc := existsb (contains "nvenc") (splitlines out) in
      match decoders_output w with
      | Raise e =>
          ([Exec encoders_cmd; Exec decoders_cmd; PrintDetectFailed e], (nvenc, false))
      | Ok out' =>
          let nvdec :=
            existsb (fun line => contains "nvdec" line || contains "cuvid" line)
              (splitlines out') in
          ([Exec encoders_cmd; Exec decoders_cmd], (nvenc, nvdec))
      end
  end.

Definition probe_cmd (video_path : string) : list string :=
  [FFPROBE_PATH; "-v"; "error"; "-select_streams"; "v:0";
   "-show_entries"; "stream=codec_name"; "-of";
   "default=noprint_wrappers=1:nokey=1"; video_path].

Definition remux_cmd (video_path audio_path output_path : string) : list string :=
  [FFMPEG_PATH; "-y"; "-i"; video_path; "-i"; audio_path; "-c"; "copy"; output_path].

Definition reencode_cmd (video_codec video_path audio_path output_path : string)
  : list string :=
  [FFMPEG_PATH; "-y"; "-i"; video_path; "-i"; audio_path;
   "-c:v"; video_codec; "-preset"; "p1"; "-c:a"; "aac"; output_path].

Definition reencode_prompt : string :=
  "Video codec not GPU-friendly. Re-encode with GPU? (y) or try another format? (n): ".

Definition gpu_friendly (codec_name : option string) : bool :=
  match codec_name with
  | Some c => existsb (String.eqb c) ["h264"; "hevc"]
  | None => false
  end.

(** The re-encode: sizes of the inputs, the progress thread around
    the transcode process.  What the thread prints while the process
    runs is not part of the trace. *)
Definition reencode (w : env) (nvenc : bool) (video_codec : string)
    (video_path audio_path output_path : string) : list event * result unit :=
  let banner :=
    Print ("Merging video + audio using " +:+ (if nvenc then "GPU" else "CPU")
           +:+ " encoding...") in
  match getsize w video_path with
  | Raise e => ([banner], Raise e)
  | Ok _ =>
      match getsize w audio_path with
      | Raise e => ([banner], Raise e)
      | Ok _ =>
          let cmd := reencode_cmd video_codec video_path audio_path output_path in
          match run_error w cmd with
          | Some e => ([banner; StartEtaThread; Exec cmd], Raise e)
          | None =>
              ([banner; StartEtaThread; Exec cmd; JoinEtaThread;
                Print (String LF "Merge completed.")], Ok ())
          end
      end
  end.

Definition merge_video_audio (w : env) (video_path audio_path output_path : string)
  : list event * result unit :=
  let '(ev0, (nvenc, _)) := gpu_supports_nvenc_nvdec w in
  let codec_name :=
    match probe_output w with
    | Ok out => Some (strip out)
    | Raise _ => None
    end in
  let ev1 := ev0 ++ [Exec (probe_cmd video_path)] in
  if nvenc && gpu_friendly codec_name then
    let cmd := remux_cmd video_path audio_path output_path in
    (ev1 ++ [Print "GPU-friendly codec detected, remuxing without re-encode..."; Exec cmd],
     match run_error w cmd with
     | Some e => Raise e
     | None => Ok ()
     end)
  else if nvenc then
    match stdin w with
    | [] => (ev1 ++ [Input reencode_prompt], Raise EOFError)
    | line :: _ =>
        let choice := lower (strip line) in
        if negb (String.eqb choice "y") then
          (ev1 ++ [Input reencode_prompt;
                   Print "Aborting merge. Please select another format with GPU-friendly codec."],
           Ok ())
        else
          let '(ev2, x) :=
            reencode w nvenc "h264_nvenc" video_path audio_path output_path in
          (ev1 ++ [Input reencode_prompt] ++ ev2, x)
    end
  else
    let '(ev2, x) := reencode w nvenc "libx264" video_path audio_path output_path in
    (ev1 ++ [Print "GPU encoding not available, using CPU..."] ++ ev2, x).

End WithPaths.

End Merge.

(** ** Renaming the output directory *)

Module Rename.

(** [p.rfind(c)] for a single character: the last index, or -1. *)
Fixpoint rfind_from (i : Z) (found : Z) (c : ascii) (p : string) : Z :=
  match p with
  | EmptyString => found
  | String d r => rfind_from (i + 1) (if Ascii.eqb d c then i else found) c r
  end.

Definition rfind (c : ascii) (p : string) : Z := rfind_from 0 (-1) c p.

(** [p[i:]] and [p[:i]] for [0 <= i]. *)
Definition slice_from (i : Z) (p : string) : string :=
  String.substring (Z.to_nat i) (String.length p - Z.to_nat i) p.

Definition slice_to (i : Z) (p : string) : string :=
  String.substring 0 (Z.to_nat i) p.

(** The loop of [genericpath._splitext] that skips the leading dots of
    the file name: is there a character other than a dot in
    [p[filenameIndex:dotIndex]]? *)
Fixpoint has_non_dot (n : nat) (s : string) : bool :=
  match n, s with
  | O, _ => false
  | S k, String d r => negb (Ascii.eqb d "."%char) || has_non_dot k r
  | S _, EmptyString => false
  end.

Section WithPlatform.

(** The path flavour of the platform ([posixpath] or [ntpath]): the
    separator, the alternative separator if there is one, and the two
    functions [os.path.dirname] and [os.path.join]. *)
Variable sep : ascii.
Variable altsep : option ascii.
Variable dirname : string -> string.
Variable join : string -> string -> string.

(** [os.path.splitext(p)]. *)
Definition splitext (p : string) : string * string :=
  let sepIndex := rfind sep p in
  let sepIndex :=
    match altsep with
    | Some a => Z.max sepIndex (rfind a p)
    | None => sepIndex
    end in
  let dotIndex := rfind "."%char p in
  if (sepIndex <? dotIndex) &&
     has_non_dot (Z.to_nat (dotIndex - (sepIndex + 1))) (slice_from (sepIndex + 1) p)
  then (slice_to dotIndex p, slice_from dotIndex p)
  else (p, "").

(** What the rename step does to the outside world, in order. *)
Inductive event : Type :=
  | Print (text : string)
  | OsRename (src dst : string).

(** The answers of the file system. *)
Record env : Type := {
  listdir : string -> result (list string);
  path_exists : string -> bool;
  rename_error : string -> string -> option exn
}.

Definition has_ext (e : string) (f : string) : bool := endswith (lower f) e.

(** [[mp4 files] or [wav files]]. *)
Definition candidates (files : list string) : list string :=
  match filter (fun f => has_ext ".mp4" f = true) files with
  | [] => filter (fun f => has_ext ".wav" f = true) files
  | l => l
  end.

Definition rename_folder (w : env) (target_dir : string) : list event * result unit :=
  match listdir w target_dir with
  | Raise e => ([], Raise e)
  | Ok files =>
      match candidates files with
      | [] => ([Print "No mp4 or wav output found for renaming."], Ok ())
      | first :: _ =>
          let base_name := fst (splitext first) in
          let parent_dir := dirname target_dir in
          let new_folder_path := join parent_dir base_name in
          if path_exists w new_folder_path then
            ([Print ("Target folder name '" +:+ base_name
                     +:+ "' already exists, skipping rename.")], Ok ())
          else
            match rename_error w target_dir new_folder_path with
            | Some e => ([OsRename target_dir new_folder_path], Raise e)
            | None =>
                ([OsRename target_dir new_folder_path;
                  Print ("Renamed folder to: " +:+ new_folder_path)], Ok ())
            end
      end
  end.

(** The changes a trace makes to the file system. *)
Definition mutations (t : list event) : list (string * string) :=
  flat_map (fun e => match e with OsRename a b => [(a, b)] | Print _ => [] end) t.

End WithPlatform.

(** The POSIX flavour of [os.path.dirname] and [os.path.join]. *)
Definition posix_sep : ascii := "/"%char.

Fixpoint rstrip_sep (s : string) : string :=
  match s with
  | EmptyString => EmptyString
  | String c r =>
      match rstrip_sep r with
      | EmptyString => if Ascii.eqb c posix_sep then EmptyString else String c EmptyString
      | r' => String c r'
      end
  end.

Definition posix_dirname (p : string) : string :=
  let i := rfind posix_sep p + 1 in
  let head := slice_to i p in
  match rstrip_sep head with
  | EmptyString => head
  | stripped => stripped
  end.

Definition posix_join (a p : string) : string :=
  if String.prefix "/" p then p
  else if String.eqb a "" || endswith a "/" then a +:+ p
  else a +:+ "/" +:+ p.

End Rename.

(** ** Effects of the download step and of [main] *)

Module Effects.

(** The exceptions of the download step and of [main]: those of the
    parts above, and the two raised when [None] is used as a string or
    as a dictionary. *)
Inductive error : Type :=
  | Exn (e : exn)
  | AttributeError
  | TypeError.

Inductive outcome (A : Type) : Type :=
  | Return (a : A)
  | Throw (e : error).
Arguments Return {A} a.
Arguments Throw {A} e.

Definition of_result {A} (r : result A) : outcome A :=
  match r with
  | Ok a => Return a
  | Raise e => Throw (Exn e)
  end.

(** A computation: the trace of what it did, in order, and how it
    ended.  Nothing runs after an exception. *)
Definition io (E A : Type) : Type := list E * outcome A.

Definition io_bind {E A B} (m : io E A) (k : A -> io E B) : io E B :=
  match m with
  | (t, Return a) => let '(t', r) := k a in (t ++ t', r)
  | (t, Throw e) => (t, Throw e)
  end.

#[global] Instance io_mbind {E} : MBind (io E) := fun A B k m => io_bind m k.
#[global] Instance io_mret {E} : MRet (io E) := fun A a => ([], Return a).

Definition throw {E A} (e : error) : io E A := ([], Throw e).

(** One action on the outside world, which may raise. *)
Definition perform {E} (ev : E) (err : option exn) : io E unit :=
  ([ev], match err with Some e => Throw (Exn e) | None => Return () end).

(** A step of another part of the program, its events wrapped. *)
Definition lift {E F A} (wrap : E -> F) (m : list E * result A) : io F A :=
  (map wrap (fst m), of_result (snd m)).

Definition embed {E F A} (wrap : E -> F) (m : io E A) : io F A :=
  (map wrap (fst m), snd m).

End Effects.
Import Effects.

(** ** Downloading *)

Module Download.
Import FormatSelector.

(** [s.replace(a, b)] for single characters. *)
Fixpoint replace_char (a b : ascii) (s : string) : string :=
  match s with
  | EmptyString => EmptyString
  | String c r => String (if Ascii.eqb c a then b else c) (replace_char a b r)
  end.

(** The key 'title' of the extracted information: absent, [None], or a
    text. *)
Inductive title_entry : Type :=
  | NoTitle
  | TitleNone
  | Title (s : string).

(** What [extract_info] returns, with the keys the program reads.  For
    'duration', [None] is a key that is absent or holds [None]; for
    'formats', [None] is an absent key. *)
Record info : Type := {
  info_title : title_entry;
  info_duration : option pynum;
  info_formats : option (list format)
}.

(** What the download step does to the outside world, in order. *)
Inductive event : Type :=
  | MakeDirs (path : string)
  | ExtractInfo (url : string)
  | YdlDownload (url : string) (format : option string) (outtmpl : string)
  | Merging (e : Merge.event)
  | Exec (argv : list string)
  | Remove (path : string)
  | PrintConverting (temp_audio wav_output : string)
  | Print (text : string).

(** The answers of the outside world: the exception raised by
    [os.makedirs], the extracted information, the exception raised by a
    download, the subprocesses and the console of the merge step, the
    exception raised by [os.remove]. *)
Record env : Type := {
  makedirs_error : string -> option exn;
  extract_info : string -> result info;
  download_error : string -> option string -> string -> option exn;
  subprocesses : Merge.env;
  remove_error : string -> option exn
}.

(** [info_dict.get('title', 'video').replace('/', '_').replace('\\', '_')]. *)
Definition sanitize (title : string) : string :=
  replace_char "092"%char "_"%char (replace_char "/"%char "_"%char title).

Definition video_title_of (info_dict : info) : io event string :=
  match info_title info_dict with
  | NoTitle => mret (sanitize "video")
  | TitleNone => throw AttributeError
  | Title s => mret (sanitize s)
  end.

(** [video_fmt['format_id']]. *)
Definition format_id_of (video_fmt : option candidate) : io event (option string) :=
  match video_fmt with
  | Some c => mret (c_format_id c)
  | None => throw TypeError
  end.

Section WithPaths.

Variables FFMPEG_PATH FFPROBE_PATH : string.
Variable join : string -> string -> string.

Definition ydl_download (w : env) (url : string) (format : option string)
    (outtmpl : string) : io event unit :=
  perform (YdlDownload url format outtmpl) (download_error w url format outtmpl).

Definition wav_cmd (temp_audio wav_output : string) : list string :=
  [FFMPEG_PATH; "-y"; "-i"; temp_audio; "-ar"; "96000"; "-sample_fmt"; "s24le";
   wav_output].

Definition download_video_audio (w : env) (url : string)
    (video_fmt : option candidate) (do_audio do_join : bool) (target_dir : string)
    (video_only : bool) : io event unit :=
  _ ← perform (MakeDirs target_dir) (makedirs_error w target_dir);
  info_dict ← ([ExtractInfo url], of_result (extract_info w url));
  video_title ← video_title_of info_dict;
  if do_join && do_audio && negb video_only then
    let temp_video := join target_dir "temp_video.mp4" in
    let temp_audio := join target_dir "temp_audio.m4a" in
    let final_output := join target_dir (video_title +:+ ".mp4") in
    format ← format_id_of video_fmt;
    _ ← ydl_download w url format temp_video;
    _ ← ydl_download w url (Some "bestaudio[ext=m4a]/bestaudio") temp_audio;
    _ ← lift Merging
          (Merge.merge_video_audio FFMPEG_PATH FFPROBE_PATH (subprocesses w)
             temp_video temp_audio final_output);
    _ ← perform (Remove temp_video) (remove_error w temp_video);
    perform (Remove temp_audio) (remove_error w temp_audio)
  else if video_only then
    let outtmpl := join target_dir (video_title +:+ ".%(ext)s") in
    format ← format_id_of video_fmt;
    ydl_download w url format outtmpl
  else if do_audio && negb video_only then
    let temp_audio := join target_dir (video_title +:+ ".m4a") in
    let wav_output := join target_dir (video_title +:+ ".wav") in
    _ ← ydl_download w url (Some "bestaudio/best") temp_audio;
    _ ← perform (PrintConverting temp_audio wav_output) None;
    let cmd := wav_cmd temp_audio wav_output in
    _ ← perform (Exec cmd) (Merge.run_error (subprocesses w) cmd);
    _ ← perform (Remove temp_audio) (remove_error w temp_audio);
    perform (Print "Conversion complete.") None
  else mret ().

End WithPaths.

(** The formats asked of the downloader, the files removed and the
    commands of the merge step, in the order of the trace. *)
Definition requested (t : list event) : list (option string) :=
  flat_map (fun e => match e with YdlDownload _ f _ => [f] | _ => [] end) t.

Definition removed (t : list event) : list string :=
  flat_map (fun e => match e with Remove p => [p] | _ => [] end) t.

Definition merging (t : list event) : list Merge.event :=
  flat_map (fun e => match e with Merging m => [m] | _ => [] end) t.

End Download.

(** ** The main program *)

Module Main.
Import FormatSelector Download.

(** What a run does to the outside world, in order. *)
Inductive event : Type :=
  | Input (prompt : string)
  | ClearConsole
  | Print (text : string)
  | Store (l : SpeedStore.log)
  | GetVideoFormats (url : string)
  | Selector (o : FormatSelector.out)
  | Downloading (e : Download.event)
  | Renaming (e : Rename.event).

(** The answers of the outside world: the lines the user types, the
    speed file, the information extracted by [get_video_formats], the
    text of the current time, and the environments of the download and
    rename steps.  The lines the merge step reads are those of [stdin]
    that are left when it starts. *)
Record env : Type := {
  stdin : list string;
  store : SpeedStore.store;
  formats_info : string -> result info;
  timestamp : string;
  downloads : Download.env;
  files : Rename.env
}.

Definition with_stdin (m : Merge.env) (lines : list string) : Merge.env :=
  {| Merge.encoders_output := Merge.encoders_output m;
     Merge.decoders_output := Merge.decoders_output m;
     Merge.probe_output := Merge.probe_output m;
     Merge.run_error := Merge.run_error m;
     Merge.getsize := Merge.getsize m;
     Merge.stdin := lines |}.

Definition reading (d : Download.env) (lines : list string) : Download.env :=
  {| makedirs_error := makedirs_error d;
     extract_info := extract_info d;
     download_error := download_error d;
     subprocesses := with_stdin (subprocesses d) lines;
     remove_error := remove_error d |}.

(** The number of lines read by a selection: one per prompt. *)
Definition inputs (o : list out) : nat :=
  length (List.filter (fun x => match x with Prompt => true | _ => false end) o).

Definition mode_menu : list event :=
  [ClearConsole;
   Print ("Select download mode:" +:+ String LF "");
   Print "  1. Video + Audio (joined)";
   Print "  2. Video + Audio (separate)";
   Print "  3. Video only";
   Print ("  4. Audio only" +:+ String LF "");
   Input "Enter choice: "].

Definition is_mode (choice : string) : bool :=
  existsb (String.eqb choice) ["1"; "2"; "3"; "4"].

(** The loop [while choice not in {'1','2','3','4'}]: the choice, and
    the lines left. *)
Fixpoint read_mode (lines : list string) : io event (string * list string) :=
  match lines with
  | [] => (mode_menu, Throw (Exn EOFError))
  | line :: rest =>
      let choice := strip line in
      if is_mode choice then (mode_menu, Return (choice, rest))
      else let '(t, r) := read_mode rest in (mode_menu ++ t, r)
  end.

Section WithPlatform.

Variables RAW_PATH FFMPEG_PATH FFPROBE_PATH : string.
Variable sep : ascii.
Variable altsep : option ascii.
Variable dirname : string -> string.
Variable join : string -> string -> string.

Definition get_video_formats (w : env) (url : string) : io event info :=
  ([GetVideoFormats url], of_result (formats_info w url)).

(** The block [if do_video]: the format picked, and the lines left. *)
Definition select_format (w : env) (url : string) (download_speed_bps : option Z)
    (lines : list string) : io event (option candidate * list string) :=
  info ← get_video_formats w url;
  let duration := info_duration info in
  formats ← match info_formats info with
            | Some fs => mret fs
            | None => throw (Exn KeyError)
            end;
  let picked :=
    pick_video_format formats duration (option_map PInt download_speed_bps) lines in
  video_fmt ← lift Selector picked;
  mret (Some video_fmt, skipn (inputs (fst picked)) lines).

Definition main (w : env) : io event unit :=
  match stdin w with
  | [] => ([Input "Paste YouTube URL: "], Throw (Exn EOFError))
  | line :: lines =>
      let url := strip line in
      _ ← perform (Input "Paste YouTube URL: ") None;
      '(choice, lines) ← read_mode lines;
      let do_video := existsb (String.eqb choice) ["1"; "2"; "3"] in
      let do_audio := existsb (String.eqb choice) ["1"; "2"; "4"] in
      let do_join := String.eqb choice "1" in
      let video_only := String.eqb choice "3" in
      download_speed_bps ← lift Store (SpeedStore.load_last_speed (store w));
      _ ← match download_speed_bps with
          | None =>
              perform (Print "No saved download speed found, showing estimates as N/A")
                None
          | Some _ => mret ()
          end;
      '(video_fmt, lines) ←
        (if do_video then select_format w url download_speed_bps lines
         else mret (None, lines));
      let target_dir := join RAW_PATH (timestamp w) in
      _ ← embed Downloading
            (download_video_audio FFMPEG_PATH FFPROBE_PATH join
               (reading (downloads w) lines) url video_fmt do_audio do_join
               target_dir video_only);
      lift Renaming (Rename.rename_folder sep altsep dirname join (files w) target_dir)
  end.

End WithPlatform.

(** The events of the download step in a trace of [main]. *)
Definition downloading (t : list event) : list Download.event :=
  flat_map (fun e => match e with Downloading d => [d] | _ => [] end) t.

End Main.

(** * Properties *)

(** ** The result monad *)

Module ResultFacts.

Lemma bind_Ok {A B} (a : A) (f : A -> result B) : (x ← Ok a; f x) = f a.
Proof. reflexivity. Qed.

Lemma bind_assoc {A B C} (r : result A) (f : A -> result B) (g : B -> result C) :
  (y ← (x ← r; f x); g y) = (x ← r; y ← f x; g y).
Proof. destruct r; reflexivity. Qed.

End ResultFacts.

(** ** Division and truncation in terms of the Standard Library *)

Module MeanSpec.

(** An int as an operand of a division: the binary number with that
    mantissa and exponent 0, which is the int itself, whatever its
    size. *)
Definition operand (z : Z) : spec_float :=
  match z with
  | Z0 => S754_zero false
  | Zpos m => S754_finite false m 0
  | Zneg m => S754_finite true m 0
  end.

(** The arithmetic mean of a list of ints in binary64: the sum of the
    elements over their number, by the IEEE 754 division of the Standard
    Library at precision 53 and maximal exponent 1024. *)
Definition arithmetic_mean (l : list Z) : spec_float :=
  SFdiv 53 1024 (operand (fold_right Z.add 0 l)) (operand (Z.of_nat (length l))).

(** The integer part of a finite binary64 number: [m * 2^e] cut
    towards zero. *)
Definition integer_part (x : spec_float) : option Z :=
  match x with
  | S754_zero _ => Some 0
  | S754_finite s m e =>
      let a := if 0 <=? e then Zpos m * 2 ^ e else Zpos m / 2 ^ (- e) in
      Some (if s then - a else a)
  | _ => None
  end.

Lemma sum_fold_right (l : list Z) : sum l = fold_right Z.add 0 l.
Proof.
  unfold sum. rewrite <- fold_left_rev_right.
  assert (forall (l1 : list Z) (acc : Z),
            fold_right (fun y x => x + y) acc l1 = fold_right Z.add 0 l1 + acc) as H.
  { induction l1 as [|x l1 IH]; intros acc; simpl; [lia|]. rewrite IH. lia. }
  rewrite H. clear H.
  assert (forall l1 : list Z, fold_right Z.add 0 (rev l1) = fold_right Z.add 0 l1) as H.
  { induction l1 as [|x l1 IH]; simpl; [reflexivity|].
    rewrite fold_right_app. simpl.
    assert (forall (l2 : list Z) (a : Z),
              fold_right Z.add a l2 = fold_right Z.add 0 l2 + a) as H2.
    { induction l2 as [|y l2 IH2]; intros a; simpl; [lia|]. rewrite IH2. lia. }
    rewrite H2, IH. lia. }
  rewrite H. lia.
Qed.

(** [sum(l) / len(l)] is the arithmetic mean, and raises exactly when
    the mean is beyond the range of binary64. *)
Lemma mean_arithmetic (l : list Z) :
  l <> [] ->
  mean l =
  if is_inf (arithmetic_mean l) then Raise OverflowError else Ok (arithmetic_mean l).
Proof.
  intros Hne. unfold mean, arithmetic_mean. rewrite sum_fold_right.
  destruct l as [|x l]; [contradiction|].
  change (length (x :: l)) with (S (length l)).
  rewrite Nat2Z.inj_succ, <- Z.add_1_r.
  destruct (Z.of_nat (length l) + 1) as [|n|n] eqn:En; try lia.
  destruct (fold_right Z.add 0 (x :: l)) as [|m|m]; reflexivity.
Qed.

Lemma mean_Ok (l : list Z) (avg : float) :
  l <> [] ->
  mean l = Ok avg <-> avg = arithmetic_mean l /\ is_inf (arithmetic_mean l) = false.
Proof.
  intros Hne. rewrite (mean_arithmetic l Hne).
  destruct (is_inf (arithmetic_mean l)); split.
  - discriminate.
  - intros [_ H]. discriminate.
  - intros [= <-]. auto.
  - intros [-> _]. reflexivity.
Qed.

(** [int(x)] on a float is its integer part; it raises on an infinity
    and on a NaN. *)
Lemma to_int_integer_part (x : float) (i : Z) :
  to_int (PFloat x) = Ok i <-> integer_part x = Some i.
Proof.
  unfold to_int, trunc, integer_part.
  destruct x as [s|s| |s m e]; try (split; discriminate).
  - split; intros [= <-]; reflexivity.
  - assert (match e with
            | Zneg k => Z.shiftr (Zpos m) (Zpos k)
            | _ => Z.shiftl (Zpos m) e
            end = if 0 <=? e then Zpos m * 2 ^ e else Zpos m / 2 ^ (- e)) as ->.
    { destruct e as [|k|k].
      - rewrite Z.shiftl_mul_pow2 by lia. reflexivity.
      - rewrite Z.shiftl_mul_pow2 by lia. reflexivity.
      - rewrite Z.shiftr_div_pow2 by lia. reflexivity. }
    split; intros [= <-]; reflexivity.
Qed.

End MeanSpec.

(** ** Size estimate of one stream *)

Module EstimateSpec.
Import FormatSelector.

(** The first alternative that is available; an alternative is only
    looked at when all the earlier ones are unavailable. *)
Fixpoint first_available {A} (alternatives : list (result (option A)))
  : result (option A) :=
  match alternatives with
  | [] => Ok None
  | Ok (Some v) :: _ => Ok (Some v)
  | Ok None :: rest => first_available rest
  | Raise e :: _ => Raise e
  end.

(** A number is available when it is present and not zero. *)
Definition available (n : option pynum) : bool :=
  match n with
  | Some x => truthy x
  | None => false
  end.

(** Bitrate times duration over eight: [tbr] is in kilobits per second,
    the product is taken as [duration * tbr * 1000 / 8] and cut to an
    int. *)
Definition bitrate_estimate (f : format) (duration_sec : option pynum)
  : result (option Z) :=
  match tbr f, duration_sec with
  | Some t, Some d =>
      if available (Some t) && available (Some d) then
        bits ← (x ← mul d t; mul x (PInt 1000));
        bytes ← truediv bits (PInt 8);
        n ← to_int bytes;
        Ok (Some n)
      else Ok None
  | _, _ => Ok None
  end.

Definition estimate_size_spec (f : format) (duration_sec : option pynum)
  : result (option Z) :=
  first_available
    [Ok (filesize f); Ok (filesize_approx f); bitrate_estimate f duration_sec].

Lemma estimate_size_refines (f : format) (duration_sec : option pynum) :
  estimate_size f duration_sec = estimate_size_spec f duration_sec.
Proof.
  unfold estimate_size, estimate_size_spec, bitrate_estimate; simpl.
  destruct (filesize f); [reflexivity|].
  destruct (filesize_approx f); [reflexivity|].
  destruct (tbr f) as [t|]; [|reflexivity].
  destruct duration_sec as [d|]; [|reflexivity].
  simpl. destruct (truthy t && truthy d); [|reflexivity].
  rewrite ResultFacts.bind_assoc.
  match goal with |- ?r = _ => destruct r as [[v|]|e]; reflexivity end.
Qed.

(** C4.  For every stream descriptor and duration, the size estimate
    follows the fallback order: the direct size if present; else the
    approximate size if present; else, when bitrate and duration are both
    available (present and not zero), bitrate times duration over eight,
    computed as [int(duration * tbr * 1000 / 8)] with [tbr] in kilobits
    per second; else [None].  In short, it is the first available of the
    three alternatives. *)
Theorem estimate_size_fallback_order (f : format) (duration_sec : option pynum) :
  (forall s, filesize f = Some s -> estimate_size f duration_sec = Ok (Some s)) /\
  (forall s, filesize f = None -> filesize_approx f = Some s ->
     estimate_size f duration_sec = Ok (Some s)) /\
  (forall t d, filesize f = None -> filesize_approx f = None ->
     tbr f = Some t -> duration_sec = Some d ->
     truthy t = true -> truthy d = true ->
     estimate_size f duration_sec =
       (x ← mul d t; y ← mul x (PInt 1000); z ← truediv y (PInt 8);
        n ← to_int z; Ok (Some n))) /\
  (filesize f = None -> filesize_approx f = None ->
     available (tbr f) && available duration_sec = false ->
     estimate_size f duration_sec = Ok None) /\
  estimate_size f duration_sec = estimate_size_spec f duration_sec.
Proof.
  split; [|split; [|split; [|split]]].
  - intros s H. unfold estimate_size. rewrite H. reflexivity.
  - intros s H1 H2. unfold estimate_size. rewrite H1, H2. reflexivity.
  - intros t d H1 H2 Ht Hd Tt Td. unfold estimate_size.
    rewrite H1, H2, Ht, Hd, Tt, Td. reflexivity.
  - intros H1 H2 H3. unfold estimate_size. rewrite H1, H2.
    destruct (tbr f) as [t|], duration_sec as [x|]; simpl in *; try reflexivity.
    rewrite H3. reflexivity.
  - apply estimate_size_refines.
Qed.

(** Ten seconds at 720 kbit/s are 900000 bytes. *)
Example estimate_from_bitrate :
  estimate_size
    {| format_id := Some "d"; vcodec := Some "vp9"; height := Some 1080;
       fps := Some (PInt 25); ext := Some (Some "webm"); filesize := None;
       filesize_approx := None; tbr := Some (PInt 720) |}
    (Some (PInt 10)) = Ok (Some 900000).
Proof. vm_compute. reflexivity. Qed.

End EstimateSpec.

(** ** Merge decision *)

Module MergeSpec.
Import Merge.

(** The commands a trace launched, and the questions it asked. *)
Definition launched (t : list event) : list (list string) :=
  flat_map (fun e => match e with Exec argv => [argv] | _ => [] end) t.

Definition prompts (t : list event) : list string :=
  flat_map (fun e => match e with Input p => [p] | _ => [] end) t.

(** The codec name the probe gave, if the probe ran. *)
Definition probed_codec (w : env) : option string :=
  match probe_output w with
  | Ok out => Some (strip out)
  | Raise _ => None
  end.

Lemma launched_app t1 t2 : launched (t1 ++ t2) = launched t1 ++ launched t2.
Proof. unfold launched. apply flat_map_app. Qed.

Lemma prompts_app t1 t2 : prompts (t1 ++ t2) = prompts t1 ++ prompts t2.
Proof. unfold prompts. apply flat_map_app. Qed.

Lemma gpu_friendly_iff c :
  gpu_friendly c = true <-> c = Some "h264" \/ c = Some "hevc".
Proof.
  destruct c as [s|]; simpl.
  - rewrite !orb_true_iff, !String.eqb_eq. split.
    + intros [->|[->|H]]; [now left|now right|discriminate].
    + intros [[= ->]|[= ->]]; auto.
  - split; [discriminate|intros [H|H]; discriminate].
Qed.

Section Props.

Variables FFMPEG_PATH FFPROBE_PATH : string.

Abbreviation detect := (gpu_supports_nvenc_nvdec FFMPEG_PATH).
Abbreviation merge := (merge_video_audio FFMPEG_PATH FFPROBE_PATH).

(** When encoding support is detected, both capability listings ran
    and nothing else happened during detection. *)
Lemma detect_nvenc_trace w :
  fst (snd (detect w)) = true ->
  launched (fst (detect w)) = [encoders_cmd FFMPEG_PATH; decoders_cmd FFMPEG_PATH]
  /\ prompts (fst (detect w)) = [].
Proof.
  unfold gpu_supports_nvenc_nvdec.
  destruct (encoders_output w); [|discriminate].
  destruct (decoders_output w); simpl; auto.
Qed.

Lemma detect_no_prompt w : prompts (fst (detect w)) = [].
Proof.
  unfold gpu_supports_nvenc_nvdec.
  destruct (encoders_output w); [|reflexivity].
  destruct (decoders_output w); reflexivity.
Qed.

Lemma reencode_no_prompt w nv codec v a o :
  prompts (fst (reencode FFMPEG_PATH w nv codec v a o)) = [].
Proof.
  unfold reencode.
  destruct (getsize w v); [|reflexivity].
  destruct (getsize w a); [|reflexivity].
  destruct (run_error w _); reflexivity.
Qed.

(** C5.  When nvenc encoding is detected and the probed codec is h264
    or hevc, the merge is a remux: the only commands launched are the
    two capability listings, the probe of the codec of the first video
    stream, and one ffmpeg command that copies the streams of the video
    and audio files into the output ([-c copy]); the user is never asked
    anything, and the merge succeeds or fails as the stream copy does. *)
Theorem gpu_friendly_codec_is_remuxed (w : env) (v a o : string) :
  fst (snd (detect w)) = true ->
  probed_codec w = Some "h264" \/ probed_codec w = Some "hevc" ->
  prompts (fst (merge w v a o)) = [] /\
  launched (fst (merge w v a o)) =
    [[FFMPEG_PATH; "-hide_banner"; "-encoders"];
     [FFMPEG_PATH; "-hide_banner"; "-decoders"];
     [FFPROBE_PATH; "-v"; "error"; "-select_streams"; "v:0";
      "-show_entries"; "stream=codec_name"; "-of";
      "default=noprint_wrappers=1:nokey=1"; v];
     [FFMPEG_PATH; "-y"; "-i"; v; "-i"; a; "-c"; "copy"; o]] /\
  In (Print "GPU-friendly codec detected, remuxing without re-encode...")
     (fst (merge w v a o)) /\
  snd (merge w v a o) =
    match run_error w [FFMPEG_PATH; "-y"; "-i"; v; "-i"; a; "-c"; "copy"; o] with
    | Some e => Raise e
    | None => Ok ()
    end.
Proof.
  intros Hnv Hcodec. apply gpu_friendly_iff in Hcodec.
  destruct (detect_nvenc_trace w Hnv) as [Hl Hp].
  unfold merge_video_audio. fold (probed_codec w).
  destruct (detect w) as [ev0 [nvenc nvdec]]. simpl in *. subst nvenc.
  rewrite Hcodec. simpl.
  rewrite !prompts_app, !launched_app, Hl, Hp. simpl.
  repeat split; try reflexivity.
  rewrite !in_app_iff. simpl. auto.
Qed.

(** C6.  With nvenc encoding detected and a probed codec that is not
    h264 or hevc (or no codec at all), the user is asked once to
    confirm; on any answer that is not "y" (blanks and case apart)
    the merge returns having launched nothing but the listings and
    the probe.  Without nvenc encoding the user is never asked, and
    once the two input sizes are read the only command launched after
    the detection and the probe is the transcode of the video with the
    software encoder ([-c:v libx264]) into the output, as which the
    merge succeeds or fails. *)
Theorem reencode_needs_confirmation (w : env) (v a o : string) :
  (fst (snd (detect w)) = true /\ gpu_friendly (probed_codec w) = false ->
     prompts (fst (merge w v a o)) =
       ["Video codec not GPU-friendly. Re-encode with GPU? (y) or try another format? (n): "]
     /\
     forall line rest,
       stdin w = line :: rest -> lower (strip line) <> "y" ->
       snd (merge w v a o) = Ok () /\
       launched (fst (merge w v a o)) =
         [[FFMPEG_PATH; "-hide_banner"; "-encoders"];
          [FFMPEG_PATH; "-hide_banner"; "-decoders"];
          [FFPROBE_PATH; "-v"; "error"; "-select_streams"; "v:0";
           "-show_entries"; "stream=codec_name"; "-of";
           "default=noprint_wrappers=1:nokey=1"; v]] /\
       In (Print "Aborting merge. Please select another format with GPU-friendly codec.")
          (fst (merge w v a o)))
  /\
  (fst (snd (detect w)) = false ->
     prompts (fst (merge w v a o)) = [] /\
     (is_ok (getsize w v) = true -> is_ok (getsize w a) = true ->
      launched (fst (merge w v a o)) =
        launched (fst (detect w)) ++
        [[FFPROBE_PATH; "-v"; "error"; "-select_streams"; "v:0";
          "-show_entries"; "stream=codec_name"; "-of";
          "default=noprint_wrappers=1:nokey=1"; v];
         [FFMPEG_PATH; "-y"; "-i"; v; "-i"; a;
          "-c:v"; "libx264"; "-preset"; "p1"; "-c:a"; "aac"; o]] /\
      snd (merge w v a o) =
        match run_error w [FFMPEG_PATH; "-y"; "-i"; v; "-i"; a;
                           "-c:v"; "libx264"; "-preset"; "p1"; "-c:a"; "aac"; o] with
        | Some e => Raise e
        | None => Ok ()
        end)).
Proof.
  split.
  - intros [Hnv Hcodec].
    destruct (detect_nvenc_trace w Hnv) as [Hl Hp].
    unfold merge_video_audio. fold (probed_codec w).
    destruct (detect w) as [ev0 [nvenc nvdec]]. simpl in *. subst nvenc.
    rewrite Hcodec. simpl.
    split.
    + destruct (stdin w) as [|line rest]; simpl.
      * rewrite !prompts_app, Hp. reflexivity.
      * destruct (negb (String.eqb (lower (strip line)) "y")); simpl.
        -- rewrite !prompts_app, Hp. reflexivity.
        -- pose proof (reencode_no_prompt w true "h264_nvenc" v a o) as Hr.
           destruct (reencode _ _ _ _ _ _ _) as [ev2 x]. simpl in *.
           unfold prompts in *. rewrite !flat_map_app, Hp. simpl.
           rewrite Hr. reflexivity.
    + intros line rest Hin Hno. rewrite Hin.
      apply String.eqb_neq in Hno. rewrite Hno. simpl.
      rewrite !launched_app, Hl. simpl. repeat split; try reflexivity.
      rewrite !in_app_iff. simpl. auto.
  - intros Hnv.
    pose proof (detect_no_prompt w) as Hp.
    unfold merge_video_audio. fold (probed_codec w).
    destruct (detect w) as [ev0 [nvenc nvdec]]. simpl in *. subst nvenc. simpl.
    pose proof (reencode_no_prompt w false "libx264" v a o) as Hr.
    unfold reencode in *.
    destruct (getsize w v) as [sv|e]; simpl in *.
    + destruct (getsize w a) as [sa|e]; simpl in *.
      * destruct (run_error w _) as [e|]; simpl in *;
          rewrite !prompts_app, !launched_app, Hp; simpl;
          (split; [reflexivity|]); intros _ _;
          rewrite <- !app_assoc; simpl; auto.
      * rewrite !prompts_app, Hp. simpl. split; [reflexivity|]. discriminate.
    + rewrite !prompts_app, Hp. simpl. split; [reflexivity|]. discriminate.
Qed.

End Props.

(** A run with an nvenc encoder listed and an h264 video. *)
Definition env_h264 : env :=
  {| encoders_output :=
       Ok (" V....D h264_nvenc  NVIDIA NVENC H.264 encoder" +:+ String LF " V....D libx264");
     decoders_output := Ok " V..... h264_cuvid";
     probe_output := Ok ("h264" +:+ String LF "");
     run_error := fun _ => None;
     getsize := fun _ => Ok 1000;
     stdin := [] |}.

Lemma gpu_friendly_codec_is_remuxed_witness :
  prompts (fst (merge_video_audio "ffmpeg" "ffprobe" env_h264 "v.mp4" "a.m4a" "o.mp4")) = [] /\
  launched (fst (merge_video_audio "ffmpeg" "ffprobe" env_h264 "v.mp4" "a.m4a" "o.mp4")) =
    [["ffmpeg"; "-hide_banner"; "-encoders"];
     ["ffmpeg"; "-hide_banner"; "-decoders"];
     ["ffprobe"; "-v"; "error"; "-select_streams"; "v:0";
      "-show_entries"; "stream=codec_name"; "-of";
      "default=noprint_wrappers=1:nokey=1"; "v.mp4"];
     ["ffmpeg"; "-y"; "-i"; "v.mp4"; "-i"; "a.m4a"; "-c"; "copy"; "o.mp4"]] /\
  In (Print "GPU-friendly codec detected, remuxing without re-encode...")
     (fst (merge_video_audio "ffmpeg" "ffprobe" env_h264 "v.mp4" "a.m4a" "o.mp4")) /\
  snd (merge_video_audio "ffmpeg" "ffprobe" env_h264 "v.mp4" "a.m4a" "o.mp4") =
    match run_error env_h264
            ["ffmpeg"; "-y"; "-i"; "v.mp4"; "-i"; "a.m4a"; "-c"; "copy"; "o.mp4"] with
    | Some e => Raise e
    | None => Ok ()
    end.
Proof.
  apply (gpu_friendly_codec_is_remuxed "ffmpeg" "ffprobe" env_h264 "v.mp4" "a.m4a" "o.mp4").
  - reflexivity.
  - left. reflexivity.
Defined.

(** A vp9 video with an nvenc encoder: "n" aborts, " Y " re-encodes. *)
Definition env_vp9 (answer : string) : env :=
  {| encoders_output := Ok " V....D h264_nvenc";
     decoders_output := Ok "";
     probe_output := Ok ("vp9" +:+ String LF "");
     run_error := fun _ => None;
     getsize := fun _ => Ok 1000;
     stdin := [answer] |}.

Example decline_aborts :
  merge_video_audio "ffmpeg" "ffprobe" (env_vp9 "n") "v.mp4" "a.m4a" "o.mp4" =
  ([Exec (encoders_cmd "ffmpeg"); Exec (decoders_cmd "ffmpeg");
    Exec (probe_cmd "ffprobe" "v.mp4"); Input reencode_prompt;
    Print "Aborting merge. Please select another format with GPU-friendly codec."],
   Ok ()).
Proof. reflexivity. Qed.

Example confirm_reencodes_on_gpu :
  launched (fst (merge_video_audio "ffmpeg" "ffprobe" (env_vp9 " Y ") "v.mp4" "a.m4a" "o.mp4")) =
  [encoders_cmd "ffmpeg"; decoders_cmd "ffmpeg"; probe_cmd "ffprobe" "v.mp4";
   reencode_cmd "ffmpeg" "h264_nvenc" "v.mp4" "a.m4a" "o.mp4"].
Proof. reflexivity. Qed.

(** No encoder listing at all: software encoding, no question. *)
Example no_gpu_reencodes_on_cpu :
  let w := {| encoders_output := Raise (OSError 2); decoders_output := Ok "";
              probe_output := Ok "h264"; run_error := fun _ => None;
              getsize := fun _ => Ok 1000; stdin := [] |} in
  merge_video_audio "ffmpeg" "ffprobe" w "v.mp4" "a.m4a" "o.mp4" =
  ([Exec (encoders_cmd "ffmpeg"); PrintDetectFailed (OSError 2);
    Exec (probe_cmd "ffprobe" "v.mp4");
    Print "GPU encoding not available, using CPU...";
    Print "Merging video + audio using CPU encoding...";
    StartEtaThread; Exec (reencode_cmd "ffmpeg" "libx264" "v.mp4" "a.m4a" "o.mp4");
    JoinEtaThread; Print (String LF "Merge completed.")],
   Ok ()).
Proof. reflexivity. Qed.

(** No nvenc encoder in the listing, and a transcode that fails with
    status 1. *)
Definition env_cpu : env :=
  {| encoders_output := Ok " V....D libx264";
     decoders_output := Ok " V..... h264";
     probe_output := Ok ("vp9" +:+ String LF "");
     run_error := fun argv =>
       if existsb (String.eqb "libx264") argv then Some (CalledProcessError 1) else None;
     getsize := fun _ => Ok 1000;
     stdin := [] |}.

(** The two halves of C6 on runs: a vp9 video with an nvenc encoder and
    the answer " No " (one question, nothing launched after the probe,
    a normal return); no nvenc encoder (no question, the libx264
    transcode launched, whose failure is the failure of the merge). *)
Lemma reencode_needs_confirmation_witness :
  (prompts (fst (merge_video_audio "ffmpeg" "ffprobe" (env_vp9 " No ")
                   "v.mp4" "a.m4a" "o.mp4")) =
     ["Video codec not GPU-friendly. Re-encode with GPU? (y) or try another format? (n): "]
   /\ snd (merge_video_audio "ffmpeg" "ffprobe" (env_vp9 " No ")
             "v.mp4" "a.m4a" "o.mp4") = Ok ()
   /\ launched (fst (merge_video_audio "ffmpeg" "ffprobe" (env_vp9 " No ")
                       "v.mp4" "a.m4a" "o.mp4")) =
        [["ffmpeg"; "-hide_banner"; "-encoders"];
         ["ffmpeg"; "-hide_banner"; "-decoders"];
         ["ffprobe"; "-v"; "error"; "-select_streams"; "v:0";
          "-show_entries"; "stream=codec_name"; "-of";
          "default=noprint_wrappers=1:nokey=1"; "v.mp4"]])
  /\
  (prompts (fst (merge_video_audio "ffmpeg" "ffprobe" env_cpu
                   "v.mp4" "a.m4a" "o.mp4")) = []
   /\ launched (fst (merge_video_audio "ffmpeg" "ffprobe" env_cpu
                       "v.mp4" "a.m4a" "o.mp4")) =
        [["ffmpeg"; "-hide_banner"; "-encoders"];
         ["ffmpeg"; "-hide_banner"; "-decoders"];
         ["ffprobe"; "-v"; "error"; "-select_streams"; "v:0";
          "-show_entries"; "stream=codec_name"; "-of";
          "default=noprint_wrappers=1:nokey=1"; "v.mp4"];
         ["ffmpeg"; "-y"; "-i"; "v.mp4"; "-i"; "a.m4a";
          "-c:v"; "libx264"; "-preset"; "p1"; "-c:a"; "aac"; "o.mp4"]]
   /\ snd (merge_video_audio "ffmpeg" "ffprobe" env_cpu "v.mp4" "a.m4a" "o.mp4") =
        Raise (CalledProcessError 1)).
Proof.
  split.
  - destruct (reencode_needs_confirmation "ffmpeg" "ffprobe" (env_vp9 " No ")
                "v.mp4" "a.m4a" "o.mp4") as [H _].
    destruct H as [Hp Hd]; [split; reflexivity|].
    destruct (Hd " No " [] eq_refl) as (Hr & Hl & _); [vm_compute; discriminate|].
    auto.
  - destruct (reencode_needs_confirmation "ffmpeg" "ffprobe" env_cpu
                "v.mp4" "a.m4a" "o.mp4") as [_ H].
    destruct H as [Hp Hl]; [reflexivity|].
    destruct Hl as [Hl Hr]; [reflexivity|reflexivity|].
    split; [exact Hp|]. split; [exact Hl|exact Hr].
Defined.

End MergeSpec.

(** ** Rename step *)

Module RenameSpec.
Import Rename.

Section Props.

Variable sep : ascii.
Variable altsep : option ascii.
Variable dirname : string -> string.
Variable join : string -> string -> string.

(** The directory name the step derives from the first candidate. *)
Definition base_name_of (first : string) : string :=
  fst (splitext sep altsep first).

(** C8.  When the path made of the parent directory and the base
    name of the primary output file already exists, the step only
    prints the collision message: it renames nothing and returns
    normally. *)
Theorem rename_skipped_on_collision
    (w : env) (target_dir : string) (files : list string) (first : string)
    (others : list string) :
  listdir w target_dir = Ok files ->
  candidates files = first :: others ->
  path_exists w (join (dirname target_dir) (base_name_of first)) = true ->
  rename_folder sep altsep dirname join w target_dir =
    ([Print ("Target folder name '" +:+ base_name_of first
             +:+ "' already exists, skipping rename.")], Ok ())
  /\ mutations (fst (rename_folder sep altsep dirname join w target_dir)) = [].
Proof.
  intros Hls Hc Hex.
  assert (rename_folder sep altsep dirname join w target_dir =
    ([Print ("Target folder name '" +:+ base_name_of first
             +:+ "' already exists, skipping rename.")], Ok ())) as E.
  { unfold rename_folder. rewrite Hls, Hc.
    unfold base_name_of in Hex. rewrite Hex. reflexivity. }
  split; [exact E|]. rewrite E. reflexivity.
Qed.

(** Without a collision the directory is renamed, once. *)
Lemma rename_done_without_collision
    (w : env) (target_dir : string) (files : list string) (first : string)
    (others : list string) :
  listdir w target_dir = Ok files ->
  candidates files = first :: others ->
  path_exists w (join (dirname target_dir) (base_name_of first)) = false ->
  mutations (fst (rename_folder sep altsep dirname join w target_dir)) =
    [(target_dir, join (dirname target_dir) (base_name_of first))].
Proof.
  intros Hls Hc Hex. unfold rename_folder. rewrite Hls, Hc.
  unfold base_name_of in Hex. rewrite Hex.
  destruct (rename_error w _ _); reflexivity.
Qed.

End Props.

(** A run directory holding "My Video.mp4", next to an older directory
    "My Video". *)
Definition env_collision : env :=
  {| listdir := fun d =>
       if String.eqb d "/app/2024-05-01_10-00-00"
       then Ok ["notes.wav"; "My Video.mp4"] else Raise (OSError 2);
     path_exists := fun p =>
       existsb (String.eqb p) ["/app"; "/app/2024-05-01_10-00-00"; "/app/My Video"];
     rename_error := fun _ _ => None |}.

Lemma rename_skipped_on_collision_witness :
  rename_folder posix_sep None posix_dirname posix_join env_collision
    "/app/2024-05-01_10-00-00" =
    ([Print "Target folder name 'My Video' already exists, skipping rename."], Ok ())
  /\ mutations (fst (rename_folder posix_sep None posix_dirname posix_join env_collision
                       "/app/2024-05-01_10-00-00")) = [].
Proof.
  apply (rename_skipped_on_collision posix_sep None posix_dirname posix_join
           env_collision "/app/2024-05-01_10-00-00"
           ["notes.wav"; "My Video.mp4"] "My Video.mp4" []).
  - reflexivity.
  - reflexivity.
  - reflexivity.
Defined.

End RenameSpec.

(** ** Speed history: failures and malformed content *)

Module StoreSpec.
Import SpeedStore.

Definition the_log {A} (x : store * list log * result A) : list log := snd (fst x).
Definition the_store {A} (x : store * list log * result A) : store := fst (fst x).
Definition the_result {A} (x : store * list log * result A) : result A := snd x.

Lemma save_result (speed_bps : pynum) (st : store) :
  the_result (save_last_speed speed_bps st) = (v ← to_int speed_bps; Ok ()).
Proof.
  unfold save_last_speed, the_result.
  destruct (stored_speeds (speed_file st)) as [l|e];
    destruct (to_int speed_bps) as [v|e']; simpl; try reflexivity;
    destruct (write_error st); reflexivity.
Qed.

Lemma load_total (st : store) : exists r, snd (load_last_speed st) = Ok r.
Proof.
  unfold load_last_speed.
  destruct (if negb (file_exists (speed_file st)) then _ else _) as [r|e];
    simpl; eauto.
Qed.

(** C9.  Recording a speed raises exactly when [int(speed)] does,
    whatever the state of the file: a failed read is logged and the
    history starts afresh, a failed write is logged and leaves the
    store as it was.  Loading never raises: it returns [None] when the
    file is absent, holds no sample, or cannot be read, and a failure
    is logged. *)
Theorem storage_failures_do_not_propagate (st : store) (speed_bps : pynum) :
  the_result (save_last_speed speed_bps st) = (v ← to_int speed_bps; Ok ()) /\
  (forall e, stored_speeds (speed_file st) = Raise e ->
     In (FailedLoadForSaving e) (the_log (save_last_speed speed_bps st))) /\
  (forall e v, write_error st = Some e -> to_int speed_bps = Ok v ->
     In (FailedSave e) (the_log (save_last_speed speed_bps st)) /\
     the_store (save_last_speed speed_bps st) = st) /\
  (exists r, snd (load_last_speed st) = Ok r) /\
  (speed_file st = NoFile -> load_last_speed st = ([], Ok None)) /\
  (read_speeds (speed_file st) = Ok [] -> load_last_speed st = ([], Ok None)) /\
  (forall e, speed_file st = Unreadable e ->
     load_last_speed st = ([FailedLoad e], Ok None)) /\
  (forall e, file_exists (speed_file st) = true ->
     representative (speed_file st) = Raise e ->
     load_last_speed st = ([FailedLoad e], Ok None)).
Proof.
  split; [apply save_result|].
  split.
  { intros e He. unfold save_last_speed, the_log. rewrite He.
    destruct (to_int speed_bps); simpl; [|auto].
    destruct (write_error st); simpl; auto. }
  split.
  { intros e v Hw Hv. unfold save_last_speed, the_log, the_store.
    rewrite Hw, Hv.
    destruct (stored_speeds (speed_file st)); simpl;
      (split; [|reflexivity]); rewrite ?in_app_iff; simpl; auto. }
  split; [apply load_total|].
  split.
  { intros H. unfold load_last_speed. rewrite H. reflexivity. }
  split.
  { intros H. unfold load_last_speed, representative. rewrite H. simpl.
    destruct (negb _); reflexivity. }
  split.
  { intros e H. unfold load_last_speed, representative, read_speeds.
    rewrite H. reflexivity. }
  intros e Hex He. unfold load_last_speed. rewrite Hex, He. reflexivity.
Qed.

(** An empty file holds no sample. *)
Example empty_file_has_no_estimate :
  load_last_speed {| speed_file := Text ""; write_error := None |} = ([], Ok None).
Proof. reflexivity. Qed.

(** Lines that fail [isdigit] are skipped. *)
Lemma parse_lines_skips (before after : list string) (line : string) :
  isdigit (strip line) = false ->
  parse_lines (before ++ line :: after) = parse_lines (before ++ after).
Proof.
  intros H. induction before as [|b before IH]; simpl.
  - rewrite H. reflexivity.
  - rewrite IH. reflexivity.
Qed.

Example blank_and_negative_lines_are_skipped :
  parse_lines ["12" +:+ String LF ""; String LF ""; "-5" +:+ String LF "";
               " 7 " +:+ String LF ""; "1.5"; "8"] = Ok [12; 7; 8].
Proof. reflexivity. Qed.

(** The superscript two, U+00B2: a digit for [isdigit], not for [int]. *)
Definition superscript_two : string := String "178"%char "".

Definition file_with_superscript : store :=
  {| speed_file :=
       Text ("100000" +:+ String LF "" +:+ superscript_two +:+ String LF "");
     write_error := None |}.

(** C10 on the file "100000\n²\n": the second line is not made of
    decimal digits, yet it is not skipped.  It passes [isdigit], [int]
    raises on it, and the whole load is given up: no representative
    speed, although the file holds the valid sample 100000; the next
    recording overwrites the history with the new sample alone. *)
Theorem superscript_line_voids_history :
  isdigit (strip (superscript_two +:+ String LF "")) = true /\
  int_of_str (strip (superscript_two +:+ String LF "")) = Raise ValueError /\
  load_last_speed file_with_superscript = ([FailedLoad ValueError], Ok None) /\
  load_last_speed
    {| speed_file := Text ("100000" +:+ String LF ""); write_error := None |}
    = ([], Ok (Some 100000)) /\
  save_last_speed (PInt 5) file_with_superscript =
    ({| speed_file := Text ("5" +:+ String LF ""); write_error := None |},
     [FailedLoadForSaving ValueError], Ok ()).
Proof. vm_compute. repeat split; reflexivity. Qed.

End StoreSpec.

(** ** Speed history: what is kept *)

Module HistorySpec.
Import SpeedStore.

(** *** Decimal text of a non-negative int *)

Definition is_decimal (c : ascii) : bool := between 48 57 (code c).

Lemma append_cons (x : ascii) (a b : string) :
  String x a +:+ b = String x (a +:+ b).
Proof. reflexivity. Qed.

Lemma append_nil_l (b : string) : "" +:+ b = b.
Proof. reflexivity. Qed.

Lemma append_assoc_s (a b c : string) : (a +:+ b) +:+ c = a +:+ (b +:+ c).
Proof.
  induction a as [|x a IH]; [reflexivity|].
  rewrite !append_cons, IH. reflexivity.
Qed.

Lemma append_nil_r_s (a : string) : a +:+ "" = a.
Proof.
  induction a as [|x a IH]; [reflexivity|].
  rewrite append_cons, IH. reflexivity.
Qed.

Lemma length_append_1 (a : string) (x : ascii) :
  String.length (a +:+ String x "") = S (String.length a).
Proof.
  induction a as [|y a IH]; [reflexivity|].
  rewrite append_cons. simpl. rewrite IH. reflexivity.
Qed.

Lemma all_chars_app p (a b : string) :
  all_chars p (a +:+ b) = all_chars p a && all_chars p b.
Proof.
  induction a as [|x a IH]; [reflexivity|].
  rewrite append_cons. simpl. rewrite IH. apply andb_assoc.
Qed.

Lemma pretty_N_char_decimal (k : N) :
  (k < 10)%N ->
  is_decimal (pretty_N_char k) = true /\
  decimal_value (pretty_N_char k) = Some (Z.of_N k).
Proof.
  intros H.
  assert (k = 0 \/ k = 1 \/ k = 2 \/ k = 3 \/ k = 4 \/ k = 5 \/ k = 6
          \/ k = 7 \/ k = 8 \/ k = 9)%N as Hk by lia.
  repeat (destruct Hk as [->|Hk]); try subst k; split; reflexivity.
Qed.

(** [pretty_N_go x s] puts the decimal digits of [x] in front of [s]. *)
Lemma pretty_N_go_digits (x : N) :
  forall s, exists d,
    pretty_N_go x s = d +:+ s /\
    all_chars is_decimal d = true /\
    ((0 < x)%N -> d <> "") /\
    forall acc r,
      int_of_digits acc (d +:+ r) =
      int_of_digits (acc * 10 ^ Z.of_nat (String.length d) + Z.of_N x) r.
Proof.
  induction (N.lt_wf_0 x) as [x _ IH]. intros s.
  destruct (N.eq_dec x 0%N) as [->|Hx].
  - exists "". rewrite pretty_N_go_0. simpl. repeat split; try lia.
    intros acc r. f_equal. lia.
  - assert (0 < x)%N as Hpos by lia.
    rewrite pretty_N_go_step by exact Hpos.
    destruct (IH (x `div` 10)%N) with (s := String (pretty_N_char (x `mod` 10)) s)
      as (d' & Hd' & Hdec & _ & Hval).
    { apply N.div_lt; lia. }
    destruct (pretty_N_char_decimal (x `mod` 10)%N) as [Hc Hv].
    { apply N.mod_lt. lia. }
    exists (d' +:+ String (pretty_N_char (x `mod` 10)) "").
    split; [|split; [|split]].
    + rewrite Hd', append_assoc_s. reflexivity.
    + rewrite all_chars_app, Hdec. simpl. rewrite Hc. reflexivity.
    + intros _. destruct d'; discriminate.
    + intros acc r. rewrite append_assoc_s, append_cons, append_nil_l.
      rewrite Hval. simpl. rewrite Hv. f_equal.
      rewrite length_append_1.
      rewrite Nat2Z.inj_succ, Z.pow_succ_r by lia.
      pose proof (N.div_mod x 10 ltac:(lia)) as Hdm.
      assert (Z.of_N x = 10 * Z.of_N (x `div` 10) + Z.of_N (x `mod` 10)) by lia.
      lia.
Qed.

(** The text of a non-negative int: decimal digits only, at least one,
    and [int] reads the int back. *)
Lemma str_of_int_digits (z : Z) :
  0 <= z ->
  all_chars is_decimal (str_of_int z) = true /\
  str_of_int z <> "" /\
  int_of_digits 0 (str_of_int z) = Ok z.
Proof.
  intros Hz. destruct z as [|p|p]; [repeat split; discriminate| |lia].
  unfold str_of_int, pretty, pretty_Z, pretty, pretty_positive, pretty, pretty_N.
  destruct (decide (N.pos p = 0%N)) as [E|_]; [discriminate|].
  destruct (pretty_N_go_digits (N.pos p) "") as (d & Hd & Hdec & Hne & Hval).
  rewrite Hd, append_nil_r_s. repeat split.
  - exact Hdec.
  - apply Hne. lia.
  - specialize (Hval 0 ""). rewrite append_nil_r_s in Hval. rewrite Hval.
    simpl. reflexivity.
Qed.

Lemma decimal_char_facts (c : ascii) :
  is_decimal c = true ->
  isdigit_char c = true /\ isspace c = false /\
  Ascii.eqb c LF = false /\ Ascii.eqb c CR = false.
Proof.
  destruct c as [[] [] [] [] [] [] [] []]; vm_compute; intros H;
    try discriminate H; repeat split; reflexivity.
Qed.

Lemma isdigit_decimal (d : string) :
  all_chars is_decimal d = true -> d <> "" -> isdigit d = true.
Proof.
  intros Hd Hne. destruct d as [|c d]; [contradiction|].
  unfold isdigit. clear Hne.
  revert Hd. generalize (String c d). intros s.
  induction s as [|x s IH]; simpl; [reflexivity|].
  intros H. apply andb_true_iff in H as [Hx Hs].
  destruct (decimal_char_facts x Hx) as (-> & _). simpl. auto.
Qed.

Lemma rstrip_decimal_line (d : string) :
  all_chars is_decimal d = true -> rstrip (d +:+ String LF "") = d.
Proof.
  induction d as [|c d IH]; [reflexivity|].
  simpl. intros H. apply andb_true_iff in H as [Hc Hd].
  rewrite (IH Hd).
  destruct (decimal_char_facts c Hc) as (_ & -> & _).
  destruct d; reflexivity.
Qed.

Lemma strip_decimal_line (d : string) :
  all_chars is_decimal d = true -> strip (d +:+ String LF "") = d.
Proof.
  intros H. unfold strip.
  destruct d as [|c d]; [reflexivity|].
  pose proof H as H'. simpl in H'. apply andb_true_iff in H' as [Hc _].
  destruct (decimal_char_facts c Hc) as (_ & Hs & _).
  rewrite append_cons. simpl. rewrite Hs. rewrite <- append_cons.
  apply rstrip_decimal_line. exact H.
Qed.

Lemma file_lines_decimal_line (d rest cur : string) :
  all_chars is_decimal d = true ->
  file_lines_from cur (d +:+ String LF rest) =
  (cur +:+ d +:+ String LF "") :: file_lines_from "" rest.
Proof.
  revert cur. induction d as [|c d IH]; intros cur H.
  - rewrite !append_nil_l. reflexivity.
  - simpl in H. apply andb_true_iff in H as [Hc Hd].
    destruct (decimal_char_facts c Hc) as (_ & _ & Hlf & Hcr).
    rewrite append_cons. simpl. rewrite Hlf, Hcr.
    rewrite (IH _ Hd), append_assoc_s. reflexivity.
Qed.

(** Reading back what the write loop wrote. *)
Lemma parse_rendered (zs : list Z) :
  Forall (fun z => 0 <= z) zs ->
  parse_lines (file_lines (render zs)) = Ok zs.
Proof.
  induction 1 as [|z zs Hz _ IH]; [reflexivity|].
  destruct (str_of_int_digits z Hz) as (Hdec & Hne & Hval).
  unfold file_lines. simpl render.
  rewrite append_cons, append_nil_l.
  rewrite file_lines_decimal_line by exact Hdec.
  rewrite append_nil_l. simpl parse_lines.
  rewrite strip_decimal_line by exact Hdec.
  rewrite isdigit_decimal by assumption.
  unfold int_of_str. destruct (str_of_int z) eqn:E; [contradiction|].
  rewrite Hval. fold (file_lines (render zs)). rewrite IH. reflexivity.
Qed.

(** *** The last ten *)

Lemma last_n_length {A} (n : nat) (l : list A) :
  length (last_n n l) = Nat.min n (length l).
Proof. unfold last_n. rewrite length_skipn. lia. Qed.

Lemma last_n_suffix {A} (n : nat) (l : list A) :
  exists older, l = older ++ last_n n l.
Proof.
  exists (firstn (length l - n) l). unfold last_n.
  symmetry. apply firstn_skipn.
Qed.

Lemma last_n_snoc {A} (n : nat) (l : list A) (v : A) :
  (0 < n)%nat -> last_n n (last_n n l ++ [v]) = last_n n (l ++ [v]).
Proof.
  intros Hn. unfold last_n.
  rewrite !length_app, length_skipn. simpl.
  destruct (Nat.le_gt_cases (length l) n) as [Hle|Hgt].
  - replace (length l - n)%nat with 0%nat by lia. simpl.
    rewrite Nat.sub_0_r. reflexivity.
  - replace (length l - (length l - n) + 1 - n)%nat with 1%nat by lia.
    replace (length l + 1 - n)%nat with ((length l - n) + 1)%nat by lia.
    rewrite !skipn_app.
    rewrite length_skipn.
    replace (1 - (length l - (length l - n)))%nat with 0%nat by lia.
    replace (length l - n + 1 - length l)%nat with 0%nat by lia.
    simpl skipn at 2 4. f_equal.
    rewrite skipn_skipn. f_equal. lia.
Qed.

Lemma last_n_snoc_split {A} (n : nat) (l : list A) (v : A) :
  (0 < n)%nat -> last_n n (l ++ [v]) = last_n (n - 1) l ++ [v].
Proof.
  intros Hn. unfold last_n. rewrite length_app, skipn_app. simpl length.
  replace (length l + 1 - n - length l)%nat with 0%nat by lia.
  replace (length l + 1 - n)%nat with (length l - (n - 1))%nat by lia.
  reflexivity.
Qed.

Lemma Forall_last_n {A} (P : A -> Prop) (n : nat) (l : list A) :
  Forall P l -> Forall P (last_n n l).
Proof. intros H. unfold last_n. apply Forall_drop. exact H. Qed.

Lemma stored_rendered (zs : list Z) :
  Forall (fun z => 0 <= z) zs -> stored_speeds (Text (render zs)) = Ok zs.
Proof. intros H. unfold stored_speeds, read_speeds. simpl. apply parse_rendered, H. Qed.

(** One recording that goes through. *)
Lemma save_step (st : store) (speed_bps : pynum) (l : list Z) (v : Z) :
  write_error st = None ->
  stored_speeds (speed_file st) = Ok l ->
  to_int speed_bps = Ok v ->
  save_last_speed speed_bps st =
    ({| speed_file := Text (render (last_n MAX_SPEEDS (l ++ [v])));
        write_error := None |}, [], Ok ()).
Proof.
  intros Hw Hl Hv. unfold save_last_speed. rewrite Hl, Hv, Hw. reflexivity.
Qed.

(** Whatever the file held, a recording that goes through leaves at
    most ten samples. *)
Lemma save_bounds_history (st : store) (speed_bps : pynum) (v : Z) :
  write_error st = None ->
  to_int speed_bps = Ok v ->
  exists kept,
    speed_file (fst (fst (save_last_speed speed_bps st))) = Text (render kept)
    /\ (length kept <= 10)%nat /\ last kept = Some v.
Proof.
  intros Hw Hv. unfold save_last_speed. rewrite Hv, Hw.
  destruct (stored_speeds (speed_file st)) as [l|e]; simpl.
  - exists (last_n MAX_SPEEDS (l ++ [v])). split; [reflexivity|].
    rewrite last_n_length. split; [unfold MAX_SPEEDS; lia|].
    rewrite last_n_snoc_split by (unfold MAX_SPEEDS; lia). apply last_snoc.
  - exists [v]. simpl. repeat split; lia.
Qed.

Definition empty_store : store := {| speed_file := NoFile; write_error := None |}.

Definition record (st : store) (speed_bps : pynum) : store :=
  fst (fst (save_last_speed speed_bps st)).

Definition record_all (speeds : list pynum) (st : store) : store :=
  fold_left record speeds st.

(** A speed that goes into the history as the non-negative int [z]. *)
Definition sample (speed_bps : pynum) (z : Z) : Prop :=
  to_int speed_bps = Ok z /\ 0 <= z.

Lemma record_all_invariant (speeds : list pynum) (samples : list Z) :
  Forall2 sample speeds samples ->
  forall (st : store) (l : list Z),
    write_error st = None ->
    stored_speeds (speed_file st) = Ok (last_n MAX_SPEEDS l) ->
    Forall (fun z => 0 <= z) l ->
    write_error (record_all speeds st) = None /\
    stored_speeds (speed_file (record_all speeds st)) =
      Ok (last_n MAX_SPEEDS (l ++ samples)) /\
    (speeds <> [] ->
     speed_file (record_all speeds st) =
       Text (render (last_n MAX_SPEEDS (l ++ samples)))).
Proof.
  induction 1 as [|p z ps zs [Hp Hz] Hrest IH]; intros st l Hw Hl Hpos.
  - rewrite app_nil_r. simpl. repeat split; auto. contradiction.
  - change (record_all (p :: ps) st) with (record_all ps (record st p)).
    assert (record st p =
            {| speed_file := Text (render (last_n MAX_SPEEDS (l ++ [z])));
               write_error := None |}) as ->.
    { unfold record. rewrite (save_step st p _ z Hw Hl Hp). simpl.
      rewrite last_n_snoc by (unfold MAX_SPEEDS; lia). reflexivity. }
    assert (Forall (fun z => 0 <= z) (l ++ [z])) as Hpos'.
    { apply Forall_app. split; [exact Hpos|]. constructor; [exact Hz|constructor]. }
    destruct (IH {| speed_file := Text (render (last_n MAX_SPEEDS (l ++ [z])));
                    write_error := None |} (l ++ [z])) as (H1 & H2 & H3);
      [reflexivity| |exact Hpos'|].
    { simpl. apply stored_rendered, Forall_last_n, Hpos'. }
    rewrite <- app_assoc in H2, H3. simpl in H2, H3.
    repeat split; auto.
    intros _. destruct ps as [|p' ps'].
    + inversion Hrest; subst. reflexivity.
    + apply H3. discriminate.
Qed.

(** C3, as amended.  Starting from no file and with writes that go
    through, after recording any sequence of speeds whose int values
    are not negative, the file holds exactly the last [min 10 N] of
    these values, in the order they were recorded: the kept values are
    a suffix of the recorded ones, at most ten. *)
Theorem history_keeps_last_ten (speeds : list pynum) (samples : list Z) :
  Forall2 sample speeds samples ->
  stored_speeds (speed_file (record_all speeds empty_store)) =
    Ok (last_n MAX_SPEEDS samples) /\
  (speeds <> [] ->
   speed_file (record_all speeds empty_store) =
     Text (render (last_n MAX_SPEEDS samples))) /\
  length (last_n MAX_SPEEDS samples) = Nat.min 10 (length samples) /\
  exists older, samples = older ++ last_n MAX_SPEEDS samples.
Proof.
  intros H.
  destruct (record_all_invariant speeds samples H empty_store [])
    as (_ & H2 & H3); try reflexivity; [constructor|].
  simpl in H2, H3. repeat split; auto.
  - apply last_n_length.
  - apply last_n_suffix.
Qed.

Definition twelve : list Z := [1; 2; 3; 4; 5; 6; 7; 8; 9; 10; 11; 12].

Lemma history_keeps_last_ten_witness :
  stored_speeds (speed_file (record_all (map PInt twelve) empty_store)) =
    Ok (last_n MAX_SPEEDS twelve) /\
  (map PInt twelve <> [] ->
   speed_file (record_all (map PInt twelve) empty_store) =
     Text (render (last_n MAX_SPEEDS twelve))) /\
  length (last_n MAX_SPEEDS twelve) = Nat.min 10 (length twelve) /\
  exists older, twelve = older ++ last_n MAX_SPEEDS twelve.
Proof.
  apply (history_keeps_last_ten (map PInt twelve) twelve).
  unfold twelve. simpl.
  repeat (constructor; [split; [reflexivity|lia]|]). constructor.
Defined.

Example twelve_recordings :
  stored_speeds (speed_file (record_all (map PInt twelve) empty_store)) =
    Ok [3; 4; 5; 6; 7; 8; 9; 10; 11; 12].
Proof. vm_compute. reflexivity. Qed.

(** C3 as stated fails on a negative speed: after recording -5 and
    then 3, the history is [3], not the last two samples [-5; 3].  The
    line "-5" is written, and dropped when the file is read back. *)
Lemma negative_sample_is_lost :
  speed_file (record_all [PInt (-5)] empty_store) = Text ("-5" +:+ String LF "") /\
  stored_speeds (speed_file (record_all [PInt (-5); PInt 3] empty_store)) = Ok [3] /\
  last_n MAX_SPEEDS [-5; 3] = [-5; 3].
Proof. vm_compute. repeat split; reflexivity. Qed.

End HistorySpec.

(** ** Representative speed *)

Module RepresentativeSpec.
Import SpeedStore.

(** *** The counter and its most common item *)

Definition keys (c : list (Z * nat)) : list Z := map fst c.

(** The count the counter holds for [x] (0 when [x] is no key). *)
Fixpoint count_of (x : Z) (c : list (Z * nat)) : nat :=
  match c with
  | [] => 0
  | (y, n) :: rest => if x =? y then n else count_of x rest
  end.

(** The values of a list in the order of their first occurrence. *)
Definition first_seen (acc : list Z) (x : Z) : list Z :=
  if existsb (Z.eqb x) acc then acc else acc ++ [x].

Definition firsts_from (acc : list Z) (l : list Z) : list Z :=
  fold_left first_seen l acc.

Lemma existsb_eqb_In (x : Z) (l : list Z) :
  existsb (Z.eqb x) l = true <-> In x l.
Proof.
  rewrite existsb_exists. split.
  - intros (y & Hy & E). apply Z.eqb_eq in E. subst. exact Hy.
  - intros H. exists x. split; [exact H|apply Z.eqb_refl].
Qed.

Lemma keys_counter_add (x : Z) (c : list (Z * nat)) :
  keys (counter_add x c) = first_seen (keys c) x.
Proof.
  unfold first_seen. induction c as [|[y n] c IH]; simpl; [reflexivity|].
  destruct (x =? y) eqn:E; simpl; [reflexivity|].
  rewrite IH. unfold keys. destruct (existsb (Z.eqb x) (map fst c)); reflexivity.
Qed.

Lemma keys_fold (l : list Z) (c : list (Z * nat)) :
  keys (fold_left (fun c x => counter_add x c) l c) = firsts_from (keys c) l.
Proof.
  revert c. induction l as [|x l IH]; intros c; simpl; [reflexivity|].
  rewrite IH, keys_counter_add. reflexivity.
Qed.

Lemma count_of_counter_add (x y : Z) (c : list (Z * nat)) :
  (forall n, In (x, n) c -> (0 < n)%nat) ->
  count_of y (counter_add x c) =
  if y =? x then S (count_of y c) else count_of y c.
Proof.
  intros Hpos. induction c as [|[k n] c IH]; simpl.
  - destruct (y =? x); reflexivity.
  - destruct (x =? k) eqn:E; simpl.
    + apply Z.eqb_eq in E. subst k.
      destruct (y =? x) eqn:E'; reflexivity.
    + destruct (y =? k) eqn:E'.
      * apply Z.eqb_eq in E'. subst k.
        rewrite Z.eqb_sym, E. reflexivity.
      * apply IH. intros m Hm. apply (Hpos m). right. exact Hm.
Qed.

Lemma counter_add_positive (x : Z) (c : list (Z * nat)) :
  (forall k n, In (k, n) c -> (0 < n)%nat) ->
  forall k n, In (k, n) (counter_add x c) -> (0 < n)%nat.
Proof.
  intros Hpos. induction c as [|[y m] c IH]; simpl; intros k n Hin.
  - destruct Hin as [[= <- <-]|[]]. lia.
  - destruct (x =? y).
    + destruct Hin as [[= <- <-]|Hin]; [lia|]. apply (Hpos k n). right. exact Hin.
    + destruct Hin as [[= <- <-]|Hin].
      * apply (Hpos y m). left. reflexivity.
      * apply IH with (k := k); [|exact Hin].
        intros k' n' H'. apply (Hpos k' n'). right. exact H'.
Qed.

Lemma count_of_fold (l : list Z) (c : list (Z * nat)) (y : Z) :
  (forall k n, In (k, n) c -> (0 < n)%nat) ->
  count_of y (fold_left (fun c x => counter_add x c) l c) =
  (count_of y c + count_occ Z.eq_dec l y)%nat.
Proof.
  revert c. induction l as [|x l IH]; intros c Hpos; simpl; [lia|].
  rewrite IH by (apply counter_add_positive; exact Hpos).
  rewrite count_of_counter_add by (intros n; apply Hpos).
  destruct (Z.eq_dec x y) as [->|Hne].
  - rewrite Z.eqb_refl. lia.
  - destruct (y =? x) eqn:E; [apply Z.eqb_eq in E; congruence|lia].
Qed.

(** The counts of [Counter l] are the numbers of occurrences in [l]. *)
Lemma count_of_Counter (l : list Z) (y : Z) :
  count_of y (Counter l) = count_occ Z.eq_dec l y.
Proof.
  unfold Counter. rewrite count_of_fold; [reflexivity|].
  intros k n [].
Qed.

Lemma first_seen_extends (acc : list Z) (x : Z) :
  exists ext, first_seen acc x = acc ++ ext.
Proof.
  unfold first_seen. destruct (existsb (Z.eqb x) acc).
  - exists []. rewrite app_nil_r. reflexivity.
  - exists [x]. reflexivity.
Qed.

Lemma firsts_from_extends (l acc : list Z) :
  exists ext, firsts_from acc l = acc ++ ext.
Proof.
  revert acc. induction l as [|x l IH]; intros acc; simpl.
  - exists []. rewrite app_nil_r. reflexivity.
  - destruct (first_seen_extends acc x) as [e1 E1].
    destruct (IH (first_seen acc x)) as [e2 E2].
    exists (e1 ++ e2). unfold firsts_from in *. simpl.
    rewrite E2, E1, app_assoc. reflexivity.
Qed.

Lemma first_seen_In (acc : list Z) (x y : Z) :
  In y (first_seen acc x) <-> In y acc \/ y = x.
Proof.
  unfold first_seen. destruct (existsb (Z.eqb x) acc) eqn:E.
  - apply existsb_eqb_In in E. split; [auto|]. intros [H| ->]; assumption.
  - rewrite in_app_iff. simpl. intuition.
Qed.

Lemma firsts_from_In (l acc : list Z) (y : Z) :
  In y (firsts_from acc l) <-> In y acc \/ In y l.
Proof.
  revert acc. induction l as [|x l IH]; intros acc; simpl.
  - intuition.
  - unfold firsts_from in *. simpl. rewrite IH, first_seen_In. intuition.
Qed.

Lemma first_seen_NoDup (acc : list Z) (x : Z) :
  List.NoDup acc -> List.NoDup (first_seen acc x).
Proof.
  intros H. unfold first_seen. destruct (existsb (Z.eqb x) acc) eqn:E; [exact H|].
  apply List.NoDup_app; [exact H|repeat constructor; intros []|].
  intros y Hy [<-|[]]. apply existsb_eqb_In in Hy. congruence.
Qed.

Lemma firsts_from_NoDup (l acc : list Z) :
  List.NoDup acc -> List.NoDup (firsts_from acc l).
Proof.
  revert acc. induction l as [|x l IH]; intros acc H; simpl; [exact H|].
  apply IH, first_seen_NoDup, H.
Qed.

(** The keys before the first occurrence of [v] are the values seen
    before it. *)
Lemma firsts_from_split (pre post : list Z) (v : Z) :
  ~ In v pre ->
  exists ext,
    firsts_from [] (pre ++ v :: post) = firsts_from [] pre ++ v :: ext.
Proof.
  intros Hv.
  assert (firsts_from [] (pre ++ v :: post) =
          firsts_from (first_seen (firsts_from [] pre) v) post) as ->.
  { unfold firsts_from. rewrite fold_left_app. reflexivity. }
  assert (first_seen (firsts_from [] pre) v = firsts_from [] pre ++ [v]) as ->.
  { unfold first_seen. destruct (existsb _ _) eqn:E; [|reflexivity].
    apply existsb_eqb_In, firsts_from_In in E. destruct E as [[]|E]. contradiction. }
  destruct (firsts_from_extends post (firsts_from [] pre ++ [v])) as [ext E].
  rewrite E, <- app_assoc. exists ext. reflexivity.
Qed.

Lemma split_unique (l1 l2 l1' l2' : list Z) (x : Z) :
  l1 ++ x :: l2 = l1' ++ x :: l2' -> ~ In x l1 -> ~ In x l1' -> l1 = l1'.
Proof.
  revert l1'. induction l1 as [|a l1 IH]; intros [|a' l1'] E H H'; simpl in *.
  - reflexivity.
  - injection E as <- _. tauto.
  - injection E as -> _. tauto.
  - injection E as -> E. f_equal. apply (IH l1' E); tauto.
Qed.

Lemma count_of_In (c : list (Z * nat)) (k : Z) (n : nat) :
  List.NoDup (keys c) -> In (k, n) c -> count_of k c = n.
Proof.
  induction c as [|[y m] c IH]; simpl; intros Hnd Hin; [contradiction|].
  inversion Hnd as [|? ? Hy Hnd']; subst.
  destruct Hin as [[= -> ->]|Hin].
  - rewrite Z.eqb_refl. reflexivity.
  - destruct (k =? y) eqn:E.
    + apply Z.eqb_eq in E. subst y. exfalso. apply Hy.
      apply (in_map fst) in Hin. exact Hin.
    + apply IH; assumption.
Qed.

(** [first_max] returns the first item with the largest count. *)
Lemma first_max_split (items : list (Z * nat)) :
  forall best : Z * nat,
  exists pre post,
    best :: items = pre ++ first_max best items :: post /\
    (forall y, In y pre -> (snd y < snd (first_max best items))%nat) /\
    (forall y, In y post -> (snd y <= snd (first_max best items))%nat).
Proof.
  induction items as [|it rest IH]; intros best; simpl.
  - exists [], []. repeat split; intros y [].
  - destruct (snd best <? snd it)%nat eqn:E.
    + apply Nat.ltb_lt in E.
      destruct (IH it) as (pre & post & Hsplit & Hpre & Hpost).
      exists (best :: pre), post.
      split; [simpl; f_equal; exact Hsplit|]. split; [|exact Hpost].
      intros y [<-|Hy]; [|apply Hpre, Hy].
      destruct pre as [|p pre].
      * injection Hsplit as <- _. exact E.
      * injection Hsplit as <- _. specialize (Hpre it (or_introl eq_refl)). lia.
    + apply Nat.ltb_ge in E.
      destruct (IH best) as (pre & post & Hsplit & Hpre & Hpost).
      destruct pre as [|p pre].
      * injection Hsplit as Hb Hr. subst post. exists [], (it :: rest).
        rewrite <- Hb in *. repeat split.
        -- intros y [].
        -- intros y [<-|Hy]; [exact E|apply Hpost, Hy].
      * injection Hsplit as <- Hr. exists (best :: it :: pre), post.
        split; [simpl; do 2 f_equal; exact Hr|]. split; [|exact Hpost].
        intros y [<-|[<-|Hy]].
        -- apply Hpre. left. reflexivity.
        -- specialize (Hpre best (or_introl eq_refl)). lia.
        -- apply Hpre. right. exact Hy.
Qed.

Lemma keys_In (c : list (Z * nat)) (y : Z) :
  In y (keys c) -> exists m, In (y, m) c.
Proof.
  unfold keys. rewrite in_map_iff. intros ([k m] & <- & H). exists m. exact H.
Qed.

(** [most_common(1)] of a non-empty list: a most frequent value, and
    among the most frequent values the one that occurs first. *)
Lemma most_common_first_most_frequent (l : list Z) :
  l <> [] ->
  exists r pre post,
    most_common_1 (Counter l) = [(r, count_occ Z.eq_dec l r)] /\
    l = pre ++ r :: post /\ ~ In r pre /\
    (forall y, In y pre -> (count_occ Z.eq_dec l y < count_occ Z.eq_dec l r)%nat) /\
    (forall y, (count_occ Z.eq_dec l y <= count_occ Z.eq_dec l r)%nat).
Proof.
  intros Hne.
  assert (keys (Counter l) = firsts_from [] l) as Hkeys by apply (keys_fold l []).
  assert (List.NoDup (keys (Counter l))) as Hnd.
  { rewrite Hkeys. apply firsts_from_NoDup. constructor. }
  assert (forall y m, In (y, m) (Counter l) -> m = count_occ Z.eq_dec l y) as Hcount.
  { intros y m Hin. rewrite <- count_of_Counter. symmetry.
    apply count_of_In; assumption. }
  destruct (Counter l) as [|it rest] eqn:Ec.
  { destruct l as [|a l]; [contradiction|]. exfalso.
    assert (In a (firsts_from [] (a :: l))) as Ha
      by (apply firsts_from_In; right; left; reflexivity).
    rewrite <- Hkeys in Ha. exact Ha. }
  destruct (first_max_split rest it) as (P & Q & Hsplit & HP & HQ).
  simpl most_common_1. destruct (first_max it rest) as [r n] eqn:Er.
  simpl in HP, HQ.
  assert (In (r, n) (it :: rest)) as Hin.
  { rewrite Hsplit. apply in_or_app. right. left. reflexivity. }
  pose proof (Hcount r n Hin) as Hn. subst n.
  assert (In r l) as Hrl.
  { apply (in_map fst) in Hin. fold (keys (it :: rest)) in Hin.
    rewrite Hkeys in Hin. apply firsts_from_In in Hin. destruct Hin as [[]|H]. exact H. }
  apply list_elem_of_In, list_elem_of_split_l in Hrl.
  destruct Hrl as (pre & post & Hl & Hpre).
  rewrite list_elem_of_In in Hpre.
  exists r, pre, post. split; [reflexivity|]. split; [exact Hl|]. split; [exact Hpre|].
  assert (keys P = firsts_from [] pre) as HkP.
  { destruct (firsts_from_split pre post r Hpre) as [ext Hext].
    rewrite <- Hl, <- Hkeys, Hsplit in Hext. unfold keys in Hext.
    rewrite map_app in Hext. simpl in Hext.
    apply (split_unique _ _ _ _ _ Hext).
    - rewrite Hsplit in Hnd. unfold keys in Hnd. rewrite map_app in Hnd. simpl in Hnd.
      apply NoDup_remove_2 in Hnd. intros C. apply Hnd, in_or_app. left. exact C.
    - intros C. apply firsts_from_In in C. destruct C as [[]|C]. contradiction. }
  split.
  - intros y Hy.
    assert (In y (keys P)) as HyP.
    { rewrite HkP. apply firsts_from_In. right. exact Hy. }
    apply keys_In in HyP. destruct HyP as [m Hm].
    specialize (HP (y, m) Hm). simpl in HP.
    assert (m = count_occ Z.eq_dec l y) as <-; [|exact HP].
    apply Hcount. rewrite Hsplit. apply in_or_app. left. exact Hm.
  - intros y. destruct (in_dec Z.eq_dec y l) as [Hy|Hy].
    + assert (In y (keys (it :: rest))) as Hk.
      { rewrite Hkeys. apply firsts_from_In. right. exact Hy. }
      apply keys_In in Hk. destruct Hk as [m Hm].
      pose proof (Hcount y m Hm) as <-.
      rewrite Hsplit in Hm. apply in_app_or in Hm.
      destruct Hm as [Hm|[[= <- <-]|Hm]].
      * specialize (HP _ Hm). simpl in HP. lia.
      * lia.
      * specialize (HQ _ Hm). simpl in HQ. lia.
    + apply (count_occ_not_In Z.eq_dec) in Hy. rewrite Hy. lia.
Qed.

(** *** Bins *)

(** The bin size the program derives from the mean: the binary64
    product of the mean and 0.05, cut to an int, and at least 50000. *)
Definition bin_size_of (avg_speed : float) : result Z :=
  p ← mul (PFloat avg_speed) (PFloat lit_0_05);
  i ← to_int p;
  Ok (Z.max 50000 i).

(** The multiple of [b] nearest to [s], a tie going up. *)
Definition round_to_bin (b : Z) (s : Z) : Z := (s + b / 2) / b * b.

Lemma bin_speed_dynamic_eq (s : Z) (avg_speed : float) :
  bin_speed_dynamic s (PFloat avg_speed) =
  (b ← bin_size_of avg_speed; Ok (round_to_bin b s)).
Proof.
  unfold bin_speed_dynamic, bin_size_of.
  destruct (mul (PFloat avg_speed) (PFloat lit_0_05)) as [p|e]; [|reflexivity].
  simpl. destruct (to_int p) as [i|e]; reflexivity.
Qed.

Lemma bin_size_at_least (avg_speed : float) (b : Z) :
  bin_size_of avg_speed = Ok b -> 50000 <= b.
Proof.
  unfold bin_size_of.
  destruct (mul (PFloat avg_speed) (PFloat lit_0_05)) as [p|e]; [|discriminate].
  simpl. destruct (to_int p) as [i|e]; [|discriminate].
  simpl. intros [= <-]. lia.
Qed.

Lemma round_to_bin_nearest (b s : Z) :
  0 < b ->
  (b | round_to_bin b s) /\ - b <= 2 * (s - round_to_bin b s) < b.
Proof.
  intros Hb. unfold round_to_bin. split.
  - exists ((s + b / 2) / b). reflexivity.
  - pose proof (Z.div_mod (s + b / 2) b ltac:(lia)) as Hdm.
    pose proof (Z.mod_pos_bound (s + b / 2) b Hb) as Hr.
    pose proof (Z.div_mod b 2 ltac:(lia)) as Hh.
    pose proof (Z.mod_pos_bound b 2 ltac:(lia)) as Hh2.
    lia.
Qed.

Lemma map_result_bins (b : Z) (avg_speed : float) (speeds : list Z) :
  bin_size_of avg_speed = Ok b ->
  map_result (fun s => bin_speed_dynamic s (PFloat avg_speed)) speeds =
  Ok (map (round_to_bin b) speeds).
Proof.
  intros Hb. induction speeds as [|s speeds IH]; simpl; [reflexivity|].
  rewrite bin_speed_dynamic_eq, Hb, IH. reflexivity.
Qed.

Lemma representative_eq (text : string) (speeds : list Z) (avg_speed : float) (b : Z) :
  parse_lines (file_lines text) = Ok speeds ->
  speeds <> [] ->
  mean speeds = Ok avg_speed ->
  bin_size_of avg_speed = Ok b ->
  representative (Text text) =
  match most_common_1 (Counter (map (round_to_bin b) speeds)) with
  | (v, _) :: _ => Ok (Some v)
  | [] => Raise IndexError
  end.
Proof.
  intros Hparse Hne Hmean Hb.
  unfold representative, read_speeds. cbn [open_read].
  rewrite ResultFacts.bind_Ok, Hparse, ResultFacts.bind_Ok.
  destruct speeds as [|s0 speeds'] eqn:Es; [contradiction|].
  cbv beta iota. rewrite <- Es in *.
  rewrite Hmean, ResultFacts.bind_Ok, (map_result_bins b) by exact Hb.
  rewrite ResultFacts.bind_Ok. reflexivity.
Qed.

(** Loading, given the mean and the bin size. *)
Lemma representative_of_bins
    (st : store) (text : string) (speeds : list Z) (avg_speed : float) (b : Z) :
  speed_file st = Text text ->
  parse_lines (file_lines text) = Ok speeds ->
  speeds <> [] ->
  mean speeds = Ok avg_speed ->
  bin_size_of avg_speed = Ok b ->
  exists r pre post,
    load_last_speed st = ([], Ok (Some r)) /\
    50000 <= b /\
    map (round_to_bin b) speeds = pre ++ r :: post /\
    ~ In r pre /\
    (forall y, In y pre ->
       (count_occ Z.eq_dec (map (round_to_bin b) speeds) y <
        count_occ Z.eq_dec (map (round_to_bin b) speeds) r)%nat) /\
    (forall y,
       (count_occ Z.eq_dec (map (round_to_bin b) speeds) y <=
        count_occ Z.eq_dec (map (round_to_bin b) speeds) r)%nat) /\
    (forall s, (b | round_to_bin b s) /\ - b <= 2 * (s - round_to_bin b s) < b).
Proof.
  intros Hfile Hparse Hne Hmean Hb.
  pose proof (bin_size_at_least _ _ Hb) as Hb50.
  destruct (most_common_first_most_frequent (map (round_to_bin b) speeds))
    as (r & pre & post & Hmc & Hsplit & Hpre & Hlt & Hle).
  { destruct speeds; [contradiction|discriminate]. }
  exists r, pre, post.
  split.
  { unfold load_last_speed. rewrite Hfile. cbn [file_exists negb].
    rewrite (representative_eq text speeds avg_speed b) by assumption.
    rewrite Hmc. reflexivity. }
  repeat split; try assumption; apply round_to_bin_nearest; lia.
Qed.

(** The bin size in terms of the Standard Library: the binary64
    product of the mean and of the literal 0.05, cut to an int, and at
    least 50000. *)
Lemma bin_size_of_product (avg_speed : float) (i : Z) :
  MeanSpec.integer_part
    (SFmul 53 1024 avg_speed (S754_finite false 7205759403792794 (-57))) = Some i ->
  bin_size_of avg_speed = Ok (Z.max 50000 i).
Proof.
  intros Hi. unfold bin_size_of.
  change (mul (PFloat avg_speed) (PFloat lit_0_05))
    with (Ok (PFloat (SFmul 53 1024 avg_speed
                        (S754_finite false 7205759403792794 (-57))))).
  rewrite ResultFacts.bind_Ok.
  apply MeanSpec.to_int_integer_part in Hi. rewrite Hi. reflexivity.
Qed.

(** C2, as amended.  For a file whose lines parse to a non-empty list
    of samples, let the mean be their arithmetic mean (the sum over the
    number, in binary64) and the bin size [b] be the greater of 50000
    and the integer part of the binary64 product of the mean and 0.05.
    When the mean and the product are in range, loading returns a value
    [r] of the list of binned samples, each sample being rounded to the
    nearest multiple of [b] (a tie going up); [r] is a most frequent
    binned value, and every binned value met before the first [r] is
    strictly less frequent. *)
Theorem representative_is_first_most_frequent_bin
    (st : store) (text : string) (speeds : list Z) (i : Z) :
  speed_file st = Text text ->
  parse_lines (file_lines text) = Ok speeds ->
  speeds <> [] ->
  is_inf (MeanSpec.arithmetic_mean speeds) = false ->
  MeanSpec.integer_part
    (SFmul 53 1024 (MeanSpec.arithmetic_mean speeds)
       (S754_finite false 7205759403792794 (-57))) = Some i ->
  exists r pre post,
    load_last_speed st = ([], Ok (Some r)) /\
    map (round_to_bin (Z.max 50000 i)) speeds = pre ++ r :: post /\
    ~ In r pre /\
    (forall y, In y pre ->
       (count_occ Z.eq_dec (map (round_to_bin (Z.max 50000 i)) speeds) y <
        count_occ Z.eq_dec (map (round_to_bin (Z.max 50000 i)) speeds) r)%nat) /\
    (forall y,
       (count_occ Z.eq_dec (map (round_to_bin (Z.max 50000 i)) speeds) y <=
        count_occ Z.eq_dec (map (round_to_bin (Z.max 50000 i)) speeds) r)%nat) /\
    (forall s, (Z.max 50000 i | round_to_bin (Z.max 50000 i) s) /\
               - Z.max 50000 i <= 2 * (s - round_to_bin (Z.max 50000 i) s)
                 < Z.max 50000 i).
Proof.
  intros Hfile Hparse Hne Hfin Hi.
  assert (mean speeds = Ok (MeanSpec.arithmetic_mean speeds)) as Hmean
    by (apply MeanSpec.mean_Ok; auto).
  destruct (representative_of_bins st text speeds _ _ Hfile Hparse Hne Hmean
              (bin_size_of_product _ _ Hi))
    as (r & pre & post & H1 & _ & H2 & H3 & H4 & H5 & H6).
  exists r, pre, post. auto 10.
Qed.

(** The samples 100000, 102000, 98000 and 500000: mean 200000, bin size
    50000, binned values 100000 (three times) and 500000. *)
Definition four_samples : list Z := [100000; 102000; 98000; 500000].

Definition four_samples_store : store :=
  {| speed_file := Text (render four_samples); write_error := None |}.

Example four_samples_representative :
  load_last_speed four_samples_store = ([], Ok (Some 100000)).
Proof. vm_compute. reflexivity. Qed.

(** The samples 2000000, 2100000, 1900000 and 9000000: mean 3750000,
    bin size 187500 (0.05 times the mean), binned values 2062500
    (twice), 1875000 and 9000000.  With the first sample in place of the
    mean the bin size would be 100000 and the four binned values would
    differ. *)
Definition fast_samples : list Z := [2000000; 2100000; 1900000; 9000000].

Definition fast_samples_store : store :=
  {| speed_file := Text (render fast_samples); write_error := None |}.

Lemma representative_is_first_most_frequent_bin_witness :
  exists r pre post,
    load_last_speed fast_samples_store = ([], Ok (Some r)) /\
    map (round_to_bin (Z.max 50000 187500)) fast_samples = pre ++ r :: post /\
    ~ In r pre /\
    (forall y, In y pre ->
       (count_occ Z.eq_dec (map (round_to_bin (Z.max 50000 187500)) fast_samples) y <
        count_occ Z.eq_dec (map (round_to_bin (Z.max 50000 187500)) fast_samples) r)%nat) /\
    (forall y,
       (count_occ Z.eq_dec (map (round_to_bin (Z.max 50000 187500)) fast_samples) y <=
        count_occ Z.eq_dec (map (round_to_bin (Z.max 50000 187500)) fast_samples) r)%nat) /\
    (forall s, (Z.max 50000 187500 | round_to_bin (Z.max 50000 187500) s) /\
               - Z.max 50000 187500 <= 2 * (s - round_to_bin (Z.max 50000 187500) s)
                 < Z.max 50000 187500).
Proof.
  apply (representative_is_first_most_frequent_bin fast_samples_store
           (render fast_samples) fast_samples 187500).
  - reflexivity.
  - vm_compute. reflexivity.
  - discriminate.
  - vm_compute. reflexivity.
  - vm_compute. reflexivity.
Defined.

Example fast_samples_representative :
  load_last_speed fast_samples_store = ([], Ok (Some 2062500)) /\
  MeanSpec.arithmetic_mean fast_samples = S754_finite false 8053063680000000 (-31) /\
  (8053063680000000 # 2 ^ 31 == 3750000)%Q /\
  map (round_to_bin 187500) fast_samples = [2062500; 2062500; 1875000; 9000000] /\
  ((7205759403792794 # 2 ^ 57) - (1 # 2 ^ 57) < 5 # 100)%Q /\
  (5 # 100 < (7205759403792794 # 2 ^ 57) + (1 # 2 ^ 57))%Q.
Proof. vm_compute. repeat split; reflexivity. Qed.

(** Ties: 3 and 1 both occur twice among 3, 1, 3, 1, 2; the first seen
    wins. *)
Example tie_goes_to_first_seen :
  most_common_1 (Counter [3; 1; 3; 1; 2]) = [(3, 2%nat)].
Proof. reflexivity. Qed.

(** *** The representative as the specification words it *)

(** The arithmetic mean, the bin size [max(50000, 0.05 * mean)], the
    nearest multiple of the bin size, and the most frequent binned value
    (the first met among equally frequent ones), over the rationals. *)
Definition spec_mean (speeds : list Z) : Q :=
  (inject_Z (fold_right Z.add 0%Z speeds) / inject_Z (Z.of_nat (length speeds)))%Q.

Definition spec_bin_size (speeds : list Z) : Q :=
  Qmax (inject_Z 50000) ((5 # 100) * spec_mean speeds)%Q.

Definition spec_round (bin : Q) (s : Z) : Q :=
  (inject_Z (Qfloor (inject_Z s / bin + (1 # 2))) * bin)%Q.

Definition spec_count (x : Q) (l : list Q) : nat :=
  length (List.filter (Qeq_bool x) l).

Definition spec_most_frequent (l : list Q) : option Q :=
  match l with
  | [] => None
  | x :: rest =>
      Some (fold_left
              (fun best y => if (spec_count best l <? spec_count y l)%nat then y else best)
              rest x)
  end.

Definition representative_spec (speeds : list Z) : option Q :=
  spec_most_frequent (map (spec_round (spec_bin_size speeds)) speeds).

Definition two_samples : list Z := [1000010; 1400010].

(** C2 as stated fails on the two samples 1000010 and 1400010.  Their
    mean is 1200010 and 0.05 times the mean is 60000.5; the nearest
    multiples of 60000.5 are 1020008.5 and 1380011.5, so the value the
    claim describes is 1020008.5.  The program cuts the bin size to
    60000, bins the samples to 1020000 and 1380000, and returns
    1020000. *)
Lemma bin_size_is_cut_to_an_int :
  load_last_speed
    {| speed_file := Text (render two_samples); write_error := None |}
    = ([], Ok (Some 1020000)) /\
  (spec_mean two_samples == inject_Z 1200010)%Q /\
  (spec_bin_size two_samples == 120001 # 2)%Q /\
  (exists q, representative_spec two_samples = Some q /\ (q == 2040017 # 2)%Q) /\
  ~ (inject_Z 1020000 == 2040017 # 2)%Q.
Proof.
  split; [vm_compute; reflexivity|].
  split; [vm_compute; reflexivity|].
  split; [vm_compute; reflexivity|].
  split.
  - eexists. split; [vm_compute; reflexivity|]. vm_compute. reflexivity.
  - intros C. vm_compute in C. discriminate C.
Qed.

End RepresentativeSpec.

(** ** Format selection *)

Module FormatSpec.
Import FormatSelector.

(** *** Order facts on Python numbers *)

Lemma gt_iff (a b : pynum) :
  gt a b = true <->
  match value_of a, value_of b with
  | VNaN, _ | _, VNaN => False
  | VPosInf, VPosInf => False
  | VPosInf, _ => True
  | _, VPosInf => False
  | VNegInf, _ => False
  | VFin _, VNegInf => True
  | VFin x, VFin y => (y < x)%Q
  end.
Proof.
  unfold gt. destruct (value_of a) as [| |x|], (value_of b) as [| |y|];
    try (split; [discriminate|contradiction]); try (split; auto; fail).
  rewrite Qlt_alt. destruct (y ?= x)%Q; split; auto; discriminate.
Qed.

Lemma ge_iff (a b : pynum) :
  ge a b = true <->
  match value_of a, value_of b with
  | VNaN, _ | _, VNaN => False
  | VPosInf, _ => True
  | _, VNegInf => True
  | VNegInf, _ => False
  | VFin _, VPosInf => False
  | VFin x, VFin y => (y <= x)%Q
  end.
Proof.
  unfold ge. destruct (value_of a) as [| |x|], (value_of b) as [| |y|];
    try (split; [discriminate|contradiction]); try (split; auto; fail).
  rewrite Qle_alt. destruct (y ?= x)%Q; split; auto; try discriminate.
Qed.

(** [c >= a] and [a > b] give [c > b]. *)
Lemma ge_gt_trans (a b c : pynum) :
  ge c a = true -> gt a b = true -> gt c b = true.
Proof.
  rewrite ge_iff, !gt_iff.
  destruct (value_of a) as [| |x|], (value_of b) as [| |y|],
    (value_of c) as [| |z|]; try tauto.
  intros H1 H2. eapply Qlt_le_trans; eassumption.
Qed.

Lemma gt_ge (a b : pynum) : gt a b = true -> ge a b = true.
Proof.
  rewrite ge_iff, gt_iff.
  destruct (value_of a) as [| |x|], (value_of b) as [| |y|]; try tauto.
  apply Qlt_le_weak.
Qed.

Lemma gt_not_ge (a b : pynum) : gt a b = true -> ge b a = false.
Proof.
  intros H. destruct (ge b a) eqn:E; [|reflexivity]. exfalso.
  revert H E. rewrite ge_iff, gt_iff.
  destruct (value_of a) as [| |x|], (value_of b) as [| |y|]; try tauto.
  intros H1 H2. apply (Qlt_irrefl x). eapply Qle_lt_trans; eassumption.
Qed.

(** *** The streams of a resolution *)

(** The four target heights; their decimal texts are the keys of
    [best_formats]. *)
Definition target_heights : list Z := [4320; 2160; 1440; 1080].

Lemma target_keys : map fst targets = map str_of_int target_heights.
Proof. reflexivity. Qed.

(** A video stream (not audio-only) whose height is exactly [n]. *)
Definition at_height (n : Z) (f : format) : bool :=
  negb (is_audio_only f) &&
  match height f with
  | Some z => z =? n
  | None => false
  end.

Definition matching (n : Z) (formats : list format) : list format :=
  List.filter (at_height n) formats.

(** The size estimates that could be resolved, in stream order. *)
Definition resolved (duration_sec : option pynum) (f : format) : list Z :=
  match estimate_size f duration_sec with
  | Ok (Some e) => [e]
  | _ => []
  end.

Definition sizes_of (duration_sec : option pynum) (streams : list format) : list Z :=
  flat_map (resolved duration_sec) streams.

Definition own_estimate (duration_sec : option pynum) (f : format) : option Z :=
  match estimate_size f duration_sec with
  | Ok e => e
  | Raise _ => None
  end.

(** The stream kept after each new stream: the new one when there was
    none or when it is strictly faster. *)
Definition step_fastest (kept : option format) (f : format) : option format :=
  match kept with
  | None => Some f
  | Some g => if gt (fps_or_0 f) (fps_or_0 g) then Some f else Some g
  end.

Definition first_fastest (streams : list format) : option format :=
  fold_left step_fastest streams None.

Lemma first_fastest_snoc (streams : list format) (f : format) :
  first_fastest (streams ++ [f]) = step_fastest (first_fastest streams) f.
Proof. unfold first_fastest. rewrite fold_left_app. reflexivity. Qed.

(** The kept stream is the first of the fastest: no stream before it is
    as fast, no stream after it is faster. *)
Lemma first_fastest_split (streams : list format) :
  streams <> [] ->
  exists pre f post,
    first_fastest streams = Some f /\
    streams = pre ++ f :: post /\
    (forall g, In g pre -> ge (fps_or_0 g) (fps_or_0 f) = false) /\
    (forall g, In g post -> gt (fps_or_0 g) (fps_or_0 f) = false).
Proof.
  induction streams as [|x streams IH] using rev_ind; [contradiction|].
  intros _. rewrite first_fastest_snoc.
  destruct streams as [|s0 streams'] eqn:Es.
  - exists [], x, []. simpl. repeat split; intros g [].
  - rewrite <- Es in *.
    destruct IH as (pre & f & post & Hf & Hsplit & Hpre & Hpost);
      [rewrite Es; discriminate|].
    rewrite Hf. simpl. destruct (gt (fps_or_0 x) (fps_or_0 f)) eqn:E.
    + exists (pre ++ f :: post), x, []. rewrite Hsplit.
      repeat split; [|intros g []].
      intros g Hg. destruct (ge (fps_or_0 g) (fps_or_0 x)) eqn:Eg; [|reflexivity].
      pose proof (ge_gt_trans _ _ _ Eg E) as Hgf.
      apply in_app_or in Hg. destruct Hg as [Hg|[<-|Hg]].
      * apply gt_ge in Hgf. rewrite (Hpre g Hg) in Hgf. discriminate.
      * apply gt_not_ge in E. congruence.
      * rewrite (Hpost g Hg) in Hgf. discriminate.
    + exists pre, f, (post ++ [x]). rewrite Hsplit, <- app_assoc.
      repeat split; [exact Hpre|].
      intros g Hg. apply in_app_or in Hg. destruct Hg as [Hg|[<-|[]]].
      * apply Hpost, Hg.
      * exact E.
Qed.

Lemma matching_snoc (n : Z) (formats : list format) (f : format) :
  matching n (formats ++ [f]) =
  matching n formats ++ (if at_height n f then [f] else []).
Proof. unfold matching. rewrite List.filter_app. reflexivity. Qed.

Lemma sizes_of_snoc (d : option pynum) (streams : list format) (f : format) :
  sizes_of d (streams ++ [f]) = sizes_of d streams ++ resolved d f.
Proof. unfold sizes_of. rewrite flat_map_app. simpl. rewrite app_nil_r. reflexivity. Qed.

(** The key of a stream is the text of a target height exactly when its
    height is that int. *)
Lemma key_is_height (n : Z) (f : format) :
  In n target_heights ->
  String.eqb (height_key f) (str_of_int n) =
  match height f with
  | Some z => z =? n
  | None => false
  end.
Proof.
  intros Hn. unfold height_key. destruct (height f) as [z|].
  - destruct (z =? n) eqn:E.
    + apply Z.eqb_eq in E. subst. apply String.eqb_refl.
    + apply String.eqb_neq. intros C. apply (inj pretty) in C.
      apply Z.eqb_neq in E. contradiction.
  - simpl in Hn. destruct Hn as [<-|[<-|[<-|[<-|[]]]]]; reflexivity.
Qed.

(** *** The scan of the streams *)

Definition is_target (k : string) : bool :=
  existsb (String.eqb k) (map fst targets).

Lemma is_target_iff (k : string) :
  is_target k = true <-> exists n, In n target_heights /\ k = str_of_int n.
Proof.
  unfold is_target. rewrite existsb_exists, target_keys. split.
  - intros (x & Hx & E). apply String.eqb_eq in E. subst x.
    apply in_map_iff in Hx. destruct Hx as (n & <- & Hn). eauto.
  - intros (n & Hn & ->). exists (str_of_int n). split.
    + apply in_map. exact Hn.
    + apply String.eqb_refl.
Qed.

(** The candidate kept for a list of streams of one resolution. *)
Definition kept_candidate (d : option pynum) (streams : list format) : option candidate :=
  option_map (fun f => candidate_of f (own_estimate d f)) (first_fastest streams).

(** What the two dictionaries hold once the streams [done] are scanned. *)
Record scanned (d : option pynum) (done : list format) (st : scan_state) : Prop := {
  scanned_best : forall n, In n target_heights ->
    fst st !! str_of_int n = Some (kept_candidate d (matching n done));
  scanned_sizes : forall n, In n target_heights ->
    snd st !! str_of_int n = Some (sizes_of d (matching n done));
  scanned_other : forall k, is_target k = false -> fst st !! k = None
}.

Lemma scanned_init (d : option pynum) : scanned d [] (init_best, init_sizes).
Proof.
  split.
  - intros n Hn. simpl in Hn.
    destruct Hn as [<-|[<-|[<-|[<-|[]]]]]; vm_compute; reflexivity.
  - intros n Hn. simpl in Hn.
    destruct Hn as [<-|[<-|[<-|[<-|[]]]]]; vm_compute; reflexivity.
  - intros k Hk. unfold is_target in Hk. simpl in Hk.
    rewrite !orb_false_iff in Hk. destruct Hk as (H1 & H2 & H3 & H4 & _).
    apply String.eqb_neq in H1, H2, H3, H4.
    unfold init_best. simpl.
    rewrite !lookup_insert_ne by congruence. apply lookup_empty.
Qed.

Lemma at_height_other (d : option pynum) (n : Z) (f : format) :
  In n target_heights ->
  height_key f <> str_of_int n -> at_height n f = false.
Proof.
  intros Hn Hne. unfold at_height. rewrite <- (key_is_height n f Hn).
  apply String.eqb_neq in Hne. rewrite Hne. apply andb_false_r.
Qed.

Lemma sizes_of_matching_snoc (d : option pynum) (n : Z) (done : list format) (f : format) :
  sizes_of d (matching n (done ++ [f])) =
  sizes_of d (matching n done) ++ (if at_height n f then resolved d f else []).
Proof.
  rewrite matching_snoc. unfold sizes_of. rewrite flat_map_app.
  destruct (at_height n f); simpl; rewrite ?app_nil_r; reflexivity.
Qed.

Lemma kept_candidate_matching_snoc (d : option pynum) (n : Z) (done : list format)
    (f : format) :
  kept_candidate d (matching n (done ++ [f])) =
  if at_height n f
  then option_map (fun g => candidate_of g (own_estimate d g))
         (step_fastest (first_fastest (matching n done)) f)
  else kept_candidate d (matching n done).
Proof.
  rewrite matching_snoc. destruct (at_height n f).
  - unfold kept_candidate. rewrite first_fastest_snoc. reflexivity.
  - rewrite app_nil_r. reflexivity.
Qed.

Lemma scanned_same (d : option pynum) (done : list format) (f : format) (st : scan_state) :
  scanned d done st ->
  (forall n, In n target_heights -> at_height n f = false) ->
  scanned d (done ++ [f]) st.
Proof.
  intros [Hb Hs Ho] Hno. split; [| |exact Ho].
  - intros n Hn. rewrite kept_candidate_matching_snoc, (Hno n Hn). apply Hb, Hn.
  - intros n Hn. rewrite sizes_of_matching_snoc, (Hno n Hn), app_nil_r. apply Hs, Hn.
Qed.

Lemma target_key_neq (n m : Z) : n <> m -> str_of_int m <> str_of_int n.
Proof. intros Hne C. apply (inj pretty) in C. congruence. Qed.

Lemma scan_step_scanned (d : option pynum) (done : list format) (f : format)
    (st st' : scan_state) :
  scanned d done st ->
  scan_step d st f = Ok st' ->
  scanned d (done ++ [f]) st'.
Proof.
  intros Hinv. destruct st as [best sizes]. unfold scan_step.
  destruct (is_audio_only f) eqn:Ea.
  { intros [= <-]. apply scanned_same; [exact Hinv|].
    intros n _. unfold at_height. rewrite Ea. reflexivity. }
  destruct (is_target (height_key f)) eqn:Et.
  2:{ pose proof (scanned_other _ _ _ Hinv _ Et) as Hx. simpl in Hx.
      rewrite Hx. intros [= <-].
      apply scanned_same; [exact Hinv|].
      intros n Hn. apply (at_height_other d n f Hn). intros C.
      assert (is_target (height_key f) = true) as Ht
        by (apply is_target_iff; eauto).
      congruence. }
  apply is_target_iff in Et. destruct Et as (m & Hm & Hkey).
  destruct Hinv as [Hb Hs Ho]. simpl in Hb, Hs, Ho.
  rewrite Hkey, (Hb m Hm).
  destruct (estimate_size f d) as [est|e] eqn:Ee; [|discriminate].
  rewrite ResultFacts.bind_Ok.
  assert (at_height m f = true) as Hat.
  { unfold at_height. rewrite Ea, <- (key_is_height m f Hm), Hkey.
    simpl. apply String.eqb_refl. }
  assert (forall n, In n target_heights -> n <> m -> at_height n f = false) as Hoth.
  { intros n Hn Hne. apply (at_height_other d n f Hn). rewrite Hkey.
    apply target_key_neq. congruence. }
  assert (own_estimate d f = est) as Hown by (unfold own_estimate; rewrite Ee; reflexivity).
  assert (resolved d f = match est with Some e => [e] | None => [] end) as Hres
    by (unfold resolved; rewrite Ee; reflexivity).
  assert (exists sizes',
            (match est with
             | Some e =>
                 match sizes !! str_of_int m with
                 | Some l => Ok (<[str_of_int m := l ++ [e]]> sizes)
                 | None => Raise KeyError
                 end
             | None => Ok sizes
             end) = Ok sizes' /\
            forall n, In n target_heights ->
              sizes' !! str_of_int n = Some (sizes_of d (matching n (done ++ [f]))))
    as (sizes' & -> & Hs').
  { destruct est as [e|].
    - rewrite (Hs m Hm). eexists. split; [reflexivity|].
      intros n Hn. rewrite sizes_of_matching_snoc.
      destruct (Z.eq_dec n m) as [->|Hne].
      + rewrite lookup_insert_eq, Hat, Hres. reflexivity.
      + rewrite lookup_insert_ne by (apply target_key_neq; exact Hne).
        rewrite (Hoth n Hn Hne), app_nil_r. apply Hs, Hn.
    - exists sizes. split; [reflexivity|].
      intros n Hn. rewrite sizes_of_matching_snoc.
      destruct (Z.eq_dec n m) as [->|Hne].
      + rewrite Hat, Hres, app_nil_r. apply Hs, Hm.
      + rewrite (Hoth n Hn Hne), app_nil_r. apply Hs, Hn. }
  rewrite ResultFacts.bind_Ok.
  assert (forall k v, is_target k = false ->
            (<[str_of_int m := v]> best : gmap string (option candidate)) !! k = None)
    as Ho'.
  { intros k v Hk. rewrite lookup_insert_ne; [apply Ho, Hk|].
    intros <-. assert (is_target (str_of_int m) = true) as Ht
      by (apply is_target_iff; eauto). congruence. }
  unfold kept_candidate at 1.
  destruct (first_fastest (matching m done)) as [g|] eqn:Eg; simpl.
  - destruct (gt (fps_or_0 f) (fps_or_0 g)) eqn:Egt; intros [= <-]; split; simpl;
      try exact Hs'; try exact Ho; try (intros k Hk; apply Ho', Hk).
    + intros n Hn. rewrite kept_candidate_matching_snoc.
      destruct (Z.eq_dec n m) as [->|Hne].
      * rewrite lookup_insert_eq, Hat, Eg. simpl. rewrite Egt. simpl.
        rewrite Hown. reflexivity.
      * rewrite lookup_insert_ne by (apply target_key_neq; exact Hne).
        rewrite (Hoth n Hn Hne). apply Hb, Hn.
    + intros n Hn. rewrite kept_candidate_matching_snoc.
      destruct (Z.eq_dec n m) as [->|Hne].
      * rewrite Hat, Eg. simpl. rewrite Egt. simpl.
        rewrite (Hb m Hm). unfold kept_candidate. rewrite Eg. reflexivity.
      * rewrite (Hoth n Hn Hne). apply Hb, Hn.
  - intros [= <-]. split; simpl; try exact Hs'; try (intros k Hk; apply Ho', Hk).
    intros n Hn. rewrite kept_candidate_matching_snoc.
    destruct (Z.eq_dec n m) as [->|Hne].
    + rewrite lookup_insert_eq, Hat, Eg. simpl. rewrite Hown. reflexivity.
    + rewrite lookup_insert_ne by (apply target_key_neq; exact Hne).
      rewrite (Hoth n Hn Hne). apply Hb, Hn.
Qed.

Lemma scan_scanned (d : option pynum) (rest : list format) :
  forall (done : list format) (st st' : scan_state),
    scanned d done st ->
    scan d rest st = Ok st' ->
    scanned d (done ++ rest) st'.
Proof.
  induction rest as [|f rest IH]; intros done st st' Hinv; simpl.
  - intros [= <-]. rewrite app_nil_r. exact Hinv.
  - destruct (scan_step d st f) as [st1|e] eqn:E1; [|discriminate].
    rewrite ResultFacts.bind_Ok. intros H.
    replace (done ++ f :: rest) with ((done ++ [f]) ++ rest)
      by (rewrite <- app_assoc; reflexivity).
    apply (IH _ st1 st'); [|exact H].
    apply (scan_step_scanned d done f st st1 Hinv E1).
Qed.

(** *** The averaging pass *)

(** What the averaging pass leaves under key [k]. *)
Definition averaged (sizes : gmap string (list Z))
    (best : gmap string (option candidate)) (k : string) : option (option candidate) :=
  match best !! k with
  | Some (Some c) =>
      match sizes !! k with
      | Some (x :: l) =>
          match mean (x :: l) with
          | Ok avg => Some (Some (set_filesize c (PFloat avg)))
          | Raise _ => Some (Some c)
          end
      | _ => Some (Some c)
      end
  | other => other
  end.

Lemma average_lookup (sizes : gmap string (list Z)) (ks : list string) :
  List.NoDup ks ->
  forall best best' : gmap string (option candidate),
    average ks sizes best = Ok best' ->
    forall k,
      (In k ks -> best' !! k = averaged sizes best k) /\
      (~ In k ks -> best' !! k = best !! k) /\
      (In k ks -> forall x l, sizes !! k = Some (x :: l) -> is_ok (mean (x :: l)) = true).
Proof.
  induction 1 as [|k0 ks Hk0 Hnd IH]; intros best best' Hav k; simpl in Hav.
  - injection Hav as <-. repeat split; try contradiction; auto.
  - destruct (sizes !! k0) as [[|x l]|] eqn:Es; [| |discriminate].
    + destruct (IH best best' Hav k) as (H1 & H2 & H3).
      split; [|split].
      * intros [<-|Hin]; [|apply H1, Hin].
        destruct (IH best best' Hav k0) as (_ & H2' & _).
        rewrite (H2' Hk0). unfold averaged. rewrite Es.
        destruct (best !! k0) as [[c|]|]; reflexivity.
      * intros Hn. apply H2. intros C. apply Hn. right. exact C.
      * intros [<-|Hin] x l Hx; [congruence|apply (H3 Hin x l Hx)].
    + destruct (mean (x :: l)) as [avg|e] eqn:Em; [|discriminate].
      rewrite ResultFacts.bind_Ok in Hav.
      destruct (best !! k0) as [[c|]|] eqn:Eb; [| |discriminate].
      * destruct (IH _ best' Hav k) as (H1 & H2 & H3).
        destruct (IH _ best' Hav k0) as (_ & H2' & _).
        split; [|split].
        -- intros [<-|Hin].
           ++ rewrite (H2' Hk0), lookup_insert_eq. unfold averaged.
              rewrite Eb, Es, Em. reflexivity.
           ++ rewrite (H1 Hin). unfold averaged.
              rewrite lookup_insert_ne by (intros <-; contradiction). reflexivity.
        -- intros Hn. rewrite H2 by (intros C; apply Hn; right; exact C).
           apply lookup_insert_ne. intros <-. apply Hn. left. reflexivity.
        -- intros [<-|Hin] x' l' Hx.
           ++ rewrite Es in Hx. injection Hx as <- <-. rewrite Em. reflexivity.
           ++ apply (H3 Hin x' l' Hx).
      * destruct (IH _ best' Hav k) as (H1 & H2 & H3).
        destruct (IH _ best' Hav k0) as (_ & H2' & _).
        split; [|split].
        -- intros [<-|Hin]; [|apply H1, Hin].
           rewrite (H2' Hk0). unfold averaged. rewrite Eb. reflexivity.
        -- intros Hn. apply H2. intros C. apply Hn. right. exact C.
        -- intros [<-|Hin] x' l' Hx.
           ++ rewrite Es in Hx. injection Hx as <- <-. rewrite Em. reflexivity.
           ++ apply (H3 Hin x' l' Hx).
Qed.

Lemma target_keys_NoDup : List.NoDup (map fst targets).
Proof.
  simpl. repeat constructor; simpl; intuition discriminate.
Qed.

Lemma sizes_of_nil_own (d : option pynum) (streams : list format) (f : format) :
  sizes_of d streams = [] -> In f streams -> own_estimate d f = None.
Proof.
  unfold sizes_of. intros H Hin.
  assert (resolved d f = []) as Hr.
  { induction streams as [|g streams IH]; [contradiction|].
    simpl in H. apply app_eq_nil in H as [H1 H2].
    destruct Hin as [<-|Hin]; [exact H1|apply IH; assumption]. }
  unfold resolved, own_estimate in *.
  destruct (estimate_size f d) as [[e|]|]; [discriminate|reflexivity|reflexivity].
Qed.

Lemma compute_best_lookup (formats : list format) (d : option pynum)
    (best : gmap string (option candidate)) :
  compute_best formats d = Ok best ->
  exists st : scan_state,
    scanned d formats st /\
    forall n, In n target_heights ->
      best !! str_of_int n = averaged (snd st) (fst st) (str_of_int n) /\
      forall x l, snd st !! str_of_int n = Some (x :: l) -> is_ok (mean (x :: l)) = true.
Proof.
  unfold compute_best.
  destruct (scan d formats (init_best, init_sizes)) as [st|e] eqn:Es; [|discriminate].
  rewrite ResultFacts.bind_Ok. intros Hav.
  exists st. split.
  - apply (scan_scanned d formats [] _ st (scanned_init d) Es).
  - intros n Hn.
    assert (In (str_of_int n) (map fst targets)) as Hk
      by (rewrite target_keys; apply in_map, Hn).
    destruct (average_lookup (snd st) _ target_keys_NoDup _ _ Hav (str_of_int n))
      as (H1 & _ & H3).
    split; [apply H1, Hk|apply H3, Hk].
Qed.

(** The frame rate a stream counts with: the value of 'fps', and 0
    when the key is missing, holds [None], or holds a zero. *)
Definition frame_rate (f : format) : pynum :=
  match fps f with
  | Some (PInt Z0) => PInt 0
  | Some (PFloat (S754_zero _)) => PInt 0
  | Some x => x
  | None => PInt 0
  end.

Lemma fps_or_0_frame_rate (f : format) : fps_or_0 f = frame_rate f.
Proof.
  unfold fps_or_0, frame_rate.
  destruct (fps f) as [[[|z|z]|[s|s| |s m e]]|]; reflexivity.
Qed.

(** C1.  For a target height with at least one matching video stream,
    the entry of [best_formats] is built from the first of the fastest
    matching streams (no matching stream before it is as fast, none after
    it is faster; a stream counts with the value of its 'fps', or 0), and
    its size is the arithmetic mean of all the size estimates that could
    be resolved for the matching streams (their sum over their number, in
    binary64), whatever the estimate of the chosen stream itself; it is
    [None] when no estimate could be resolved.  The entry keeps the
    'ext' of the stream, the empty text when the stream has none. *)
Theorem best_format_is_first_fastest_with_mean_size
    (formats : list format) (d : option pynum)
    (best : gmap string (option candidate)) (n : Z) :
  compute_best formats d = Ok best ->
  In n target_heights ->
  matching n formats <> [] ->
  exists pre f post size,
    matching n formats = pre ++ f :: post /\
    (forall g, In g pre -> ge (frame_rate g) (frame_rate f) = false) /\
    (forall g, In g post -> gt (frame_rate g) (frame_rate f) = false) /\
    best !! str_of_int n =
      Some (Some {| c_format_id := format_id f;
                    c_fps := frame_rate f;
                    c_ext := match ext f with Some e => e | None => Some "" end;
                    c_filesize := size;
                    c_vcodec := vcodec f |}) /\
    match sizes_of d (matching n formats) with
    | [] => size = None
    | l =>
        size = Some (PFloat (MeanSpec.arithmetic_mean l)) /\
        is_inf (MeanSpec.arithmetic_mean l) = false
    end.
Proof.
  intros Hbest Hn Hne.
  destruct (compute_best_lookup formats d best Hbest) as (st & Hinv & Hlook).
  destruct (Hlook n Hn) as (Hb & Hmean).
  destruct Hinv as [Hsb Hss _]. simpl in Hsb, Hss.
  destruct (first_fastest_split (matching n formats) Hne)
    as (pre & f & post & Hf & Hsplit & Hpre & Hpost).
  unfold averaged in Hb. rewrite (Hsb n Hn), (Hss n Hn) in Hb.
  rewrite (Hss n Hn) in Hmean.
  unfold kept_candidate in Hb. rewrite Hf in Hb. simpl in Hb.
  assert (forall g, In g pre -> ge (frame_rate g) (frame_rate f) = false) as Hpre'
    by (intros g Hg; rewrite <- !fps_or_0_frame_rate; apply Hpre, Hg).
  assert (forall g, In g post -> gt (frame_rate g) (frame_rate f) = false) as Hpost'
    by (intros g Hg; rewrite <- !fps_or_0_frame_rate; apply Hpost, Hg).
  destruct (sizes_of d (matching n formats)) as [|x l] eqn:Esz.
  - exists pre, f, post, None. repeat split; try assumption.
    rewrite Hb. unfold candidate_of.
    rewrite (sizes_of_nil_own d (matching n formats) f Esz), fps_or_0_frame_rate.
    + reflexivity.
    + rewrite Hsplit. apply in_elt.
  - specialize (Hmean x l eq_refl).
    destruct (mean (x :: l)) as [avg|e] eqn:Em; [|discriminate].
    apply MeanSpec.mean_Ok in Em; [|discriminate]. destruct Em as [-> Hfin].
    exists pre, f, post, (Some (PFloat (MeanSpec.arithmetic_mean (x :: l)))).
    repeat split; try assumption.
    rewrite Hb. unfold candidate_of, set_filesize. simpl.
    rewrite fps_or_0_frame_rate. reflexivity.
Qed.

(** X15.  A resolution without a matching stream has no candidate:
    its entry stays [None], and its row of the menu reads "not
    available". *)
Lemma no_stream_no_candidate
    (formats : list format) (d : option pynum)
    (best : gmap string (option candidate)) (n : Z) :
  compute_best formats d = Ok best ->
  In n target_heights ->
  matching n formats = [] ->
  best !! str_of_int n = Some None.
Proof.
  intros Hbest Hn He.
  destruct (compute_best_lookup formats d best Hbest) as (st & Hinv & Hlook).
  destruct (Hlook n Hn) as (Hb & _).
  destruct Hinv as [Hsb _ _]. simpl in Hsb.
  unfold averaged in Hb. rewrite (Hsb n Hn), He in Hb. exact Hb.
Qed.

(** *** When the selection returns *)

Lemma scan_step_returns (d : option pynum) (done : list format) (f : format)
    (st : scan_state) :
  scanned d done st ->
  is_ok (estimate_size f d) = true ->
  exists st', scan_step d st f = Ok st'.
Proof.
  intros Hinv Hok. destruct st as [best sizes]. unfold scan_step.
  destruct (is_audio_only f); [eauto|].
  destruct (best !! height_key f) as [bf|] eqn:Eb; [|eauto].
  destruct (estimate_size f d) as [est|e]; [|discriminate].
  rewrite ResultFacts.bind_Ok.
  assert (is_target (height_key f) = true) as Ht.
  { destruct (is_target (height_key f)) eqn:E; [reflexivity|].
    pose proof (scanned_other _ _ _ Hinv _ E) as Hx. simpl in Hx. congruence. }
  apply is_target_iff in Ht. destruct Ht as (m & Hm & Hkey).
  pose proof (scanned_sizes _ _ _ Hinv m Hm) as Hs. simpl in Hs.
  rewrite Hkey. destruct est as [e|].
  - rewrite Hs, ResultFacts.bind_Ok.
    destruct (match bf with None => true | Some b => gt (fps_or_0 f) (c_fps b) end); eauto.
  - rewrite ResultFacts.bind_Ok.
    destruct (match bf with None => true | Some b => gt (fps_or_0 f) (c_fps b) end); eauto.
Qed.

Lemma scan_returns (d : option pynum) (rest : list format) :
  forall (done : list format) (st : scan_state),
    scanned d done st ->
    (forall f, In f rest -> is_ok (estimate_size f d) = true) ->
    exists st', scan d rest st = Ok st'.
Proof.
  induction rest as [|f rest IH]; intros done st Hinv Hok; simpl; [eauto|].
  destruct (scan_step_returns d done f st Hinv) as [st1 E1];
    [apply Hok; left; reflexivity|].
  rewrite E1, ResultFacts.bind_Ok.
  apply (IH (done ++ [f]) st1).
  - apply (scan_step_scanned d done f st st1 Hinv E1).
  - intros g Hg. apply Hok. right. exact Hg.
Qed.

Lemma average_returns (sizes : gmap string (list Z)) (ks : list string) :
  (forall k, In k ks -> exists l, sizes !! k = Some l /\ (l = [] \/ is_ok (mean l) = true)) ->
  forall best : gmap string (option candidate),
    (forall k, In k ks -> is_Some (best !! k)) ->
    exists best', average ks sizes best = Ok best'.
Proof.
  induction ks as [|k0 ks IH]; intros Hs best Hb; simpl; [eauto|].
  destruct (Hs k0 (or_introl eq_refl)) as (l & El & Hl). rewrite El.
  assert (forall b : gmap string (option candidate),
            (forall k, In k ks -> is_Some (b !! k)) ->
            exists best', average ks sizes b = Ok best') as IH'.
  { intros b Hb'. apply IH; [|exact Hb'].
    intros k Hk. apply Hs. right. exact Hk. }
  destruct l as [|x l]; [apply IH'; intros k Hk; apply Hb; right; exact Hk|].
  destruct Hl as [Hl|Hl]; [discriminate|].
  destruct (mean (x :: l)) as [avg|e]; [|discriminate].
  rewrite ResultFacts.bind_Ok.
  destruct (Hb k0 (or_introl eq_refl)) as [[c|] Ec]; rewrite Ec.
  - apply IH'. intros k Hk.
    destruct (decide (k0 = k)) as [->|Hne].
    + rewrite lookup_insert_eq. eauto.
    + rewrite lookup_insert_ne by exact Hne. apply Hb. right. exact Hk.
  - apply IH'. intros k Hk. apply Hb. right. exact Hk.
Qed.

(** X16.  The tables are computed whenever every stream has a size
    estimate (or none) without an overflow, and the mean of the estimates
    of each resolution is in the range of binary64: the scan raises no
    [KeyError], whatever the heights and keys of the streams. *)
Lemma compute_best_returns (formats : list format) (d : option pynum) :
  (forall f, In f formats -> is_ok (estimate_size f d) = true) ->
  (forall n, In n target_heights ->
     sizes_of d (matching n formats) = [] \/
     is_ok (mean (sizes_of d (matching n formats))) = true) ->
  exists best, compute_best formats d = Ok best.
Proof.
  intros Hest Hmean. unfold compute_best.
  destruct (scan_returns d formats [] _ (scanned_init d) Hest) as [st Es].
  rewrite Es, ResultFacts.bind_Ok.
  pose proof (scan_scanned d formats [] _ st (scanned_init d) Es) as Hinv.
  simpl in Hinv. destruct Hinv as [Hb Hs _].
  apply average_returns.
  - intros k Hk. rewrite target_keys in Hk. apply in_map_iff in Hk.
    destruct Hk as (n & <- & Hn). exists (sizes_of d (matching n formats)).
    split; [apply Hs, Hn|apply Hmean, Hn].
  - intros k Hk. rewrite target_keys in Hk. apply in_map_iff in Hk.
    destruct Hk as (n & <- & Hn). rewrite (Hb n Hn). eauto.
Qed.

(** Four streams at height 1080: declared sizes 1000000 and 1100000, one
    without any size, one with a bitrate only (720 kbit/s, 900000 bytes
    over ten seconds); an audio-only stream and a 720p stream besides. *)
Definition stream (id : string) (codec : string) (h : Z) (rate : Z)
    (size : option Z) (bitrate : option Z) : format :=
  {| format_id := Some id; vcodec := Some codec; height := Some h;
     fps := Some (PInt rate); ext := Some (Some "mp4"); filesize := size;
     filesize_approx := None; tbr := option_map PInt bitrate |}.

Definition sample_streams : list format :=
  [ stream "a" "avc1" 1080 30 (Some 1000000) None;
    stream "audio" "none" 1080 0 (Some 5000) None;
    stream "b" "avc1" 1080 60 (Some 1100000) None;
    stream "c" "vp9" 1080 60 None None;
    stream "small" "avc1" 720 60 (Some 400000) None;
    stream "d" "av01" 1080 25 None (Some 720) ].

Definition sample_duration : option pynum := Some (PInt 10).

Definition sample_best : gmap string (option candidate) :=
  match compute_best sample_streams sample_duration with
  | Ok b => b
  | Raise _ => ∅
  end.

(** Three streams at height 1080 whose declared sizes 1000000, 1100000
    and 1200001 have the mean 1100000.33..., which is the size of none
    of them. *)
Definition uneven_streams : list format :=
  [ stream "a" "avc1" 1080 30 (Some 1000000) None;
    stream "b" "avc1" 1080 60 (Some 1100000) None;
    stream "c" "vp9" 1080 60 (Some 1200001) None ].

Definition uneven_best : gmap string (option candidate) :=
  match compute_best uneven_streams None with
  | Ok b => b
  | Raise _ => ∅
  end.

Lemma best_format_is_first_fastest_with_mean_size_witness :
  exists pre f post size,
    matching 1080 uneven_streams = pre ++ f :: post /\
    (forall g, In g pre -> ge (frame_rate g) (frame_rate f) = false) /\
    (forall g, In g post -> gt (frame_rate g) (frame_rate f) = false) /\
    uneven_best !! str_of_int 1080 =
      Some (Some {| c_format_id := format_id f;
                    c_fps := frame_rate f;
                    c_ext := match ext f with Some e => e | None => Some "" end;
                    c_filesize := size;
                    c_vcodec := vcodec f |}) /\
    match sizes_of None (matching 1080 uneven_streams) with
    | [] => size = None
    | l =>
        size = Some (PFloat (MeanSpec.arithmetic_mean l)) /\
        is_inf (MeanSpec.arithmetic_mean l) = false
    end.
Proof.
  apply (best_format_is_first_fastest_with_mean_size
           uneven_streams None uneven_best 1080).
  - vm_compute. reflexivity.
  - simpl. auto.
  - discriminate.
Defined.

(** On the uneven streams the 1080p entry is stream "b" (the first at
    60 frames per second) with the size 3300001 / 3 rounded to binary64:
    neither the 1000000 of the first stream nor the 1100000 of "b". *)
Example uneven_best_1080 :
  sizes_of None (matching 1080 uneven_streams) = [1000000; 1100000; 1200001] /\
  uneven_best !! "1080" =
    Some (Some {| c_format_id := Some "b"; c_fps := PInt 60; c_ext := Some "mp4";
                  c_filesize := Some (PFloat (S754_finite false 4724465457255765 (-32)));
                  c_vcodec := Some "avc1" |}) /\
  MeanSpec.arithmetic_mean [1000000; 1100000; 1200001] =
    S754_finite false 4724465457255765 (-32) /\
  ((4724465457255765 # 4294967296) - (1 # 4294967296) < 3300001 # 3)%Q /\
  (3300001 # 3 < (4724465457255765 # 4294967296) + (1 # 4294967296))%Q.
Proof. vm_compute. repeat split; reflexivity. Qed.

(** A stream whose 'ext' holds [None] gives an entry whose 'ext' is
    [None]; a float frame rate counts with its value. *)
Example entry_keeps_ext_and_rate :
  compute_best
    [{| format_id := Some "x"; vcodec := Some "vp9"; height := Some 2160;
        fps := Some (PFloat (S754_finite false 1 1)); ext := Some None;
        filesize := None; filesize_approx := None; tbr := None |};
     {| format_id := Some "y"; vcodec := Some "vp9"; height := Some 2160;
        fps := Some (PInt 1); ext := None;
        filesize := None; filesize_approx := None; tbr := None |}] None
  ≫= (fun best => Ok (best !! "2160")) =
  Ok (Some (Some {| c_format_id := Some "x"; c_fps := PFloat (S754_finite false 1 1);
                    c_ext := None; c_filesize := None; c_vcodec := Some "vp9" |})).
Proof. vm_compute. reflexivity. Qed.

(** On these streams the 1080p entry is stream "b" (the first at 60
    frames per second), with the size 1000000.0: the mean of 1000000,
    1100000 and 900000, not the 1100000 of "b" itself. *)
Example sample_best_1080 :
  sizes_of sample_duration (matching 1080 sample_streams) = [1000000; 1100000; 900000] /\
  sample_best !! "1080" =
    Some (Some {| c_format_id := Some "b"; c_fps := PInt 60; c_ext := Some "mp4";
                  c_filesize := Some (PFloat (S754_finite false 8589934592000000 (-33)));
                  c_vcodec := Some "avc1" |}) /\
  value_of (PFloat (S754_finite false 8589934592000000 (-33))) = VFin (8589934592000000 # 8589934592).
Proof. vm_compute. repeat split; reflexivity. Qed.

End FormatSpec.

(** ** The resolution menu *)

Module MenuSpec.
Import FormatSelector.







Lemma time_columns_no_speed (size : option pynum) :
  time_columns size None = Ok (NA, NA).
Proof. destruct size; reflexivity. Qed.












(** The numbers of that row: 1000000 bytes shown as 976.5625 K, and
    the estimates 15 and 20/3 seconds (the latter rounded). *)
Example sample_menu_with_speed :
  menu FormatSpec.sample_best (Some (PInt 100000)) =
  ([Header;
    Line (RowNotAvailable 1 "   8K");
    Line (RowNotAvailable 2 "   4K");
    Line (RowNotAvailable 3 "1440p");
    Line (RowFormat 4 "1080p" (PInt 60)
            (SizeText.Sized (PFloat (S754_finite false 8589934592000000 (-43))) "K" "B")
            (MinSec (PFloat (S754_finite false 8444249301319680 (-49))))
            (MinSec (PFloat (S754_finite false 7505999378950827 (-50)))))],
   Ok ()) /\
  lit_1_5 = S754_finite false 6755399441055744 (-52) /\
  (6755399441055744 # 2 ^ 52 == 3 # 2)%Q /\
  (8589934592000000 # 2 ^ 43 == 15625 # 16)%Q /\
  (8444249301319680 # 2 ^ 49 == 15)%Q /\
  ((20 # 3) - (1 # 2 ^ 50) < 7505999378950827 # 2 ^ 50)%Q /\
  (7505999378950827 # 2 ^ 50 < (20 # 3) + (1 # 2 ^ 50))%Q.
Proof. vm_compute. repeat split; reflexivity. Qed.

Example sample_menu_without_speed :
  menu FormatSpec.sample_best None =
  ([Header;
    Line (RowNotAvailable 1 "   8K");
    Line (RowNotAvailable 2 "   4K");
    Line (RowNotAvailable 3 "1440p");
    Line (RowFormat 4 "1080p" (PInt 60)
            (SizeText.Sized (PFloat (S754_finite false 8589934592000000 (-43))) "K" "B")
            NA NA)],
   Ok ()).
Proof. vm_compute. reflexivity. Qed.

(** A frame rate too large for binary64 stops the menu at its row: the
    rows before it are printed, then the formatting of the rate raises. *)
Example huge_frame_rate_stops_the_menu :
  menu (<["1080" := Some {| c_format_id := Some "h"; c_fps := PInt (10 ^ 400);
                             c_ext := Some "mp4"; c_filesize := None;
                             c_vcodec := Some "avc1" |}]> init_best) None =
  ([Header;
    Line (RowNotAvailable 1 "   8K");
    Line (RowNotAvailable 2 "   4K");
    Line (RowNotAvailable 3 "1440p")],
   Raise OverflowError).
Proof. vm_compute. reflexivity. Qed.




(** The candidate returned to the caller is an entry of the table. *)
Lemma choose_returns_entry (best : gmap string (option candidate))
    (stdin : list string) (c : candidate) :
  snd (choose best stdin) = Ok c ->
  exists t, In t targets /\ best !! fst t = Some (Some c).
Proof.
  induction stdin as [|line rest IH]; simpl; [discriminate|].
  destruct (_ || _).
  - destruct (int_of_str (strip line)) as [n|e]; [|discriminate].
    destruct (nth_error targets (Z.to_nat (n - 1))) as [[res name]|] eqn:En;
      [|discriminate].
    destruct (best !! res) as [[c'|]|] eqn:Eb; simpl; try discriminate.
    + intros [= <-]. exists (res, name). split; [|exact Eb].
      apply nth_error_In in En. exact En.
    + destruct (choose best rest) as [o x]. simpl in *. exact IH.
  - destruct (choose best rest) as [o x]. simpl in *. exact IH.
Qed.

End MenuSpec.

(** ** The speed history, read back *)

Module HistoryReadBack.
Import SpeedStore StoreSpec HistorySpec RepresentativeSpec.

(** The samples a recording starts from: those the file holds, or none
    when the file cannot be read. *)
Definition previous (st : store) : list Z :=
  match stored_speeds (speed_file st) with
  | Ok l => l
  | Raise _ => []
  end.

Lemma decimal_value_nonneg (c : ascii) (d : Z) : decimal_value c = Some d -> 0 <= d.
Proof.
  unfold decimal_value, between.
  destruct ((48 <=? code c) && (code c <=? 57)) eqn:E; [|discriminate].
  intros [= <-]. apply andb_true_iff in E. lia.
Qed.

Lemma int_of_digits_nonneg (s : string) :
  forall acc v, 0 <= acc -> int_of_digits acc s = Ok v -> 0 <= v.
Proof.
  induction s as [|c r IH]; simpl; intros acc v Hacc H.
  - injection H as <-. exact Hacc.
  - destruct (decimal_value c) as [d|] eqn:Ed; [|discriminate].
    apply decimal_value_nonneg in Ed. apply (IH (10 * acc + d)); [lia|exact H].
Qed.

Lemma int_of_str_nonneg (s : string) (v : Z) : int_of_str s = Ok v -> 0 <= v.
Proof.
  destruct s; [discriminate|]. unfold int_of_str.
  apply int_of_digits_nonneg. lia.
Qed.

(** A sample read from the file is never negative. *)
Lemma parse_lines_nonneg (lines : list string) :
  forall l, parse_lines lines = Ok l -> Forall (fun z => 0 <= z) l.
Proof.
  induction lines as [|line rest IH]; simpl; intros l H.
  - injection H as <-. constructor.
  - destruct (isdigit (strip line)); [|apply IH, H].
    destruct (int_of_str (strip line)) as [v|e] eqn:Ev; [|discriminate].
    rewrite ResultFacts.bind_Ok in H.
    destruct (parse_lines rest) as [vs|e]; [|discriminate].
    rewrite ResultFacts.bind_Ok in H. injection H as <-.
    constructor; [apply (int_of_str_nonneg _ _ Ev)|apply IH; reflexivity].
Qed.

Lemma read_speeds_nonneg (f : file) (l : list Z) :
  read_speeds f = Ok l -> Forall (fun z => 0 <= z) l.
Proof.
  unfold read_speeds. destruct (open_read f) as [lines|e]; [|discriminate].
  rewrite ResultFacts.bind_Ok. apply parse_lines_nonneg.
Qed.

Lemma previous_nonneg (st : store) : Forall (fun z => 0 <= z) (previous st).
Proof.
  unfold previous. destruct (stored_speeds (speed_file st)) as [l|e] eqn:E;
    [|constructor].
  unfold stored_speeds in E. destruct (file_exists (speed_file st)).
  - apply (read_speeds_nonneg _ _ E).
  - injection E as <-. constructor.
Qed.

(** X1.  A recording that goes through can be read back: whatever the
    file held before (nothing, a text with any lines, or something
    unreadable), after [save_last_speed] has written a non-negative
    sample [v] the file parses to the last ten of the samples it held
    before followed by [v]; samples of a file that could not be read
    are lost. *)
Theorem saved_history_reads_back (st : store) (speed_bps : pynum) (v : Z) :
  write_error st = None ->
  to_int speed_bps = Ok v ->
  0 <= v ->
  stored_speeds (speed_file (the_store (save_last_speed speed_bps st))) =
    Ok (last_n MAX_SPEEDS (previous st ++ [v])).
Proof.
  intros Hw Hv Hpos.
  pose proof (previous_nonneg st) as Hprev.
  assert (speed_file (the_store (save_last_speed speed_bps st)) =
          Text (render (last_n MAX_SPEEDS (previous st ++ [v])))) as ->.
  { unfold save_last_speed, previous, the_store. rewrite Hv, Hw.
    destruct (stored_speeds (speed_file st)); reflexivity. }
  apply stored_rendered, Forall_last_n, Forall_app. split; [exact Hprev|].
  constructor; [exact Hpos|constructor].
Qed.

Definition three_lines : store :=
  {| speed_file := Text ("100" +:+ String LF "" +:+ "oops" +:+ String LF ""
                         +:+ " 0200 " +:+ String LF "");
     write_error := None |}.

Lemma saved_history_reads_back_witness :
  stored_speeds (speed_file (the_store (save_last_speed (PInt 300) three_lines))) =
    Ok (last_n MAX_SPEEDS (previous three_lines ++ [300])).
Proof.
  apply (saved_history_reads_back three_lines (PInt 300) 300).
  - reflexivity.
  - reflexivity.
  - lia.
Defined.

Example three_lines_then_300 :
  previous three_lines = [100; 200] /\
  speed_file (the_store (save_last_speed (PInt 300) three_lines)) =
    Text ("100" +:+ String LF "" +:+ "200" +:+ String LF "" +:+ "300" +:+ String LF "").
Proof. vm_compute. split; reflexivity. Qed.

(** What a loaded speed is made of: one of the samples of the file,
    rounded to a bin of at least 50000. *)
Lemma loaded_speed_is_a_bin (st : store) (r : Z) :
  snd (load_last_speed st) = Ok (Some r) ->
  exists speeds b s,
    read_speeds (speed_file st) = Ok speeds /\ 50000 <= b /\
    In s speeds /\ r = round_to_bin b s.
Proof.
  unfold load_last_speed.
  destruct (file_exists (speed_file st)); simpl; [|discriminate].
  destruct (representative (speed_file st)) as [x|e] eqn:Er; [|discriminate].
  simpl. intros [= ->].
  unfold representative in Er.
  destruct (read_speeds (speed_file st)) as [speeds|e] eqn:Es; [|discriminate].
  rewrite ResultFacts.bind_Ok in Er.
  destruct speeds as [|s0 rest] eqn:El; [discriminate|]. rewrite <- El in *.
  destruct (mean speeds) as [avg|e] eqn:Em; [|discriminate].
  rewrite ResultFacts.bind_Ok in Er.
  assert (exists b, bin_size_of avg = Ok b) as [b Hb].
  { destruct (bin_size_of avg) as [b|e] eqn:Eb; [eauto|].
    rewrite El in Er. simpl in Er. rewrite bin_speed_dynamic_eq, Eb in Er.
    discriminate. }
  rewrite (map_result_bins b) in Er by exact Hb.
  rewrite ResultFacts.bind_Ok in Er.
  destruct (most_common_first_most_frequent (map (round_to_bin b) speeds))
    as (r' & pre & post & Hmc & Hsplit & _).
  { rewrite El. discriminate. }
  rewrite Hmc in Er. injection Er as <-.
  assert (In r' (map (round_to_bin b) speeds)) as Hin
    by (rewrite Hsplit; apply in_elt).
  apply in_map_iff in Hin. destruct Hin as (s & <- & Hs).
  exists speeds, b, s. repeat split; try assumption.
  apply (bin_size_at_least _ _ Hb).
Qed.

(** X2.  The speed [load_last_speed] returns is never negative and is a
    multiple of a bin size of at least 50000: it is 0, or at least
    50000 bytes per second. *)
Theorem loaded_speed_is_zero_or_large (st : store) (r : Z) :
  snd (load_last_speed st) = Ok (Some r) ->
  exists b, 50000 <= b /\ (b | r) /\ (r = 0 \/ b <= r).
Proof.
  intros H. destruct (loaded_speed_is_a_bin st r H) as (speeds & b & s & Hs & Hb & Hin & ->).
  pose proof (read_speeds_nonneg _ _ Hs) as Hpos.
  rewrite List.Forall_forall in Hpos. specialize (Hpos s Hin).
  exists b. split; [exact Hb|]. unfold round_to_bin. split.
  - exists ((s + b / 2) / b). reflexivity.
  - assert (0 <= (s + b / 2) / b) as Hq.
    { apply Z.div_pos; [|lia]. pose proof (Z.div_pos b 2). lia. }
    destruct (Z.eq_dec ((s + b / 2) / b) 0) as [E|E]; [left; rewrite E; lia|right; nia].
Qed.

Lemma loaded_speed_is_zero_or_large_witness :
  exists b, 50000 <= b /\ (b | 100000) /\ (100000 = 0 \/ b <= 100000).
Proof.
  apply (loaded_speed_is_zero_or_large four_samples_store 100000).
  vm_compute. reflexivity.
Defined.

(** X3.  A history of slow downloads gives no time estimate: when every
    sample of the file is below 25000 bytes per second, the speed
    loaded, if any, is 0, and with it the menu shows "N/A" in both time
    columns of every row, as it does without a history. *)
Theorem slow_history_gives_no_estimate (st : store) (speeds : list Z) (r : Z) :
  read_speeds (speed_file st) = Ok speeds ->
  Forall (fun s => s < 25000) speeds ->
  snd (load_last_speed st) = Ok (Some r) ->
  r = 0 /\
  forall size_bytes,
    FormatSelector.time_columns size_bytes (Some (PInt r)) =
      Ok (FormatSelector.NA, FormatSelector.NA).
Proof.
  intros Hs Hslow H.
  destruct (loaded_speed_is_a_bin st r H) as (speeds' & b & s & Hs' & Hb & Hin & ->).
  rewrite Hs in Hs'. injection Hs' as <-.
  pose proof (read_speeds_nonneg _ _ Hs) as Hpos.
  rewrite List.Forall_forall in Hpos, Hslow.
  specialize (Hpos s Hin). specialize (Hslow s Hin).
  assert (round_to_bin b s = 0) as ->.
  { unfold round_to_bin. rewrite Z.div_small; [reflexivity|].
    pose proof (Z.div_mod b 2 ltac:(lia)).
    pose proof (Z.mod_pos_bound b 2 ltac:(lia)). lia. }
  split; [reflexivity|].
  intros [size|]; [|reflexivity].
  unfold FormatSelector.time_columns. simpl. rewrite andb_false_r. reflexivity.
Qed.

Definition slow_store : store :=
  {| speed_file := Text ("20000" +:+ String LF "" +:+ "24999" +:+ String LF "");
     write_error := None |}.

Lemma slow_history_gives_no_estimate_witness :
  0 = 0 /\
  forall size_bytes,
    FormatSelector.time_columns size_bytes (Some (PInt 0)) =
      Ok (FormatSelector.NA, FormatSelector.NA).
Proof.
  apply (slow_history_gives_no_estimate slow_store [20000; 24999] 0).
  - reflexivity.
  - constructor; [lia|constructor; [lia|constructor]].
  - vm_compute. reflexivity.
Defined.

(** X17.  Binning is a rounding: for one mean speed, a larger sample
    never gets a smaller bin value, a bin value is its own bin value,
    and a non-negative sample gets a non-negative bin value. *)
Theorem binning_is_monotone_and_idempotent (avg_speed : pynum) (s s' r r' : Z) :
  bin_speed_dynamic s avg_speed = Ok r ->
  bin_speed_dynamic s' avg_speed = Ok r' ->
  (s <= s' -> r <= r') /\
  bin_speed_dynamic r avg_speed = Ok r /\
  (0 <= s -> 0 <= r).
Proof.
  unfold bin_speed_dynamic.
  destruct (mul avg_speed (PFloat lit_0_05)) as [p|e]; [|discriminate].
  rewrite !ResultFacts.bind_Ok.
  destruct (to_int p) as [i|e]; [|discriminate].
  rewrite !ResultFacts.bind_Ok. cbv zeta.
  remember (Z.max 50000 i) as b eqn:Eb. intros [= <-] [= <-].
  assert (50000 <= b) as Hb by lia.
  pose proof (Z.div_mod b 2 ltac:(lia)) as Hh.
  pose proof (Z.mod_pos_bound b 2 ltac:(lia)) as Hh2.
  split; [|split].
  - intros Hs. apply Z.mul_le_mono_nonneg_r; [lia|].
    apply Z.div_le_mono; lia.
  - do 2 f_equal. rewrite Z.div_add_l by lia.
    rewrite (Z.div_small (b / 2) b) by lia. lia.
  - intros Hs. apply Z.mul_nonneg_nonneg; [|lia].
    apply Z.div_pos; lia.
Qed.

Lemma binning_is_monotone_and_idempotent_witness :
  (98000 <= 120000 -> 100000 <= 100000) /\
  bin_speed_dynamic 100000 (PInt 200000) = Ok 100000 /\
  (0 <= 98000 -> 0 <= 100000).
Proof.
  apply (binning_is_monotone_and_idempotent (PInt 200000) 98000 120000 100000 100000).
  - vm_compute. reflexivity.
  - vm_compute. reflexivity.
Defined.

End HistoryReadBack.

(** ** Streams that do not count, and the line that decides *)

Module SelectionSpec.
Import FormatSelector FormatSpec.

(** A stream the table is built from: a video stream at one of the
    four target heights. *)
Definition relevant (f : format) : bool :=
  existsb (fun n => at_height n f) target_heights.

Lemma scan_step_other (d : option pynum) (done : list format) (f : format)
    (st : scan_state) :
  scanned d done st -> relevant f = false -> scan_step d st f = Ok st.
Proof.
  intros Hinv Hrel. destruct st as [best sizes]. unfold scan_step.
  destruct (is_audio_only f) eqn:Ea; [reflexivity|].
  destruct (is_target (height_key f)) eqn:Et.
  - exfalso. apply is_target_iff in Et. destruct Et as (n & Hn & Hk).
    assert (at_height n f = true) as Hat.
    { unfold at_height. rewrite Ea. simpl.
      rewrite <- (key_is_height n f Hn), Hk. apply String.eqb_refl. }
    assert (relevant f = true) as Hr
      by (unfold relevant; apply existsb_exists; eauto).
    congruence.
  - pose proof (scanned_other _ _ _ Hinv _ Et) as Hx. simpl in Hx.
    rewrite Hx. reflexivity.
Qed.

Lemma scan_filter (d : option pynum) (rest : list format) :
  forall (done : list format) (st : scan_state),
    scanned d done st ->
    scan d (List.filter relevant rest) st = scan d rest st.
Proof.
  induction rest as [|f rest IH]; intros done st Hinv; simpl; [reflexivity|].
  destruct (relevant f) eqn:Er.
  - simpl. destruct (scan_step d st f) as [st1|e] eqn:E1; [|reflexivity].
    rewrite !ResultFacts.bind_Ok.
    apply (IH (done ++ [f]) st1), (scan_step_scanned d done f st st1 Hinv E1).
  - rewrite (scan_step_other d done f st Hinv Er), ResultFacts.bind_Ok.
    apply (IH done st Hinv).
Qed.

(** X4.  Streams that are audio-only or whose height is not one of
    4320, 2160, 1440 and 1080 never influence the selection: the table
    of candidates (sizes included) and the exception raised, if any, are
    those of the list without them.  In particular the size estimate of
    such a stream is never computed. *)
Theorem other_streams_are_ignored (formats : list format) (d : option pynum) :
  compute_best (List.filter relevant formats) d = compute_best formats d.
Proof.
  unfold compute_best.
  rewrite (scan_filter d formats [] _ (scanned_init d)). reflexivity.
Qed.

(** The resolution a line asks for: "1" to "4", blanks around it
    ignored. *)
Definition resolution_of (line : string) : option string :=
  let choice := strip line in
  if String.eqb choice "1" then Some "4320"
  else if String.eqb choice "2" then Some "2160"
  else if String.eqb choice "3" then Some "1440"
  else if String.eqb choice "4" then Some "1080"
  else None.

(** A line that does not end the selection: no resolution, or one that
    has no candidate. *)
Definition rejected (best : gmap string (option candidate)) (line : string) : Prop :=
  match resolution_of line with
  | Some res => best !! res = Some None
  | None => True
  end.

Lemma choose_line (best : gmap string (option candidate)) (line : string)
    (rest : list string) :
  choose best (line :: rest) =
  match resolution_of line with
  | Some res =>
      match best !! res with
      | None => ([Prompt], Raise KeyError)
      | Some (Some c) => ([Prompt], Ok c)
      | Some None =>
          let '(o, x) := choose best rest in (Prompt :: NotAvailableAgain :: o, x)
      end
  | None => let '(o, x) := choose best rest in (Prompt :: InvalidChoice :: o, x)
  end.
Proof.
  unfold resolution_of. cbn [choose existsb].
  destruct (String.eqb (strip line) "1") eqn:E1;
    [apply String.eqb_eq in E1; rewrite E1; reflexivity|].
  destruct (String.eqb (strip line) "2") eqn:E2;
    [apply String.eqb_eq in E2; rewrite E2; reflexivity|].
  destruct (String.eqb (strip line) "3") eqn:E3;
    [apply String.eqb_eq in E3; rewrite E3; reflexivity|].
  destruct (String.eqb (strip line) "4") eqn:E4;
    [apply String.eqb_eq in E4; rewrite E4; reflexivity|].
  reflexivity.
Qed.

Lemma choose_first_accepted (best : gmap string (option candidate))
    (pre : list string) (line : string) (post : list string)
    (res : string) (c : candidate) :
  Forall (rejected best) pre ->
  resolution_of line = Some res ->
  best !! res = Some (Some c) ->
  snd (choose best (pre ++ line :: post)) = Ok c /\
  Main.inputs (fst (choose best (pre ++ line :: post))) = S (length pre).
Proof.
  intros Hpre Hres Hbest. induction Hpre as [|l pre Hl Hpre IH].
  - simpl app. rewrite choose_line, Hres, Hbest. split; reflexivity.
  - simpl app. rewrite choose_line. unfold rejected in Hl.
    destruct (resolution_of l) as [r|].
    + rewrite Hl. destruct (choose best (pre ++ line :: post)) as [o x].
      cbn [fst snd] in *. destruct IH as [-> Hn]. split; [reflexivity|].
      unfold Main.inputs in *. simpl. rewrite Hn. reflexivity.
    + destruct (choose best (pre ++ line :: post)) as [o x].
      cbn [fst snd] in *. destruct IH as [-> Hn]. split; [reflexivity|].
      unfold Main.inputs in *. simpl. rewrite Hn. reflexivity.
Qed.

Lemma menu_rows_no_input (best : gmap string (option candidate))
    (speed : option pynum) (ts : list (string * string)) :
  forall i, Main.inputs (fst (menu_rows i ts best speed)) = 0%nat.
Proof.
  induction ts as [|[res name] ts IH]; intros i; simpl; [reflexivity|].
  destruct (best !! res) as [fmt|]; [|reflexivity].
  destruct (menu_row i name fmt speed) as [r|e]; [|reflexivity].
  specialize (IH (S i)).
  destruct (menu_rows (S i) ts best speed) as [o x]. simpl in *. exact IH.
Qed.

Lemma inputs_app (o o' : list out) :
  Main.inputs (o ++ o') = (Main.inputs o + Main.inputs o')%nat.
Proof. unfold Main.inputs. rewrite List.filter_app, length_app. reflexivity. Qed.

Lemma skipn_past {A} (pre : list A) (x : A) (post : list A) :
  skipn (S (length pre)) (pre ++ x :: post) = post.
Proof. induction pre as [|y pre IH]; [reflexivity|exact IH]. Qed.

(** X5.  The selection is decided by the first line that names a
    resolution with a candidate: every line before it (anything but "1"
    to "4" once stripped, or a resolution without a candidate) is
    answered and skipped, the lines after it are not read, and the
    candidate of that resolution is returned. *)
Theorem first_accepted_line_decides
    (formats : list format) (d speed : option pynum)
    (best : gmap string (option candidate))
    (pre : list string) (line : string) (post : list string)
    (res : string) (c : candidate) :
  compute_best formats d = Ok best ->
  snd (menu best speed) = Ok () ->
  Forall (rejected best) pre ->
  resolution_of line = Some res ->
  best !! res = Some (Some c) ->
  snd (pick_video_format formats d speed (pre ++ line :: post)) = Ok c /\
  skipn (Main.inputs (fst (pick_video_format formats d speed (pre ++ line :: post))))
    (pre ++ line :: post) = post.
Proof.
  intros Hbest Hmenu Hpre Hres Hc.
  destruct (choose_first_accepted best pre line post res c Hpre Hres Hc) as [Hx Hn].
  unfold pick_video_format. rewrite Hbest.
  assert (Main.inputs (fst (menu best speed)) = 0%nat) as Hm.
  { unfold menu. pose proof (menu_rows_no_input best speed targets 1) as H0.
    destruct (menu_rows 1 targets best speed) as [o x]. exact H0. }
  destruct (menu best speed) as [o [[]|e]]; [|discriminate].
  destruct (choose best (pre ++ line :: post)) as [o' x]. cbn [fst snd] in *.
  split; [exact Hx|].
  rewrite inputs_app, Hm, Hn. cbn [Nat.add]. apply skipn_past.
Qed.

Lemma choose_exhausted (best : gmap string (option candidate)) (lines : list string) :
  Forall (rejected best) lines ->
  snd (choose best lines) = Raise EOFError /\
  Main.inputs (fst (choose best lines)) = S (length lines).
Proof.
  intros Hall. induction Hall as [|l lines Hl Hall IH]; [split; reflexivity|].
  rewrite choose_line. unfold rejected in Hl.
  destruct (resolution_of l) as [r|].
  - rewrite Hl. destruct (choose best lines) as [o x].
    cbn [fst snd] in *. destruct IH as [-> Hn]. split; [reflexivity|].
    unfold Main.inputs in *. simpl. rewrite Hn. reflexivity.
  - destruct (choose best lines) as [o x].
    cbn [fst snd] in *. destruct IH as [-> Hn]. split; [reflexivity|].
    unfold Main.inputs in *. simpl. rewrite Hn. reflexivity.
Qed.

(** X18.  When the input ends before a line names a resolution with a
    candidate, the selection raises [EOFError]: every line is answered
    and skipped, and the prompt is printed once more before the
    exception.  No line makes the selection return without a candidate. *)
Theorem exhausted_input_raises_eof
    (formats : list format) (d speed : option pynum)
    (best : gmap string (option candidate)) (lines : list string) :
  compute_best formats d = Ok best ->
  snd (menu best speed) = Ok () ->
  Forall (rejected best) lines ->
  snd (pick_video_format formats d speed lines) = Raise EOFError /\
  Main.inputs (fst (pick_video_format formats d speed lines)) = S (length lines).
Proof.
  intros Hbest Hmenu Hall.
  destruct (choose_exhausted best lines Hall) as [Hx Hn].
  unfold pick_video_format. rewrite Hbest.
  assert (Main.inputs (fst (menu best speed)) = 0%nat) as Hm.
  { unfold menu. pose proof (menu_rows_no_input best speed targets 1) as H0.
    destruct (menu_rows 1 targets best speed) as [o x]. exact H0. }
  destruct (menu best speed) as [o [[]|e]]; [|discriminate].
  destruct (choose best lines) as [o' x]. cbn [fst snd] in *.
  split; [exact Hx|]. rewrite inputs_app, Hm, Hn. reflexivity.
Qed.

End SelectionSpec.

(** ** The selection on the sample streams *)

Module SelectionExamples.
Import FormatSelector FormatSpec MenuSpec SelectionSpec.

Definition sample_1080 : candidate :=
  {| c_format_id := Some "b"; c_fps := PInt 60; c_ext := Some "mp4";
     c_filesize := Some (PFloat (S754_finite false 8589934592000000 (-33)));
     c_vcodec := Some "avc1" |}.

(** The user types a word, then asks for 8K (not available), then for
    1080p; a fourth line is left unread. *)
Lemma first_accepted_line_decides_witness :
  snd (pick_video_format sample_streams sample_duration None
         (["best"; "1"] ++ " 4 " :: ["2"])) = Ok sample_1080 /\
  skipn (Main.inputs (fst (pick_video_format sample_streams sample_duration None
                             (["best"; "1"] ++ " 4 " :: ["2"]))))
    (["best"; "1"] ++ " 4 " :: ["2"]) = ["2"].
Proof.
  apply (first_accepted_line_decides sample_streams sample_duration None sample_best
           ["best"; "1"] " 4 " ["2"] "1080" sample_1080).
  - vm_compute. reflexivity.
  - vm_compute. reflexivity.
  - constructor; [vm_compute; exact I|].
    constructor; [vm_compute; reflexivity|constructor].
  - reflexivity.
  - vm_compute. reflexivity.
Defined.

Lemma exhausted_input_raises_eof_witness :
  snd (pick_video_format sample_streams sample_duration None ["best"; "1"; "2160"]) =
    Raise EOFError /\
  Main.inputs (fst (pick_video_format sample_streams sample_duration None
                      ["best"; "1"; "2160"])) = S (length ["best"; "1"; "2160"]).
Proof.
  apply (exhausted_input_raises_eof sample_streams sample_duration None sample_best
           ["best"; "1"; "2160"]).
  - vm_compute. reflexivity.
  - vm_compute. reflexivity.
  - constructor; [vm_compute; exact I|].
    constructor; [vm_compute; reflexivity|].
    constructor; [vm_compute; exact I|constructor].
Defined.

Lemma no_stream_no_candidate_witness :
  sample_best !! str_of_int 2160 = Some None.
Proof.
  apply (no_stream_no_candidate sample_streams sample_duration sample_best 2160).
  - vm_compute. reflexivity.
  - simpl. auto.
  - reflexivity.
Defined.

Lemma compute_best_returns_witness :
  exists best, compute_best sample_streams sample_duration = Ok best.
Proof.
  apply (compute_best_returns sample_streams sample_duration).
  - intros f Hf. simpl in Hf.
    destruct Hf as [<-|[<-|[<-|[<-|[<-|[<-|[]]]]]]]; vm_compute; reflexivity.
  - intros n Hn. simpl in Hn.
    destruct Hn as [<-|[<-|[<-|[<-|[]]]]];
      first [left; vm_compute; reflexivity | right; vm_compute; reflexivity].
Defined.

End SelectionExamples.

(** ** What the capability detection looks for *)

Module DetectSpec.
Import Merge MergeSpec HistorySpec.

(** No character of [sub] ends a line. *)
Definition one_line (sub : string) : bool :=
  all_chars (fun c => negb (is_line_boundary c)) sub.

Lemma prefix_before_boundary (sub : string) (b : ascii) (r : string) :
  is_line_boundary b = true -> one_line sub = true ->
  forall a, String.prefix sub (a +:+ String b r) = String.prefix sub a.
Proof.
  intros Hb. induction sub as [|c sub IH]; intros Hsub a.
  - destruct a; reflexivity.
  - simpl in Hsub. apply andb_true_iff in Hsub. destruct Hsub as [Hc Hsub].
    destruct a as [|x a].
    + rewrite append_nil_l. simpl.
      destruct (ascii_dec c b) as [->|Hne]; [|reflexivity].
      rewrite Hb in Hc. discriminate.
    + rewrite append_cons. simpl.
      destruct (ascii_dec c x); [apply IH, Hsub|reflexivity].
Qed.

Lemma contains_empty (sub : string) : sub <> "" -> contains sub "" = false.
Proof. destruct sub; [contradiction|reflexivity]. Qed.

(** An occurrence of [sub] cannot straddle the end of a line. *)
Lemma contains_across_boundary (sub : string) (b : ascii) (r : string) :
  sub <> "" -> is_line_boundary b = true -> one_line sub = true ->
  forall a, contains sub (a +:+ String b r) = contains sub a || contains sub r.
Proof.
  intros Hne Hb Hsub. induction a as [|x a IH].
  - rewrite append_nil_l, (contains_empty sub Hne).
    cbn [contains]. rewrite <- (append_nil_l (String b r)).
    rewrite (prefix_before_boundary sub b r Hb Hsub "").
    destruct sub; [contradiction|reflexivity].
  - rewrite append_cons. cbn [contains].
    rewrite <- append_cons, (prefix_before_boundary sub b r Hb Hsub (String x a)).
    rewrite IH, orb_assoc. reflexivity.
Qed.

Lemma contains_after_boundary (sub : string) (b : ascii) (r : string) :
  sub <> "" -> is_line_boundary b = true -> one_line sub = true ->
  contains sub (String b r) = contains sub r.
Proof.
  intros Hne Hb Hsub.
  pose proof (contains_across_boundary sub b r Hne Hb Hsub "") as H.
  rewrite append_nil_l, (contains_empty sub Hne) in H. exact H.
Qed.

Lemma existsb_splitlines_upto (sub : string) :
  sub <> "" -> one_line sub = true ->
  forall (n : nat) (s : string), (String.length s <= n)%nat ->
  forall cur,
    existsb (contains sub) (splitlines_from cur s) = contains sub (cur +:+ s).
Proof.
  intros Hne Hsub. induction n as [|n IH]; intros s Hlen cur.
  - destruct s; [|simpl in Hlen; lia].
    rewrite append_nil_r_s. simpl.
    destruct cur; [symmetry; apply contains_empty, Hne|].
    simpl. rewrite orb_false_r. reflexivity.
  - destruct s as [|c r].
    + rewrite append_nil_r_s. simpl.
      destruct cur; [symmetry; apply contains_empty, Hne|].
      simpl. rewrite orb_false_r. reflexivity.
    + simpl in Hlen. cbn [splitlines_from].
      destruct (is_line_boundary c) eqn:Ec.
      * rewrite (contains_across_boundary sub c r Hne Ec Hsub cur).
        destruct r as [|c' r'].
        -- cbn [existsb]. rewrite (contains_empty sub Hne). reflexivity.
        -- simpl in Hlen.
           destruct (Ascii.eqb c CR && Ascii.eqb c' LF) eqn:Ecr.
           ++ apply andb_true_iff in Ecr. destruct Ecr as [_ Elf].
              apply Ascii.eqb_eq in Elf. subst c'.
              cbn [existsb]. rewrite (IH r' ltac:(lia) ""), append_nil_l.
              rewrite (contains_after_boundary sub LF r' Hne eq_refl Hsub).
              reflexivity.
           ++ cbn [existsb].
              rewrite (IH (String c' r') ltac:(simpl; lia) ""), append_nil_l.
              reflexivity.
      * rewrite (IH r ltac:(lia) (cur +:+ String c "")), append_assoc_s.
        rewrite append_cons, append_nil_l. reflexivity.
Qed.

(** Looking for a word in every line of a text is looking for it in
    the text. *)
Lemma any_line_contains (sub : string) (out : string) :
  sub <> "" -> one_line sub = true ->
  existsb (contains sub) (splitlines out) = contains sub out.
Proof.
  intros Hne Hsub. unfold splitlines.
  rewrite (existsb_splitlines_upto sub Hne Hsub (String.length out) out (le_n _) "").
  rewrite append_nil_l. reflexivity.
Qed.

Lemma existsb_orb {A} (p q : A -> bool) (l : list A) :
  existsb (fun x => p x || q x) l = existsb p l || existsb q l.
Proof.
  induction l as [|x l IH]; simpl; [reflexivity|].
  rewrite IH. destruct (p x), (q x), (existsb p l), (existsb q l); reflexivity.
Qed.

Section Props.

Variable FFMPEG_PATH : string.

(** X6.  The capability detection is a search of the whole output of
    the two listings: encoding support is reported exactly when the
    encoders listing ran and its output contains "nvenc" anywhere,
    decoding support exactly when both listings ran and the output of
    the decoders listing contains "nvdec" or "cuvid".  A decoders
    listing that fails leaves the answer for encoding as it was found;
    an encoders listing that fails gives (False, False). *)
Theorem detection_searches_whole_output (w : env) :
  snd (gpu_supports_nvenc_nvdec FFMPEG_PATH w) =
  match encoders_output w with
  | Raise _ => (false, false)
  | Ok out =>
      (contains "nvenc" out,
       match decoders_output w with
       | Raise _ => false
       | Ok out' => contains "nvdec" out' || contains "cuvid" out'
       end)
  end.
Proof.
  unfold gpu_supports_nvenc_nvdec.
  destruct (encoders_output w) as [out|e]; [|reflexivity].
  destruct (decoders_output w) as [out'|e]; cbn [snd].
  - rewrite existsb_orb, !any_line_contains by (discriminate || reflexivity).
    reflexivity.
  - rewrite any_line_contains by (discriminate || reflexivity). reflexivity.
Qed.

End Props.

(** The word is found in the description of an encoder as well as in
    its name. *)
Example nvenc_in_a_description :
  snd (gpu_supports_nvenc_nvdec "ffmpeg"
         {| encoders_output :=
              Ok (" V....D libx264   H.264 (no nvenc here)" +:+ String LF "");
            decoders_output := Raise (CalledProcessError 1);
            probe_output := Ok "h264"; run_error := fun _ => None;
            getsize := fun _ => Ok 0; stdin := [] |}) = (true, false).
Proof. vm_compute. reflexivity. Qed.

End DetectSpec.

(** ** The progress thread of the re-encode *)

Module ThreadSpec.
Import Merge MergeSpec.

(** The starts and joins of the progress thread in a trace. *)
Definition thread_events (t : list event) : list event :=
  List.filter
    (fun e => match e with StartEtaThread | JoinEtaThread => true | _ => false end) t.

Lemma thread_events_app (t1 t2 : list event) :
  thread_events (t1 ++ t2) = thread_events t1 ++ thread_events t2.
Proof. apply List.filter_app. Qed.

Section Props.

Variables FFMPEG_PATH FFPROBE_PATH : string.

Lemma detect_no_thread (w : env) :
  thread_events (fst (gpu_supports_nvenc_nvdec FFMPEG_PATH w)) = [].
Proof.
  unfold gpu_supports_nvenc_nvdec.
  destruct (encoders_output w); [|reflexivity].
  destruct (decoders_output w); reflexivity.
Qed.

(** The transcode command, with its video encoder. *)
Definition transcode (codec v a o : string) : list string :=
  [FFMPEG_PATH; "-y"; "-i"; v; "-i"; a;
   "-c:v"; codec; "-preset"; "p1"; "-c:a"; "aac"; o].

Lemma detect_launches (w : env) (argv : list string) :
  In (Exec argv) (fst (gpu_supports_nvenc_nvdec FFMPEG_PATH w)) ->
  argv = [FFMPEG_PATH; "-hide_banner"; "-encoders"] \/
  argv = [FFMPEG_PATH; "-hide_banner"; "-decoders"].
Proof.
  unfold gpu_supports_nvenc_nvdec.
  destruct (encoders_output w); [destruct (decoders_output w)|]; simpl;
    intros H; repeat (destruct H as [H|H]; [try discriminate; injection H as <-; auto|]);
    contradiction.
Qed.

(** Before the re-encode starts, no transcode is launched and no
    thread is started. *)
Lemma no_transcode_before (w : env) (v : string) (rest : list event) :
  (forall e, In e rest -> match e with Print _ | Input _ => True | _ => False end) ->
  thread_events
    ((fst (gpu_supports_nvenc_nvdec FFMPEG_PATH w) ++ [Exec (probe_cmd FFPROBE_PATH v)])
     ++ rest) = [] /\
  forall codec v' a o,
    ~ In (Exec (transcode codec v' a o))
        ((fst (gpu_supports_nvenc_nvdec FFMPEG_PATH w)
          ++ [Exec (probe_cmd FFPROBE_PATH v)]) ++ rest).
Proof.
  intros Hrest. split.
  - rewrite !thread_events_app, detect_no_thread. simpl.
    induction rest as [|e rest IH]; [reflexivity|].
    pose proof (Hrest e (or_introl eq_refl)) as He.
    destruct e; try contradiction; apply IH; intros x Hx; apply Hrest; right; exact Hx.
  - intros codec v' a o H. rewrite !in_app_iff in H. destruct H as [[H|H]|H].
    + apply detect_launches in H. destruct H as [H|H]; discriminate H.
    + destruct H as [H|[]]. discriminate H.
    + apply Hrest in H. exact H.
Qed.

Lemma reencode_trace (w : env) (nv : bool) (codec v a o : string) :
  (exists banner e,
     reencode FFMPEG_PATH w nv codec v a o = ([Print banner], Raise e)) \/
  (exists banner e,
     run_error w (transcode codec v a o) = Some e /\
     reencode FFMPEG_PATH w nv codec v a o =
       ([Print banner; StartEtaThread; Exec (transcode codec v a o)], Raise e)) \/
  (exists banner,
     run_error w (transcode codec v a o) = None /\
     reencode FFMPEG_PATH w nv codec v a o =
       ([Print banner; StartEtaThread; Exec (transcode codec v a o); JoinEtaThread;
         Print (String LF "Merge completed.")], Ok ())).
Proof.
  unfold reencode. change (reencode_cmd FFMPEG_PATH codec v a o) with (transcode codec v a o).
  destruct (getsize w v); [|left; eauto].
  destruct (getsize w a); [|left; eauto].
  destruct (run_error w (transcode codec v a o)) eqn:E; [right; left|right; right]; eauto.
Qed.

(** What the thread does in a merge that gets to the re-encode with
    the encoder [codec], after the events [before]. *)
Lemma reencode_thread (w : env) (nv : bool) (codec v a o : string)
    (before : list event) :
  thread_events before = [] ->
  (forall c v' a' o', ~ In (Exec (transcode c v' a' o')) before) ->
  let m := reencode FFMPEG_PATH w nv codec v a o in
  (forall c,
     In (Exec (transcode c v a o)) (before ++ fst m) ->
     match run_error w (transcode c v a o) with
     | None =>
         thread_events (before ++ fst m) = [StartEtaThread; JoinEtaThread] /\
         snd m = Ok ()
     | Some e =>
         thread_events (before ++ fst m) = [StartEtaThread] /\ snd m = Raise e
     end) /\
  ((forall c, ~ In (Exec (transcode c v a o)) (before ++ fst m)) ->
   thread_events (before ++ fst m) = []).
Proof.
  intros Hb Hn m. subst m.
  destruct (reencode_trace w nv codec v a o)
    as [(banner & e & ->)|[(banner & e & Hrun & ->)|(banner & Hrun & ->)]];
    cbn [fst snd]; rewrite !thread_events_app, Hb; cbn [app thread_events List.filter].
  - split; [|reflexivity].
    intros c H. apply in_app_or in H. destruct H as [H|[H|[]]].
    + destruct (Hn _ _ _ _ H).
    + discriminate H.
  - split.
    + intros c H. apply in_app_or in H. destruct H as [H|[H|[H|[H|[]]]]].
      * destruct (Hn _ _ _ _ H).
      * discriminate H.
      * discriminate H.
      * injection H as <-. rewrite Hrun. split; reflexivity.
    + intros H. exfalso. apply (H codec). apply in_or_app. right. simpl. auto.
  - split.
    + intros c H. apply in_app_or in H.
      destruct H as [H|[H|[H|[H|[H|[H|[]]]]]]]; try discriminate H.
      * destruct (Hn _ _ _ _ H).
      * injection H as <-. rewrite Hrun. split; reflexivity.
    + intros H. exfalso. apply (H codec). apply in_or_app. right. simpl. auto.
Qed.

(** X7.  The progress thread is started exactly when the transcode is
    launched, and joined exactly when the transcode succeeds.  If the
    merge launches the transcode (with any video encoder) and the
    transcode succeeds, the thread is started and joined and the merge
    returns; if the transcode fails, the thread is started and never
    joined, and the merge raises the exception of the transcode.  If
    the merge launches no transcode (a remux, a declined re-encode, a
    failure before the transcode), the thread is never started. *)
Theorem progress_thread_joined_only_on_success (w : env) (v a o : string) :
  (forall codec,
     In (Exec [FFMPEG_PATH; "-y"; "-i"; v; "-i"; a;
               "-c:v"; codec; "-preset"; "p1"; "-c:a"; "aac"; o])
        (fst (merge_video_audio FFMPEG_PATH FFPROBE_PATH w v a o)) ->
     match run_error w [FFMPEG_PATH; "-y"; "-i"; v; "-i"; a;
                        "-c:v"; codec; "-preset"; "p1"; "-c:a"; "aac"; o] with
     | None =>
         thread_events (fst (merge_video_audio FFMPEG_PATH FFPROBE_PATH w v a o)) =
           [StartEtaThread; JoinEtaThread] /\
         snd (merge_video_audio FFMPEG_PATH FFPROBE_PATH w v a o) = Ok ()
     | Some e =>
         thread_events (fst (merge_video_audio FFMPEG_PATH FFPROBE_PATH w v a o)) =
           [StartEtaThread] /\
         snd (merge_video_audio FFMPEG_PATH FFPROBE_PATH w v a o) = Raise e
     end) /\
  ((forall codec,
      ~ In (Exec [FFMPEG_PATH; "-y"; "-i"; v; "-i"; a;
                  "-c:v"; codec; "-preset"; "p1"; "-c:a"; "aac"; o])
          (fst (merge_video_audio FFMPEG_PATH FFPROBE_PATH w v a o))) ->
   thread_events (fst (merge_video_audio FFMPEG_PATH FFPROBE_PATH w v a o)) = []).
Proof.
  unfold merge_video_audio.
  pose proof (no_transcode_before w v) as Hbefore.
  destruct (gpu_supports_nvenc_nvdec FFMPEG_PATH w) as [ev0 [nvenc nvdec]].
  cbn [fst] in Hbefore.
  assert (forall rest,
            (forall e, In e rest ->
               match e with Print _ | Input _ => True | _ => False end) ->
            (forall codec,
               In (Exec (transcode codec v a o))
                  ((ev0 ++ [Exec (probe_cmd FFPROBE_PATH v)]) ++ rest) ->
               match run_error w (transcode codec v a o) with
               | None => False
               | Some _ => False
               end) /\
            thread_events ((ev0 ++ [Exec (probe_cmd FFPROBE_PATH v)]) ++ rest) = [])
    as Hquiet.
  { intros rest Hrest. destruct (Hbefore rest Hrest) as [Ht Hn]. split; [|exact Ht].
    intros codec H. destruct (Hn _ _ _ _ H). }
  destruct (nvenc && gpu_friendly _).
  - cbn [fst snd]. split.
    + intros codec H. exfalso.
      rewrite in_app_iff in H. destruct H as [H|[H|[H|[]]]]; try discriminate H.
      destruct (Hbefore []) as [_ Hn]; [intros e []|].
      rewrite app_nil_r in Hn. destruct (Hn _ _ _ _ H).
    + intros _. rewrite thread_events_app.
      destruct (Hbefore []) as [Ht _]; [intros e []|].
      rewrite app_nil_r in Ht. rewrite Ht. reflexivity.
  - destruct nvenc.
    + destruct (stdin w) as [|line rest].
      * cbn [fst snd].
        destruct (Hquiet [Input reencode_prompt]) as [Hn Ht].
        { intros e [<-|[]]. exact I. }
        split; [|intros _; exact Ht].
        intros codec H. specialize (Hn codec H).
        destruct (run_error w (transcode codec v a o)); contradiction.
      * destruct (negb _).
        -- cbn [fst snd].
           destruct (Hquiet
                       [Input reencode_prompt;
                        Print "Aborting merge. Please select another format with GPU-friendly codec."])
             as [Hn Ht].
           { intros e [<-|[<-|[]]]; exact I. }
           split; [|intros _; exact Ht].
           intros codec H. specialize (Hn codec H).
           destruct (run_error w (transcode codec v a o)); contradiction.
        -- destruct (Hbefore [Input reencode_prompt]) as [Ht Hn].
           { intros e [<-|[]]. exact I. }
           pose proof (reencode_thread w true "h264_nvenc" v a o _ Ht Hn) as Hr.
           destruct (reencode FFMPEG_PATH w true "h264_nvenc" v a o) as [ev2 x].
           cbn [fst snd] in *.
           rewrite (app_assoc (ev0 ++ [Exec (probe_cmd FFPROBE_PATH v)])
                      [Input reencode_prompt] ev2).
           exact Hr.
    + destruct (Hbefore [Print "GPU encoding not available, using CPU..."]) as [Ht Hn].
      { intros e [<-|[]]. exact I. }
      pose proof (reencode_thread w false "libx264" v a o _ Ht Hn) as Hr.
      destruct (reencode FFMPEG_PATH w false "libx264" v a o) as [ev2 x].
      cbn [fst snd] in *.
      rewrite (app_assoc (ev0 ++ [Exec (probe_cmd FFPROBE_PATH v)])
                 [Print "GPU encoding not available, using CPU..."] ev2).
      exact Hr.
Qed.

End Props.

(** A transcode that fails: the thread is started and never joined. *)
Example failed_transcode_leaves_thread :
  merge_video_audio "ffmpeg" "ffprobe"
    {| encoders_output := Ok "libx264"; decoders_output := Ok "h264";
       probe_output := Ok "vp9"; run_error := fun _ => Some (CalledProcessError 1);
       getsize := fun _ => Ok 1000; stdin := [] |}
    "v.mp4" "a.m4a" "out.mp4" =
  ([Exec ["ffmpeg"; "-hide_banner"; "-encoders"];
    Exec ["ffmpeg"; "-hide_banner"; "-decoders"];
    Exec (probe_cmd "ffprobe" "v.mp4");
    Print "GPU encoding not available, using CPU...";
    Print "Merging video + audio using CPU encoding...";
    StartEtaThread;
    Exec (reencode_cmd "ffmpeg" "libx264" "v.mp4" "a.m4a" "out.mp4")],
   Raise (CalledProcessError 1)).
Proof. vm_compute. reflexivity. Qed.

(** On that run the theorem gives the thread started and never joined. *)
Lemma progress_thread_joined_only_on_success_witness :
  thread_events
    (fst (merge_video_audio "ffmpeg" "ffprobe"
            {| encoders_output := Ok "libx264"; decoders_output := Ok "h264";
               probe_output := Ok "vp9";
               run_error := fun _ => Some (CalledProcessError 1);
               getsize := fun _ => Ok 1000; stdin := [] |}
            "v.mp4" "a.m4a" "out.mp4")) = [StartEtaThread] /\
  snd (merge_video_audio "ffmpeg" "ffprobe"
         {| encoders_output := Ok "libx264"; decoders_output := Ok "h264";
            probe_output := Ok "vp9";
            run_error := fun _ => Some (CalledProcessError 1);
            getsize := fun _ => Ok 1000; stdin := [] |}
         "v.mp4" "a.m4a" "out.mp4") = Raise (CalledProcessError 1).
Proof.
  destruct (progress_thread_joined_only_on_success "ffmpeg" "ffprobe"
              {| encoders_output := Ok "libx264"; decoders_output := Ok "h264";
                 probe_output := Ok "vp9";
                 run_error := fun _ => Some (CalledProcessError 1);
                 getsize := fun _ => Ok 1000; stdin := [] |}
              "v.mp4" "a.m4a" "out.mp4") as [H _].
  apply (H "libx264"). vm_compute. tauto.
Defined.

End ThreadSpec.

(** ** The download step *)

Module DownloadSpec.
Import FormatSelector Download.

(** *** Traces of composed steps *)

Lemma bind_trace {E A B} (m : io E A) (k : A -> io E B) :
  fst (x ← m; k x) =
  fst m ++ match snd m with Return a => fst (k a) | Throw _ => [] end.
Proof.
  destruct m as [t [a|e]]; unfold mbind, io_mbind, io_bind; cbn [fst snd].
  - destruct (k a) as [t' r]. reflexivity.
  - rewrite app_nil_r. reflexivity.
Qed.

Lemma bind_outcome {E A B} (m : io E A) (k : A -> io E B) :
  snd (x ← m; k x) =
  match snd m with Return a => snd (k a) | Throw e => Throw e end.
Proof.
  destruct m as [t [a|e]]; unfold mbind, io_mbind, io_bind; cbn [fst snd].
  - destruct (k a) as [t' r]. reflexivity.
  - reflexivity.
Qed.

Lemma bind_Return {E A B} (t : list E) (a : A) (k : A -> io E B) :
  (x ← (t, Return a); k x) = (t ++ fst (k a), snd (k a)).
Proof. unfold mbind, io_mbind, io_bind. destruct (k a). reflexivity. Qed.

Lemma bind_Throw {E A B} (t : list E) (e : error) (k : A -> io E B) :
  (x ← ((t, Throw e) : io E A); k x) = (t, Throw e).
Proof. reflexivity. Qed.

(** *** The title *)

(** Neither a slash nor a backslash occurs in [s]. *)
Definition no_separator (s : string) : bool :=
  all_chars (fun c => negb (Ascii.eqb c "/"%char) && negb (Ascii.eqb c "092"%char)) s.

Lemma sanitize_no_separator (s : string) : no_separator (sanitize s) = true.
Proof.
  unfold no_separator, sanitize. induction s as [|c r IH]; [reflexivity|].
  cbn [replace_char all_chars]. rewrite IH, andb_true_r.
  destruct (Ascii.eqb c "/"%char) eqn:E1; [reflexivity|].
  destruct (Ascii.eqb c "092"%char) eqn:E2; [reflexivity|].
  rewrite E1, E2. reflexivity.
Qed.

Lemma sanitize_length (s : string) : String.length (sanitize s) = String.length s.
Proof.
  unfold sanitize. induction s as [|c r IH]; [reflexivity|].
  cbn [replace_char String.length]. rewrite IH. reflexivity.
Qed.

Lemma sanitize_clean (s : string) : no_separator s = true -> sanitize s = s.
Proof.
  unfold no_separator, sanitize. induction s as [|c r IH]; [reflexivity|].
  cbn [replace_char all_chars]. intros H. apply andb_true_iff in H.
  destruct H as [Hc Hr]. apply andb_true_iff in Hc. destruct Hc as [H1 H2].
  apply negb_true_iff in H1, H2. rewrite H1, H2, (IH Hr). reflexivity.
Qed.

(** The character that stands for [c] in a file name: an underscore
    for a slash and for a backslash, [c] itself otherwise. *)
Definition in_file_name (c : ascii) : ascii :=
  if Ascii.eqb c "/"%char || Ascii.eqb c "092"%char then "_"%char else c.

Lemma sanitize_map (s : string) :
  sanitize s = string_of_list_ascii (map in_file_name (list_ascii_of_string s)).
Proof.
  unfold sanitize, in_file_name. induction s as [|c r IH]; [reflexivity|].
  cbn [replace_char list_ascii_of_string map string_of_list_ascii]. rewrite <- IH.
  f_equal.
  destruct (Ascii.eqb c "/"%char) eqn:E1; [reflexivity|].
  destruct (Ascii.eqb c "092"%char) eqn:E2; reflexivity.
Qed.

(** X8.  The title used in file names is the title of the video with
    every slash and every backslash replaced by an underscore and every
    other character kept, in order: it holds neither a slash nor a
    backslash, has the length of the title, and is the title itself when
    the title holds neither.  A title that is missing becomes "video"; a
    title that is [None] raises. *)
Theorem file_title_has_no_separator (i : info) :
  match info_title i with
  | TitleNone => video_title_of i = ([], Throw AttributeError)
  | NoTitle => video_title_of i = ([], Return "video")
  | Title s =>
      exists name,
        video_title_of i = ([], Return name) /\
        list_ascii_of_string name =
          map (fun c : ascii =>
                 if Ascii.eqb c "/"%char || Ascii.eqb c "092"%char then "_"%char else c)
              (list_ascii_of_string s) /\
        no_separator name = true /\
        String.length name = String.length s /\
        (no_separator s = true -> name = s)
  end.
Proof.
  unfold video_title_of. destruct (info_title i) as [| |s]; try reflexivity.
  exists (sanitize s). split; [reflexivity|].
  split; [rewrite sanitize_map, list_ascii_of_string_of_list_ascii; reflexivity|].
  split; [apply sanitize_no_separator|].
  split; [apply sanitize_length|apply sanitize_clean].
Qed.

Example title_with_separators :
  sanitize "AC/DC \ live" = "AC_DC _ live".
Proof. reflexivity. Qed.

(** *** The three modes *)

Lemma requested_app (t1 t2 : list event) :
  requested (t1 ++ t2) = requested t1 ++ requested t2.
Proof. apply flat_map_app. Qed.

Lemma removed_app (t1 t2 : list event) :
  removed (t1 ++ t2) = removed t1 ++ removed t2.
Proof. apply flat_map_app. Qed.

Lemma merging_app (t1 t2 : list event) :
  merging (t1 ++ t2) = merging t1 ++ merging t2.
Proof. apply flat_map_app. Qed.

Lemma requested_Merging (t : list Merge.event) : requested (map Merging t) = [].
Proof. induction t; [reflexivity|exact IHt]. Qed.

Lemma removed_Merging (t : list Merge.event) : removed (map Merging t) = [].
Proof. induction t; [reflexivity|exact IHt]. Qed.

Lemma merging_Merging (t : list Merge.event) : merging (map Merging t) = t.
Proof. induction t as [|x t IH]; [reflexivity|simpl; rewrite IH; reflexivity]. Qed.

Section Props.

Variables FFMPEG_PATH FFPROBE_PATH : string.
Variable join : string -> string -> string.

Abbreviation download := (download_video_audio FFMPEG_PATH FFPROBE_PATH join).
Abbreviation merge := (Merge.merge_video_audio FFMPEG_PATH FFPROBE_PATH).
Abbreviation detect := (Merge.gpu_supports_nvenc_nvdec FFMPEG_PATH).

(** The audio branch: what is asked of the downloader, and no merge. *)
Lemma audio_branch (w : env) (url : string) (video_fmt : option candidate)
    (target_dir : string) :
  (requested (fst (download w url video_fmt true false target_dir false)) = [] \/
   requested (fst (download w url video_fmt true false target_dir false)) =
     [Some "bestaudio/best"]) /\
  merging (fst (download w url video_fmt true false target_dir false)) = [].
Proof.
  unfold download_video_audio, ydl_download, perform.
  destruct (makedirs_error w target_dir); [split; [left|]; reflexivity|].
  cbv beta iota. rewrite bind_Return.
  destruct (extract_info w url) as [i|e]; [|split; [left|]; reflexivity].
  cbn [of_result]. rewrite bind_Return.
  unfold video_title_of, mret, io_mret, throw.
  destruct (info_title i) as [| |s];
    [|split; [left|]; reflexivity|].
  - cbn [andb negb]. rewrite !bind_Return.
    destruct (download_error w url _ _); [split; [right|]; reflexivity|].
    cbv beta iota. rewrite !bind_Return.
    destruct (Merge.run_error _ _); [split; [right|]; reflexivity|].
    cbv beta iota. rewrite !bind_Return.
    destruct (remove_error w _); split; try right; reflexivity.
  - cbn [andb negb]. rewrite !bind_Return.
    destruct (download_error w url _ _); [split; [right|]; reflexivity|].
    cbv beta iota. rewrite !bind_Return.
    destruct (Merge.run_error _ _); [split; [right|]; reflexivity|].
    cbv beta iota. rewrite !bind_Return.
    destruct (remove_error w _); split; try right; reflexivity.
Qed.

(** With audio asked for, no joining and no [video_only], at most one
    download is made, of 'bestaudio/best', and no merge takes place. *)
Lemma separate_flags_audio (w : env) (url : string) (video_fmt : option candidate)
    (target_dir : string) (f : option string) :
  In f (requested (fst (download w url video_fmt true false target_dir false))) ->
  f = Some "bestaudio/best" /\
  merging (fst (download w url video_fmt true false target_dir false)) = [].
Proof.
  destruct (audio_branch w url video_fmt target_dir) as [[H|H] Hm];
    rewrite H; simpl; intros Hin.
  - contradiction.
  - destruct Hin as [<-|[]]. split; [reflexivity|exact Hm].
Qed.

Lemma In_requested_bind {A B} (m : io event A) (k : A -> io event B)
    (f : option string) :
  In f (requested (fst (x ← m; k x))) ->
  In f (requested (fst m)) \/
  exists a, snd m = Return a /\ In f (requested (fst (k a))).
Proof.
  rewrite bind_trace, requested_app, in_app_iff. intros [H|H]; [left; exact H|].
  destruct (snd m) as [a|e]; [right; eauto|destruct H].
Qed.

(** Whatever the flags, a format asked of the downloader is one of the
    two audio selections or the format of the candidate given. *)
Lemma requested_formats (w : env) (url : string) (video_fmt : option candidate)
    (do_audio do_join : bool) (target_dir : string) (video_only : bool)
    (f : option string) :
  In f (requested
          (fst (download w url video_fmt do_audio do_join target_dir video_only))) ->
  f = Some "bestaudio/best" \/ f = Some "bestaudio[ext=m4a]/bestaudio" \/
  exists c, video_fmt = Some c /\ f = c_format_id c.
Proof.
  intros H. unfold download_video_audio in H.
  apply In_requested_bind in H. destruct H as [[]|(_ & _ & H)].
  apply In_requested_bind in H. destruct H as [[]|(i & _ & H)].
  apply In_requested_bind in H. destruct H as [H|(video_title & _ & H)].
  { unfold video_title_of in H. destruct (info_title i); destruct H. }
  assert (forall format path,
            snd (format_id_of video_fmt) = Return format ->
            In f (requested (fst (ydl_download w url format path))) ->
            exists c, video_fmt = Some c /\ f = c_format_id c) as Hvideo.
  { intros format path Hfmt [<-|[]].
    destruct video_fmt as [c|]; [|discriminate].
    injection Hfmt as <-. eauto. }
  assert (forall (A : Type) (P : Prop),
            In f (requested (fst (format_id_of video_fmt))) -> P) as Hnone
    by (intros A P; destruct video_fmt; intros []).
  destruct (do_join && do_audio && negb video_only).
  - apply In_requested_bind in H. destruct H as [H|(format & Hfmt & H)];
      [exact (Hnone unit _ H)|].
    apply In_requested_bind in H. destruct H as [H|(_ & _ & H)];
      [right; right; exact (Hvideo _ _ Hfmt H)|].
    apply In_requested_bind in H. destruct H as [[<-|[]]|(_ & _ & H)];
      [right; left; reflexivity|].
    apply In_requested_bind in H. destruct H as [H|(_ & _ & H)].
    { unfold lift in H. cbn [fst] in H. rewrite requested_Merging in H. destruct H. }
    apply In_requested_bind in H. destruct H as [[]|(_ & _ & [])].
  - destruct video_only.
    + apply In_requested_bind in H. destruct H as [H|(format & Hfmt & H)];
        [exact (Hnone unit _ H)|].
      right; right; exact (Hvideo _ _ Hfmt H).
    + destruct (do_audio && negb false); [|destruct H].
      apply In_requested_bind in H. destruct H as [[<-|[]]|(_ & _ & H)];
        [left; reflexivity|].
      apply In_requested_bind in H. destruct H as [[]|(_ & _ & H)].
      apply In_requested_bind in H. destruct H as [[]|(_ & _ & H)].
      apply In_requested_bind in H. destruct H as [[]|(_ & _ & [])].
Qed.

(** The joined mode gets as far as the merge: the directory is made,
    the title is found, and the two downloads go through. *)
Definition title_text (i : info) : string :=
  match info_title i with
  | Title s => sanitize s
  | _ => "video"
  end.

Record reaches_merge (w : env) (url : string) (c : candidate) (target_dir : string)
    (i : info) : Prop := {
  made_dir : makedirs_error w target_dir = None;
  got_info : extract_info w url = Ok i;
  got_title : info_title i <> TitleNone;
  got_video :
    download_error w url (c_format_id c) (join target_dir "temp_video.mp4") = None;
  got_audio :
    download_error w url (Some "bestaudio[ext=m4a]/bestaudio")
      (join target_dir "temp_audio.m4a") = None
}.

(** The trace up to the merge, and the merge itself. *)
Definition before_merge (url : string) (c : candidate) (target_dir : string)
  : list event :=
  [MakeDirs target_dir; ExtractInfo url;
   YdlDownload url (c_format_id c) (join target_dir "temp_video.mp4");
   YdlDownload url (Some "bestaudio[ext=m4a]/bestaudio")
     (join target_dir "temp_audio.m4a")].

Definition the_merge (w : env) (target_dir : string) (i : info)
  : list Merge.event * result unit :=
  merge (subprocesses w) (join target_dir "temp_video.mp4")
    (join target_dir "temp_audio.m4a") (join target_dir (title_text i +:+ ".mp4")).

Lemma joined_mode (w : env) (url : string) (c : candidate) (target_dir : string)
    (i : info) :
  reaches_merge w url c target_dir i ->
  download w url (Some c) true true target_dir false =
  (x ← (before_merge url c target_dir ++ map Merging (fst (the_merge w target_dir i)),
        of_result (snd (the_merge w target_dir i)));
   _ ← perform (Remove (join target_dir "temp_video.mp4"))
         (remove_error w (join target_dir "temp_video.mp4"));
   perform (Remove (join target_dir "temp_audio.m4a"))
     (remove_error w (join target_dir "temp_audio.m4a"))).
Proof.
  intros [Hd Hi Ht Hv Ha].
  unfold download_video_audio, ydl_download, perform, the_merge, before_merge, lift,
    video_title_of, format_id_of, title_text, mbind, io_mbind, io_bind, mret, io_mret,
    throw.
  rewrite Hd, Hi. cbn [of_result andb negb].
  destruct (info_title i) as [| |s]; [|contradiction|];
    cbv beta iota; rewrite Hv, Ha;
    destruct (merge _ _ _ _) as [t [[]|e]]; cbn [fst snd of_result];
    destruct (remove_error w (join target_dir "temp_video.mp4"));
    destruct (remove_error w (join target_dir "temp_audio.m4a"));
    cbn [app]; rewrite <- ?app_assoc, ?app_nil_r; reflexivity.
Qed.

(** X9.  Declining the re-encode loses the downloads.  In the joined
    mode, when both streams were downloaded, encoding support is
    detected, the probed codec is neither h264 nor hevc and the user
    answers anything but "y", the merge step returns without launching
    a transcode, and the download step then removes both downloaded
    files and returns normally: nothing is left of the run. *)
Theorem declined_merge_removes_downloads
    (w : env) (url : string) (c : candidate) (target_dir : string) (i : info)
    (line : string) (rest : list string) :
  reaches_merge w url c target_dir i ->
  fst (snd (detect (subprocesses w))) = true ->
  Merge.gpu_friendly (MergeSpec.probed_codec (subprocesses w)) = false ->
  Merge.stdin (subprocesses w) = line :: rest ->
  lower (strip line) <> "y" ->
  remove_error w (join target_dir "temp_video.mp4") = None ->
  remove_error w (join target_dir "temp_audio.m4a") = None ->
  download w url (Some c) true true target_dir false =
  (before_merge url c target_dir ++
   map Merging
     (fst (detect (subprocesses w)) ++
      [Merge.Exec (Merge.probe_cmd FFPROBE_PATH (join target_dir "temp_video.mp4"));
       Merge.Input Merge.reencode_prompt;
       Merge.Print
         "Aborting merge. Please select another format with GPU-friendly codec."]) ++
   [Remove (join target_dir "temp_video.mp4");
    Remove (join target_dir "temp_audio.m4a")],
   Return ()).
Proof.
  intros Hreach Hnv Hcodec Hin Hno Hrv Hra.
  rewrite (joined_mode w url c target_dir i Hreach).
  assert (the_merge w target_dir i =
          (fst (detect (subprocesses w)) ++
           [Merge.Exec (Merge.probe_cmd FFPROBE_PATH (join target_dir "temp_video.mp4"));
            Merge.Input Merge.reencode_prompt;
            Merge.Print
              "Aborting merge. Please select another format with GPU-friendly codec."],
           Ok ())) as ->.
  { unfold the_merge, Merge.merge_video_audio.
    unfold MergeSpec.probed_codec in Hcodec.
    destruct (detect (subprocesses w)) as [ev0 [nvenc nvdec]]. simpl in Hnv. subst nvenc.
    rewrite Hcodec, Hin. cbn [andb].
    apply String.eqb_neq in Hno. rewrite Hno. cbn [negb fst].
    rewrite <- app_assoc. reflexivity. }
  cbn [fst snd of_result]. rewrite bind_Return.
  unfold perform. rewrite Hrv, Hra. cbv beta iota. rewrite bind_Return.
  cbn [fst snd]. rewrite <- !app_assoc. reflexivity.
Qed.

(** X10.  A merge that fails leaves the downloads in place: in the
    joined mode, when both streams were downloaded and the merge step
    raises, the download step raises the same exception and removes
    neither of the two temporary files. *)
Theorem failed_merge_keeps_downloads
    (w : env) (url : string) (c : candidate) (target_dir : string) (i : info)
    (e : exn) :
  reaches_merge w url c target_dir i ->
  snd (the_merge w target_dir i) = Raise e ->
  snd (download w url (Some c) true true target_dir false) = Throw (Exn e) /\
  removed (fst (download w url (Some c) true true target_dir false)) = [] /\
  requested (fst (download w url (Some c) true true target_dir false)) =
    [c_format_id c; Some "bestaudio[ext=m4a]/bestaudio"].
Proof.
  intros Hreach Hm. rewrite (joined_mode w url c target_dir i Hreach), Hm.
  cbn [of_result]. rewrite bind_Throw. cbn [fst snd].
  rewrite removed_app, requested_app, removed_Merging, requested_Merging.
  repeat split; reflexivity.
Qed.

End Props.

(** A video called "AC/DC live", in VP9, on a machine with GPU encoding;
    the user answers "n" to the question of the merge step, and any
    transcode would fail. *)
Definition sample_info : info :=
  {| info_title := Title "AC/DC live"; info_duration := Some (PInt 10);
     info_formats := Some FormatSpec.sample_streams |}.

Definition sample_processes (answers : list string) : Merge.env :=
  {| Merge.encoders_output := Ok (" V....D h264_nvenc" +:+ String LF "");
     Merge.decoders_output := Ok (" V..... h264_cuvid" +:+ String LF "");
     Merge.probe_output := Ok ("vp9" +:+ String LF "");
     Merge.run_error := fun _ => Some (CalledProcessError 1);
     Merge.getsize := fun _ => Ok 1000;
     Merge.stdin := answers |}.

Definition sample_env (answers : list string) : env :=
  {| makedirs_error := fun _ => None;
     extract_info := fun _ => Ok sample_info;
     download_error := fun _ _ _ => None;
     subprocesses := sample_processes answers;
     remove_error := fun _ => None |}.

Definition sample_candidate : candidate :=
  {| c_format_id := Some "b"; c_fps := PInt 60; c_ext := Some "mp4";
     c_filesize := None; c_vcodec := Some "vp9" |}.

Lemma sample_reaches_merge (answers : list string) :
  reaches_merge Rename.posix_join (sample_env answers) "url" sample_candidate "/out"
    sample_info.
Proof. split; try reflexivity. discriminate. Qed.

Lemma declined_merge_removes_downloads_witness :
  download_video_audio "ffmpeg" "ffprobe" Rename.posix_join (sample_env [" N "]) "url"
    (Some sample_candidate) true true "/out" false =
  (before_merge Rename.posix_join "url" sample_candidate "/out" ++
   map Merging
     (fst (Merge.gpu_supports_nvenc_nvdec "ffmpeg" (sample_processes [" N "])) ++
      [Merge.Exec (Merge.probe_cmd "ffprobe" "/out/temp_video.mp4");
       Merge.Input Merge.reencode_prompt;
       Merge.Print
         "Aborting merge. Please select another format with GPU-friendly codec."]) ++
   [Remove "/out/temp_video.mp4"; Remove "/out/temp_audio.m4a"],
   Return ()).
Proof.
  apply (declined_merge_removes_downloads "ffmpeg" "ffprobe" Rename.posix_join
           (sample_env [" N "]) "url" sample_candidate "/out" sample_info " N " []).
  - apply sample_reaches_merge.
  - vm_compute. reflexivity.
  - vm_compute. reflexivity.
  - reflexivity.
  - vm_compute. discriminate.
  - reflexivity.
  - reflexivity.
Defined.

Lemma failed_merge_keeps_downloads_witness :
  snd (download_video_audio "ffmpeg" "ffprobe" Rename.posix_join (sample_env ["y"])
         "url" (Some sample_candidate) true true "/out" false) =
    Throw (Exn (CalledProcessError 1)) /\
  removed (fst (download_video_audio "ffmpeg" "ffprobe" Rename.posix_join
                  (sample_env ["y"]) "url" (Some sample_candidate) true true "/out"
                  false)) = [] /\
  requested (fst (download_video_audio "ffmpeg" "ffprobe" Rename.posix_join
                    (sample_env ["y"]) "url" (Some sample_candidate) true true "/out"
                    false)) =
    [Some "b"; Some "bestaudio[ext=m4a]/bestaudio"].
Proof.
  apply (failed_merge_keeps_downloads "ffmpeg" "ffprobe" Rename.posix_join
           (sample_env ["y"]) "url" sample_candidate "/out" sample_info
           (CalledProcessError 1)).
  - apply sample_reaches_merge.
  - vm_compute. reflexivity.
Defined.

(** The audio of the same video alone: downloaded as m4a, converted to
    a 96 kHz WAV, the m4a removed.  The conversion fails here, so the
    m4a stays. *)
Example audio_only_trace :
  download_video_audio "ffmpeg" "ffprobe" Rename.posix_join (sample_env []) "url"
    None true false "/out" false =
  ([MakeDirs "/out"; ExtractInfo "url";
    YdlDownload "url" (Some "bestaudio/best") "/out/AC_DC live.m4a";
    PrintConverting "/out/AC_DC live.m4a" "/out/AC_DC live.wav";
    Exec ["ffmpeg"; "-y"; "-i"; "/out/AC_DC live.m4a"; "-ar"; "96000";
          "-sample_fmt"; "s24le"; "/out/AC_DC live.wav"]],
   Throw (Exn (CalledProcessError 1))).
Proof. vm_compute. reflexivity. Qed.

End DownloadSpec.

(** ** The modes of the main program *)

Module MainSpec.
Import FormatSelector Download Main DownloadSpec.

Lemma downloading_app (t1 t2 : list event) :
  downloading (t1 ++ t2) = downloading t1 ++ downloading t2.
Proof. apply flat_map_app. Qed.

Lemma downloading_bind {A B} (m : io event A) (k : A -> io event B) :
  downloading (fst (x ← m; k x)) =
  downloading (fst m) ++
  match snd m with Return a => downloading (fst (k a)) | Throw _ => [] end.
Proof.
  rewrite bind_trace, downloading_app. destruct (snd m); reflexivity.
Qed.

Lemma downloading_lift {E A} (wrap : E -> event) (m : list E * result A) :
  (forall e, downloading [wrap e] = []) ->
  downloading (fst (lift wrap m)) = [].
Proof.
  intros H. unfold lift. cbn [fst]. induction (fst m) as [|e t IH]; [reflexivity|].
  change (map wrap (e :: t)) with ([wrap e] ++ map wrap t).
  rewrite downloading_app, H, IH. reflexivity.
Qed.

Lemma downloading_embed {A} (m : io Download.event A) :
  downloading (fst (embed Downloading m)) = fst m.
Proof.
  unfold embed. cbn [fst]. induction (fst m) as [|e t IH]; [reflexivity|].
  change (map Downloading (e :: t)) with ([Downloading e] ++ map Downloading t).
  rewrite downloading_app, IH. reflexivity.
Qed.

Lemma read_mode_no_download (lines : list string) :
  downloading (fst (read_mode lines)) = [].
Proof.
  induction lines as [|line rest IH]; [reflexivity|].
  cbn [read_mode]. destruct (is_mode (strip line)); [reflexivity|].
  destruct (read_mode rest) as [t r]. cbn [fst] in *.
  rewrite downloading_app, IH. reflexivity.
Qed.

(** The mode is decided by the first line that is "1" to "4" once
    stripped. *)
Lemma read_mode_first_valid (pre : list string) (line : string) (rest : list string) :
  Forall (fun l => is_mode (strip l) = false) pre ->
  is_mode (strip line) = true ->
  snd (read_mode (pre ++ line :: rest)) = Return (strip line, rest).
Proof.
  intros Hpre Hline. induction Hpre as [|l pre Hl Hpre IH].
  - simpl. rewrite Hline. reflexivity.
  - simpl. rewrite Hl. destruct (read_mode (pre ++ line :: rest)). exact IH.
Qed.

Section Props.

Variables RAW_PATH FFMPEG_PATH FFPROBE_PATH : string.
Variable sep : ascii.
Variable altsep : option ascii.
Variable dirname : string -> string.
Variable join : string -> string -> string.

Abbreviation run := (main RAW_PATH FFMPEG_PATH FFPROBE_PATH sep altsep dirname join).

(** What [main] does once the mode is chosen. *)
Definition after_mode (w : env) (url choice : string) (lines : list string)
  : io event unit :=
  let do_video := existsb (String.eqb choice) ["1"; "2"; "3"] in
  let do_audio := existsb (String.eqb choice) ["1"; "2"; "4"] in
  let do_join := String.eqb choice "1" in
  let video_only := String.eqb choice "3" in
  download_speed_bps ← lift Store (SpeedStore.load_last_speed (store w));
  _ ← match download_speed_bps with
      | None =>
          perform (Print "No saved download speed found, showing estimates as N/A")
            None
      | Some _ => mret ()
      end;
  '(video_fmt, lines) ←
    (if do_video then select_format w url download_speed_bps lines
     else mret (None, lines));
  let target_dir := join RAW_PATH (timestamp w) in
  _ ← embed Downloading
        (download_video_audio FFMPEG_PATH FFPROBE_PATH join
           (reading (downloads w) lines) url video_fmt do_audio do_join
           target_dir video_only);
  lift Renaming (Rename.rename_folder sep altsep dirname join (files w) target_dir).

Lemma main_after_mode (w : env) :
  run w =
  match stdin w with
  | [] => ([Input "Paste YouTube URL: "], Throw (Exn EOFError))
  | line :: lines =>
      _ ← perform (Input "Paste YouTube URL: ") None;
      '(choice, lines) ← read_mode lines;
      after_mode w (strip line) choice lines
  end.
Proof. reflexivity. Qed.

Lemma select_format_no_download (w : env) (url : string) (speed : option Z)
    (lines : list string) :
  downloading (fst (select_format w url speed lines)) = [].
Proof.
  unfold select_format, get_video_formats.
  rewrite downloading_bind. cbn [fst snd].
  destruct (formats_info w url) as [i|e]; [|reflexivity].
  cbn [of_result app downloading flat_map].
  rewrite downloading_bind.
  destruct (info_formats i) as [fs|]; [|reflexivity].
  cbn [mret io_mret fst snd app downloading flat_map].
  rewrite downloading_bind, downloading_lift by reflexivity.
  destruct (snd (lift Selector _)); reflexivity.
Qed.

(** A candidate the menu of the run offered: an entry of the table
    computed from the formats extracted for [url]. *)
Definition offered (w : env) (url : string) (c : candidate) : Prop :=
  exists info fs best t,
    formats_info w url = Ok info /\ info_formats info = Some fs /\
    compute_best fs (info_duration info) = Ok best /\
    In t targets /\ best !! fst t = Some (Some c).

Lemma pick_returns_entry (fs : list format) (d speed : option pynum)
    (lines : list string) (c : candidate) :
  snd (pick_video_format fs d speed lines) = Ok c ->
  exists best t,
    compute_best fs d = Ok best /\ In t targets /\ best !! fst t = Some (Some c).
Proof.
  unfold pick_video_format.
  destruct (compute_best fs d) as [best|e]; [|discriminate].
  destruct (menu best speed) as [o [[]|e]]; [|discriminate].
  pose proof (MenuSpec.choose_returns_entry best lines c) as Hc.
  destruct (choose best lines) as [o' x]. cbn [snd] in *.
  intros Hx. destruct (Hc Hx) as (t & Ht & Hb). eauto.
Qed.

Lemma select_format_offered (w : env) (url : string) (speed : option Z)
    (lines lines' : list string) (video_fmt : option candidate) :
  snd (select_format w url speed lines) = Return (video_fmt, lines') ->
  exists c, video_fmt = Some c /\ offered w url c.
Proof.
  unfold select_format, get_video_formats. rewrite bind_outcome. cbn [snd].
  destruct (formats_info w url) as [i|e] eqn:Ei; [|discriminate].
  cbn [of_result]. rewrite bind_outcome.
  destruct (info_formats i) as [fs|] eqn:Ef; [|discriminate].
  cbn [mret io_mret snd]. rewrite bind_outcome. unfold lift. cbn [snd].
  destruct (snd (pick_video_format fs (info_duration i) (option_map PInt speed) lines))
    as [c|e] eqn:Ep; [|discriminate].
  cbn [of_result]. intros [= <- _].
  destruct (pick_returns_entry _ _ _ _ _ Ep) as (best & t & Hb & Ht & Hc).
  exists c. split; [reflexivity|]. exists i, fs, best, t. auto.
Qed.

(** The downloads of a run are those of one download step, whose
    format, if any, was offered. *)
Lemma after_mode_downloads (w : env) (url choice : string) (lines : list string) :
  downloading (fst (after_mode w url choice lines)) = [] \/
  exists video_fmt lines',
    (forall c, video_fmt = Some c -> offered w url c) /\
    downloading (fst (after_mode w url choice lines)) =
    fst (download_video_audio FFMPEG_PATH FFPROBE_PATH join
           (reading (downloads w) lines') url video_fmt
           (existsb (String.eqb choice) ["1"; "2"; "4"]) (String.eqb choice "1")
           (join RAW_PATH (timestamp w)) (String.eqb choice "3")).
Proof.
  unfold after_mode.
  rewrite downloading_bind, downloading_lift by reflexivity.
  destruct (snd (lift Store _)) as [speed|e]; [|left; reflexivity].
  rewrite downloading_bind.
  assert (forall k : io event unit,
            k = match speed with
                | None =>
                    perform
                      (Print "No saved download speed found, showing estimates as N/A")
                      None
                | Some _ => mret ()
                end ->
            downloading (fst k) = [] /\ snd k = Return ()) as Hk
    by (intros k ->; destruct speed; split; reflexivity).
  destruct (Hk _ eq_refl) as [-> ->]. clear Hk.
  rewrite downloading_bind.
  match goal with
  | |- context [if ?b then select_format ?a1 ?a2 ?a3 ?a4 else ?z] =>
      remember (if b then select_format a1 a2 a3 a4 else z) as sel eqn:Esel
  end.
  assert (downloading (fst sel) = []) as ->.
  { subst sel. destruct (existsb _ _); [apply select_format_no_download|reflexivity]. }
  destruct (snd sel) as [[video_fmt lines']|e] eqn:Esnd; [|left; reflexivity].
  right. exists video_fmt, lines'. split.
  { intros c ->. subst sel.
    destruct (existsb (String.eqb choice) ["1"; "2"; "3"]); [|discriminate].
    destruct (select_format_offered _ _ _ _ _ _ Esnd) as (c' & [= <-] & H). exact H. }
  rewrite downloading_bind, downloading_embed.
  assert (forall m : io Download.event unit,
            match snd (embed Downloading m) with
            | Return _ =>
                downloading
                  (fst (lift Renaming
                          (Rename.rename_folder sep altsep dirname join (files w)
                             (join RAW_PATH (timestamp w)))))
            | Throw _ => []
            end = []) as Hr.
  { intros m. destruct (snd (embed Downloading m)); [|reflexivity].
    apply downloading_lift. reflexivity. }
  rewrite Hr. cbn [app]. rewrite app_nil_r. reflexivity.
Qed.

Lemma run_downloads (w : env) :
  downloading (fst (run w)) = [] \/
  exists line lines choice video_fmt lines',
    stdin w = line :: lines /\
    (forall c, video_fmt = Some c -> offered w (strip line) c) /\
    downloading (fst (run w)) =
    fst (download_video_audio FFMPEG_PATH FFPROBE_PATH join
           (reading (downloads w) lines') (strip line) video_fmt
           (existsb (String.eqb choice) ["1"; "2"; "4"]) (String.eqb choice "1")
           (join RAW_PATH (timestamp w)) (String.eqb choice "3")).
Proof.
  rewrite main_after_mode. destruct (stdin w) as [|line lines]; [left; reflexivity|].
  rewrite downloading_bind. cbn [perform fst snd downloading flat_map app].
  rewrite downloading_bind, read_mode_no_download. cbn [app].
  destruct (snd (read_mode lines)) as [[choice lines1]|e]; [|left; reflexivity].
  destruct (after_mode_downloads w (strip line) choice lines1)
    as [H|(video_fmt & lines' & Hoff & H)]; [left; exact H|].
  right. exists line, lines, choice, video_fmt, lines'. auto.
Qed.

(** X12.  A run downloads only what was offered: every format asked of
    the downloader is one of the two audio selections, or the format of
    a candidate of the table computed from the formats extracted for the
    URL typed by the user, i.e. of a row of the menu that was not shown
    as "not available". *)
Theorem only_offered_formats_are_downloaded (w : env) (f : option string) :
  In f (requested (downloading (fst (run w)))) ->
  f = Some "bestaudio/best" \/ f = Some "bestaudio[ext=m4a]/bestaudio" \/
  exists line lines c,
    stdin w = line :: lines /\ offered w (strip line) c /\ f = c_format_id c.
Proof.
  destruct (run_downloads w)
    as [->|(line & lines & choice & video_fmt & lines' & Hin & Hoff & ->)];
    [intros []|].
  intros H. apply requested_formats in H.
  destruct H as [H|[H|(c & -> & ->)]]; [left; exact H|right; left; exact H|].
  right. right. exists line, lines, c. auto.
Qed.

(** X11.  The mode "2. Video + Audio (separate)" downloads no video.
    When the first line that names a mode is "2" or "4", every download
    the run makes is of 'bestaudio/best' and no merge takes place: the
    two modes lead to the same download, and the format picked in mode
    "2" is never used. *)
Theorem separate_mode_downloads_no_video
    (w : env) (url_line : string) (pre : list string) (mode_line : string)
    (rest : list string) (f : option string) :
  stdin w = url_line :: pre ++ mode_line :: rest ->
  Forall (fun l => is_mode (strip l) = false) pre ->
  strip mode_line = "2" \/ strip mode_line = "4" ->
  In f (requested (downloading (fst (run w)))) ->
  f = Some "bestaudio/best" /\ merging (downloading (fst (run w))) = [].
Proof.
  intros Hin Hpre Hmode.
  assert (is_mode (strip mode_line) = true) as Hvalid
    by (destruct Hmode as [-> | ->]; reflexivity).
  rewrite main_after_mode, Hin.
  rewrite downloading_bind. cbn [perform fst snd downloading flat_map app].
  rewrite downloading_bind, read_mode_no_download.
  rewrite (read_mode_first_valid pre mode_line rest Hpre Hvalid). cbn [app].
  destruct (after_mode_downloads w (strip url_line) (strip mode_line) rest)
    as [->|(video_fmt & lines' & _ & ->)]; [intros []|].
  destruct Hmode as [-> | ->]; apply separate_flags_audio.
Qed.

End Props.

(** A run without a speed file, on a machine where every step works:
    the video is "AC/DC live", with the streams of the selection example. *)
Definition working_processes : Merge.env :=
  {| Merge.encoders_output := Ok (" V....D h264_nvenc" +:+ String LF "");
     Merge.decoders_output := Ok (" V..... h264_cuvid" +:+ String LF "");
     Merge.probe_output := Ok ("vp9" +:+ String LF "");
     Merge.run_error := fun _ => None;
     Merge.getsize := fun _ => Ok 1000;
     Merge.stdin := [] |}.

Definition sample_run (lines : list string) : Main.env :=
  {| stdin := lines;
     store := {| SpeedStore.speed_file := SpeedStore.NoFile;
                 SpeedStore.write_error := None |};
     formats_info := fun _ => Ok sample_info;
     timestamp := "2024-05-01_10-00-00";
     downloads :=
       {| makedirs_error := fun _ => None;
          extract_info := fun _ => Ok sample_info;
          download_error := fun _ _ _ => None;
          subprocesses := working_processes;
          remove_error := fun _ => None |};
     files :=
       {| Rename.listdir := fun _ => Ok ["AC_DC live.wav"];
          Rename.path_exists := fun _ => false;
          Rename.rename_error := fun _ _ => None |} |}.

Definition posix_main : Main.env -> io event unit :=
  main "/app" "ffmpeg" "ffprobe" Rename.posix_sep None Rename.posix_dirname
    Rename.posix_join.

Lemma separate_mode_downloads_no_video_witness :
  Some "bestaudio/best" = Some "bestaudio/best" /\
  merging (downloading
             (fst (posix_main (sample_run [" https://x "; "5"; " 2 "; "4"])))) = [].
Proof.
  apply (separate_mode_downloads_no_video "/app" "ffmpeg" "ffprobe" Rename.posix_sep
           None Rename.posix_dirname Rename.posix_join
           (sample_run [" https://x "; "5"; " 2 "; "4"])
           " https://x " ["5"] " 2 " ["4"]).
  - reflexivity.
  - constructor; [reflexivity|constructor].
  - left. reflexivity.
  - vm_compute. left. reflexivity.
Defined.

Lemma only_offered_formats_are_downloaded_witness :
  Some "b" = Some "bestaudio/best" \/ Some "b" = Some "bestaudio[ext=m4a]/bestaudio" \/
  exists line lines c,
    stdin (sample_run ["https://x"; "1"; "4"; "y"]) = line :: lines /\
    offered (sample_run ["https://x"; "1"; "4"; "y"]) (strip line) c /\
    Some "b" = c_format_id c.
Proof.
  apply (only_offered_formats_are_downloaded "/app" "ffmpeg" "ffprobe" Rename.posix_sep
           None Rename.posix_dirname Rename.posix_join
           (sample_run ["https://x"; "1"; "4"; "y"]) (Some "b")).
  vm_compute. left. reflexivity.
Defined.

(** The run in mode "2": the mode is asked twice ("5" is not a mode),
    the formats are fetched, the menu is shown and the user picks 1080p;
    then only the audio is downloaded and converted, and the directory
    is named after the WAV file. *)
Example separate_mode_run :
  posix_main (sample_run [" https://x "; "5"; " 2 "; "4"]) =
  ([Input "Paste YouTube URL: "] ++ mode_menu ++ mode_menu ++
   [Print "No saved download speed found, showing estimates as N/A";
    GetVideoFormats "https://x";
    Selector Header;
    Selector (Line (RowNotAvailable 1 "   8K"));
    Selector (Line (RowNotAvailable 2 "   4K"));
    Selector (Line (RowNotAvailable 3 "1440p"));
    Selector (Line (RowFormat 4 "1080p" (PInt 60)
                      (SizeText.Sized (PFloat (S754_finite false 8589934592000000 (-43)))
                         "K" "B")
                      NA NA));
    Selector Prompt;
    Downloading (MakeDirs "/app/2024-05-01_10-00-00");
    Downloading (ExtractInfo "https://x");
    Downloading (YdlDownload "https://x" (Some "bestaudio/best")
                   "/app/2024-05-01_10-00-00/AC_DC live.m4a");
    Downloading (PrintConverting "/app/2024-05-01_10-00-00/AC_DC live.m4a"
                   "/app/2024-05-01_10-00-00/AC_DC live.wav");
    Downloading (Exec ["ffmpeg"; "-y"; "-i"; "/app/2024-05-01_10-00-00/AC_DC live.m4a";
                       "-ar"; "96000"; "-sample_fmt"; "s24le";
                       "/app/2024-05-01_10-00-00/AC_DC live.wav"]);
    Downloading (Remove "/app/2024-05-01_10-00-00/AC_DC live.m4a");
    Downloading (Download.Print "Conversion complete.");
    Renaming (Rename.OsRename "/app/2024-05-01_10-00-00" "/app/AC_DC live");
    Renaming (Rename.Print "Renamed folder to: /app/AC_DC live")],
   Return ()).
Proof. vm_compute. reflexivity. Qed.

End MainSpec.

(** ** The file the directory is named after *)

Module PrimarySpec.
Import Rename RenameSpec.

(** The primary output of a listing: the first file whose name ends in
    ".mp4", whatever the case of its letters; without any, the first
    whose name ends in ".wav". *)
Definition primary (files : list string) : option string :=
  match find (has_ext ".mp4") files with
  | Some f => Some f
  | None => find (has_ext ".wav") files
  end.

Lemma head_filter (e : string) (files : list string) :
  head (filter (fun f => has_ext e f = true) files) = find (has_ext e) files.
Proof.
  induction files as [|f files IH]; [reflexivity|].
  rewrite filter_cons. simpl. destruct (decide (has_ext e f = true)) as [H|H].
  - rewrite H. reflexivity.
  - apply not_true_is_false in H. rewrite H. exact IH.
Qed.

Lemma head_candidates (files : list string) : head (candidates files) = primary files.
Proof.
  unfold candidates, primary.
  rewrite <- !head_filter.
  destruct (filter (fun f => has_ext ".mp4" f = true) files); reflexivity.
Qed.

Section Props.

Variable sep : ascii.
Variable altsep : option ascii.
Variable dirname : string -> string.
Variable join : string -> string -> string.

(** X13.  The directory is named after the primary output: the first
    mp4 of the listing, even when a wav is listed before it, and the
    first wav only when there is no mp4.  The step renames the
    directory to the base name of that file, next to it, unless that
    path exists; without a primary output it renames nothing. *)
Theorem folder_named_after_primary_output
    (w : env) (target_dir : string) (files : list string) :
  listdir w target_dir = Ok files ->
  mutations (fst (rename_folder sep altsep dirname join w target_dir)) =
  match primary files with
  | None => []
  | Some f =>
      let new_folder_path := join (dirname target_dir) (base_name_of sep altsep f) in
      if path_exists w new_folder_path then []
      else [(target_dir, new_folder_path)]
  end.
Proof.
  intros Hls. unfold rename_folder. rewrite Hls, <- head_candidates.
  destruct (candidates files) as [|first others]; [reflexivity|].
  cbn [head]. unfold base_name_of. cbv zeta.
  destruct (path_exists w _); [reflexivity|].
  destruct (rename_error w _ _); reflexivity.
Qed.

End Props.

Definition env_two_outputs : env :=
  {| listdir := fun _ => Ok ["take.wav"; "notes.txt"; "Clip.MP4"; "other.mp4"];
     path_exists := fun _ => false;
     rename_error := fun _ _ => None |}.

Lemma folder_named_after_primary_output_witness :
  mutations (fst (rename_folder posix_sep None posix_dirname posix_join
                    env_two_outputs "/app/2024-05-01_10-00-00")) =
  match primary ["take.wav"; "notes.txt"; "Clip.MP4"; "other.mp4"] with
  | None => []
  | Some f =>
      let new_folder_path :=
        posix_join (posix_dirname "/app/2024-05-01_10-00-00")
          (base_name_of posix_sep None f) in
      if path_exists env_two_outputs new_folder_path then []
      else [("/app/2024-05-01_10-00-00", new_folder_path)]
  end.
Proof.
  apply (folder_named_after_primary_output posix_sep None posix_dirname posix_join
           env_two_outputs "/app/2024-05-01_10-00-00").
  reflexivity.
Defined.

Example mp4_after_wav_names_the_folder :
  primary ["take.wav"; "notes.txt"; "Clip.MP4"; "other.mp4"] = Some "Clip.MP4" /\
  mutations (fst (rename_folder posix_sep None posix_dirname posix_join
                    env_two_outputs "/app/2024-05-01_10-00-00")) =
    [("/app/2024-05-01_10-00-00", "/app/Clip")].
Proof. vm_compute. split; reflexivity. Qed.

End PrimarySpec.

(** ** The name given to the directory *)

Module StemSpec.
Import Rename RenameSpec HistorySpec.

(** The character [c] does not occur in [s]. *)
Definition absent (c : ascii) (s : string) : bool :=
  all_chars (fun d => negb (Ascii.eqb d c)) s.

Definition all_dots (s : string) : bool :=
  all_chars (fun d => Ascii.eqb d "."%char) s.

Lemma rfind_from_absent (c : ascii) (p : string) :
  absent c p = true -> forall i found, rfind_from i found c p = found.
Proof.
  induction p as [|d r IH]; intros H i found; [reflexivity|].
  simpl in H. apply andb_true_iff in H. destruct H as [Hd Hr].
  apply negb_true_iff in Hd. simpl. rewrite Hd. apply IH, Hr.
Qed.

Lemma rfind_from_last (c : ascii) (b : string) :
  absent c b = true ->
  forall a i found,
    rfind_from i found c (a +:+ String c b) = i + Z.of_nat (String.length a).
Proof.
  intros Hb. induction a as [|x a IH]; intros i found.
  - rewrite append_nil_l. simpl. rewrite Ascii.eqb_refl.
    rewrite (rfind_from_absent c b Hb). lia.
  - rewrite append_cons. cbn [rfind_from String.length]. rewrite IH. lia.
Qed.

Lemma substring_all (s : string) : String.substring 0 (String.length s) s = s.
Proof. induction s as [|c r IH]; [reflexivity|]. simpl. rewrite IH. reflexivity. Qed.

Lemma substring_prefix (a b : string) :
  String.substring 0 (String.length a) (a +:+ b) = a.
Proof.
  induction a as [|c a IH].
  - rewrite append_nil_l. destruct b; reflexivity.
  - rewrite append_cons. simpl. rewrite IH. reflexivity.
Qed.

Lemma substring_suffix (a b : string) :
  String.substring (String.length a) (String.length b) (a +:+ b) = b.
Proof.
  induction a as [|c a IH].
  - rewrite append_nil_l. apply substring_all.
  - rewrite append_cons. simpl. exact IH.
Qed.

Lemma substring_split (s : string) :
  forall n, (n <= String.length s)%nat ->
  String.substring 0 n s +:+ String.substring n (String.length s - n) s = s.
Proof.
  induction s as [|c r IH]; intros n Hn.
  - destruct n; [reflexivity|simpl in Hn; lia].
  - destruct n as [|n].
    + cbn [String.substring]. rewrite append_nil_l. 
      change (String.length (String c r) - 0)%nat with (S (String.length r)).
      cbn [String.substring]. rewrite substring_all. reflexivity.
    + simpl in Hn. cbn [String.substring String.length Nat.sub].
      rewrite append_cons, IH by lia. reflexivity.
Qed.

Lemma length_app_s (a b : string) :
  String.length (a +:+ b) = (String.length a + String.length b)%nat.
Proof.
  induction a as [|c a IH]; [rewrite append_nil_l; reflexivity|].
  rewrite append_cons. simpl. rewrite IH. reflexivity.
Qed.

Lemma length_lower (s : string) : String.length (lower s) = String.length s.
Proof. induction s as [|c r IH]; [reflexivity|]. simpl. rewrite IH. reflexivity. Qed.

Lemma lower_app (a b : string) : lower (a +:+ b) = lower a +:+ lower b.
Proof.
  induction a as [|c a IH]; [rewrite !append_nil_l; reflexivity|].
  rewrite append_cons. cbn [lower]. rewrite append_cons, IH. reflexivity.
Qed.

Lemma length_substring_le (s : string) :
  forall i k, (String.length (String.substring i k s) <= k)%nat.
Proof.
  induction s as [|c r IH]; intros i k.
  - destruct i, k; simpl; lia.
  - destruct i as [|i].
    + destruct k as [|k]; simpl; [lia|]. specialize (IH 0%nat k). lia.
    + simpl. apply IH.
Qed.

(** A name that ends in [e] once lowered is a stem followed by as many
    characters as [e] has, which lower to [e]. *)
Lemma has_ext_split (e f : string) :
  has_ext e f = true ->
  exists stem tail,
    f = stem +:+ tail /\ lower tail = e /\
    stem = String.substring 0 (String.length f - String.length e) f.
Proof.
  unfold has_ext, endswith. rewrite length_lower. intros H.
  apply andb_true_iff in H. destruct H as [Hlen Heq].
  apply Nat.leb_le in Hlen. apply String.eqb_eq in Heq.
  remember (String.length f) as n eqn:En.
  remember (String.length e) as k eqn:Ek.
  pose proof (substring_split f (n - k) ltac:(lia)) as Hsplit.
  rewrite <- En in Hsplit. replace (n - (n - k))%nat with k in Hsplit by lia.
  remember (String.substring 0 (n - k) f) as stem eqn:Es.
  remember (String.substring (n - k) k f) as tail eqn:Et.
  exists stem, tail.
  split; [symmetry; exact Hsplit|]. split; [|reflexivity].
  pose proof (length_substring_le f 0 (n - k)) as H1. rewrite <- Es in H1.
  pose proof (length_substring_le f (n - k) k) as H2. rewrite <- Et in H2.
  pose proof (f_equal String.length Hsplit) as Hl.
  rewrite length_app_s, <- En in Hl.
  assert (String.length stem = (n - k)%nat) as Hl1 by lia.
  assert (String.length tail = k) as Hl2 by lia.
  rewrite <- Hsplit, lower_app in Heq.
  rewrite <- Hl1, <- Hl2 in Heq.
  rewrite <- (length_lower stem), <- (length_lower tail) in Heq.
  rewrite substring_suffix in Heq. exact Heq.
Qed.

Lemma lower_char_dot (c : ascii) : lower_char c = "."%char -> c = "."%char.
Proof.
  destruct c as [[] [] [] [] [] [] [] []]; vm_compute; intros H;
    first [reflexivity | discriminate].
Qed.

Lemma lower_absent_dot (t : string) :
  absent "." (lower t) = true -> absent "." t = true.
Proof.
  unfold absent. induction t as [|c r IH]; [reflexivity|].
  cbn [lower all_chars]. intros H. apply andb_true_iff in H. destruct H as [Hc Hr].
  rewrite (IH Hr), andb_true_r.
  destruct (Ascii.eqb c ".") eqn:E; [|reflexivity].
  apply Ascii.eqb_eq in E. subst c. discriminate.
Qed.

Lemma has_non_dot_stem (stem rest : string) :
  has_non_dot (String.length stem) (stem +:+ rest) = negb (all_dots stem).
Proof.
  unfold all_dots. induction stem as [|c r IH].
  - reflexivity.
  - rewrite append_cons. cbn [String.length has_non_dot all_chars]. rewrite IH.
    destruct (Ascii.eqb c "."); reflexivity.
Qed.

Section Props.

Variable sep : ascii.
Variable altsep : option ascii.

(** X14.  The directory gets the name of the primary output file
    without its extension: for a file name without path separator that
    ends in ".mp4" or ".wav" (in any letter case), the base name is the
    name without its last four characters.  The exception is a name
    whose stem is empty or made of dots only (".mp4", "..wav"), which is
    kept whole. *)
Theorem folder_name_is_file_stem (first e : string) :
  e = ".mp4" \/ e = ".wav" ->
  has_ext e first = true ->
  absent sep first = true ->
  (forall a, altsep = Some a -> absent a first = true) ->
  base_name_of sep altsep first =
    if all_dots (String.substring 0 (String.length first - 4) first)
    then first
    else String.substring 0 (String.length first - 4) first.
Proof.
  intros He Hext Hsep Halt.
  destruct (has_ext_split e first Hext) as (stem & tail & Hf & Hlow & Hstem).
  assert (String.length e = 4%nat) as Hlen by (destruct He as [-> | ->]; reflexivity).
  rewrite Hlen in Hstem. rewrite <- Hstem.
  assert (exists b, tail = String "." b /\ absent "." b = true) as (b & -> & Hb).
  { destruct tail as [|c0 t1]; [destruct He as [-> | ->]; discriminate|].
    exists t1. cbn [lower] in Hlow.
    destruct He as [-> | ->]; injection Hlow as H0 H1;
      apply lower_char_dot in H0; subst c0; (split; [reflexivity|]);
      apply lower_absent_dot; rewrite H1; reflexivity. }
  unfold base_name_of, splitext, rfind.
  rewrite (rfind_from_absent sep first Hsep).
  assert (match altsep with
          | Some a => Z.max (-1) (rfind_from 0 (-1) a first)
          | None => -1
          end = -1) as ->.
  { destruct altsep as [a|]; [|reflexivity].
    rewrite (rfind_from_absent a first (Halt a eq_refl)). reflexivity. }
  assert (rfind_from 0 (-1) "." first = Z.of_nat (String.length stem)) as ->
    by (rewrite Hf, (rfind_from_last "." b Hb); lia).
  assert (slice_from (-1 + 1) first = first) as ->.
  { unfold slice_from. cbn [Z.add Z.to_nat]. rewrite Nat.sub_0_r. apply substring_all. }
  replace (Z.to_nat (Z.of_nat (String.length stem) - (-1 + 1))) with (String.length stem)
    by lia.
  assert ((-1 <? Z.of_nat (String.length stem)) = true) as -> by (apply Z.ltb_lt; lia).
  rewrite Hf at 1. rewrite has_non_dot_stem. cbn [andb].
  destruct (all_dots stem); cbn [negb fst]; [reflexivity|].
  unfold slice_to. rewrite Nat2Z.id, Hf. apply substring_prefix.
Qed.

End Props.

Lemma folder_name_is_file_stem_witness :
  base_name_of posix_sep None "Clip.MP4" =
    if all_dots (String.substring 0 (String.length "Clip.MP4" - 4) "Clip.MP4")
    then "Clip.MP4"
    else String.substring 0 (String.length "Clip.MP4" - 4) "Clip.MP4".
Proof.
  apply (folder_name_is_file_stem posix_sep None "Clip.MP4" ".mp4").
  - left. reflexivity.
  - reflexivity.
  - reflexivity.
  - discriminate.
Defined.

(** A file called ".mp4" gives a directory called ".mp4". *)
Example hidden_file_keeps_its_name :
  base_name_of posix_sep None "Clip.MP4" = "Clip" /\
  base_name_of posix_sep None ".mp4" = ".mp4" /\
  base_name_of posix_sep None "...wav" = "...wav".
Proof. vm_compute. repeat split; reflexivity. Qed.

End StemSpec.

(** ** How a size is scaled *)

Module SizeSpec.
Import SizeText.

(** A mantissa of [d] binary digits lies between [2^(d-1)] and [2^d]. *)
Lemma digits2_pos_bounds (m : positive) :
  2 ^ (Zpos (digits2_pos m) - 1) <= Zpos m < 2 ^ Zpos (digits2_pos m).
Proof.
  induction m as [p IH|p IH|]; cbn [digits2_pos].
  - rewrite Pos2Z.inj_succ. change (Zpos p~1) with (2 * Zpos p + 1).
    replace (Z.succ (Zpos (digits2_pos p)) - 1) with (Z.succ (Zpos (digits2_pos p) - 1))
      by lia.
    rewrite !Z.pow_succ_r by lia. lia.
  - rewrite Pos2Z.inj_succ. change (Zpos p~0) with (2 * Zpos p).
    replace (Z.succ (Zpos (digits2_pos p)) - 1) with (Z.succ (Zpos (digits2_pos p) - 1))
      by lia.
    rewrite !Z.pow_succ_r by lia. lia.
  - simpl. lia.
Qed.

(** A float with a full mantissa is below 1024 in absolute value
    exactly when its exponent is at most -43. *)
Lemma below_1024 (s : bool) (m : positive) (e : Z) :
  digits2_pos m = 53%positive ->
  lt (abs (PFloat (S754_finite s m e))) (PFloat lit_1024) = (e <=? -43).
Proof.
  intros Hd. pose proof (digits2_pos_bounds m) as Hm. rewrite Hd in Hm.
  change (2 ^ (53 - 1)) with 4503599627370496 in Hm.
  change (2 ^ 53) with 9007199254740992 in Hm.
  unfold lt, gt, abs, SFabs, value_of, lit_1024, dyadic.
  destruct e as [|k|k].
  - unfold Qcompare. cbn [Qnum Qden inject_Z].
    destruct (Z.compare_spec (Zpos m * 2 ^ 0 * Zpos (2 ^ 42)) (4503599627370496 * 1))
      as [H|H|H]; try reflexivity.
    exfalso. change (Zpos (2 ^ 42)) with 4398046511104 in H. lia.
  - unfold Qcompare. cbn [Qnum Qden inject_Z].
    destruct (Z.compare_spec (Zpos m * 2 ^ Zpos k * Zpos (2 ^ 42)) (4503599627370496 * 1))
      as [H|H|H]; try reflexivity.
    exfalso. change (Zpos (2 ^ 42)) with 4398046511104 in H.
    pose proof (Z.pow_pos_nonneg 2 (Zpos k) ltac:(lia) ltac:(lia)). nia.
  - unfold Qcompare. cbn [Qnum Qden].
    change (Zpos (2 ^ 42)) with 4398046511104.
    rewrite Pos2Z.inj_pow.
    destruct (Z.leb_spec (Zneg k) (-43)) as [Hk|Hk].
    + assert (2 ^ 43 <= 2 ^ Zpos k) as Hp by (apply Z.pow_le_mono_r; lia).
      change (2 ^ 43) with 8796093022208 in Hp.
      destruct (Z.compare_spec (Zpos m * 4398046511104) (4503599627370496 * 2 ^ Zpos k))
        as [H|H|H]; try reflexivity; exfalso; nia.
    + assert (2 ^ Zpos k <= 2 ^ 42) as Hp by (apply Z.pow_le_mono_r; lia).
      change (2 ^ 42) with 4398046511104 in Hp.
      destruct (Z.compare_spec (Zpos m * 4398046511104) (4503599627370496 * 2 ^ Zpos k))
        as [H|H|H]; try reflexivity; exfalso; nia.
Qed.

(** Dividing a float with a full mantissa by 1024.0 is exact: the
    mantissa stays and the exponent drops by ten. *)
Lemma div_eucl_pair (a b : Z) : Z.div_eucl a b = (a / b, a mod b).
Proof. unfold Z.div, Z.modulo. destruct (Z.div_eucl a b). reflexivity. Qed.

Lemma div_1024 (s : bool) (m : positive) (e : Z) :
  digits2_pos m = 53%positive -> -1063 <= e <= 971 ->
  SFdiv prec emax (S754_finite s m e) lit_1024 = S754_finite s m (e - 10).
Proof.
  intros Hd He. unfold SFdiv, lit_1024, SFdiv_core_binary.
  cbn [Zdigits2]. rewrite Hd.
  change (digits2_pos 4503599627370496) with 53%positive.
  assert (Z.min (fexp prec emax (53 + e - (53 + -42))) (e - -42) = e - 11) as ->
    by (unfold fexp, emin, prec, emax; lia).
  replace (e - -42 - (e - 11)) with 53 by lia. cbv iota.
  assert (Z.div_eucl (Z.shiftl (Zpos m) 53) 4503599627370496 = (Zpos m~0, 0)) as Hq.
  { rewrite div_eucl_pair, Z.shiftl_mul_pow2 by lia.
    change (2 ^ 53) with (2 * 4503599627370496).
    rewrite Z.mul_assoc, Z.div_mul, Z.mod_mul by lia.
    rewrite Z.mul_comm. reflexivity. }
  change IntDef.Z.div_eucl with Z.div_eucl. rewrite Hq.
  change (new_location 4503599627370496 0) with loc_Exact.
  unfold binary_round_aux, shr_fexp. cbn [Zdigits2 digits2_pos]. rewrite Hd.
  change (Pos.succ 53) with 54%positive.
  assert (fexp prec emax (54 + (e - 11)) - (e - 11) = 1) as ->
    by (unfold fexp, emin, prec, emax; lia).
  cbn [shr shr_record_of_loc iter_pos shr_1 orb shr_m loc_of_shr_record
       round_nearest_even Zdigits2].
  assert (SpecFloat.iter_pos shr_1 1
            {| shr_m := Zpos m~0; shr_r := false; shr_s := false |} =
          {| shr_m := Zpos m; shr_r := false; shr_s := false |}) as -> by reflexivity.
  cbn [shr_m loc_of_shr_record round_nearest_even Zdigits2]. rewrite Hd.
  assert (fexp prec emax (53 + (e - 11 + 1)) - (e - 11 + 1) = 0) as ->
    by (unfold fexp, emin, prec, emax; lia).
  cbn [shr shr_m].
  assert ((e - 11 + 1 <=? emax - prec) = true) as ->
    by (apply Z.leb_le; unfold emax, prec; lia).
  rewrite xorb_false_r. f_equal. lia.
Qed.

(** The units of the loop. *)
Definition units : list string := [""; "K"; "M"; "G"; "T"; "P"].

(** The number of divisions made for the exponent [e], with [n] units
    left. *)
Definition divisions (n : nat) (e : Z) : Z :=
  Z.min (Z.of_nat n) (Z.max 0 ((e + 52) / 10)).

Lemma scale_full_mantissa (s : bool) (m : positive) (suffix : string) :
  digits2_pos m = 53%positive ->
  forall (us : list string) (e : Z), e <= 971 ->
    scale us (PFloat (S754_finite s m e)) suffix =
    Ok (Sized (PFloat (S754_finite s m (e - 10 * divisions (length us) e)))
          (nth (Z.to_nat (divisions (length us) e)) us "Y") suffix).
Proof.
  intros Hd. induction us as [|u rest IH]; intros e He.
  - unfold divisions. cbn [scale length nth].
    replace (Z.min (Z.of_nat 0) (Z.max 0 ((e + 52) / 10))) with 0 by lia.
    replace (e - 10 * 0) with e by lia. reflexivity.
  - cbn [scale]. rewrite (below_1024 s m e Hd).
    destruct (Z.leb_spec e (-43)) as [Hs|Hs].
    + assert ((e + 52) / 10 < 1) as Hq by (apply Z.div_lt_upper_bound; lia).
      unfold divisions.
      replace (Z.min (Z.of_nat (length (u :: rest))) (Z.max 0 ((e + 52) / 10)))
        with 0 by lia.
      replace (e - 10 * 0) with e by lia. reflexivity.
    + assert (truediv (PFloat (S754_finite s m e)) (PFloat lit_1024) =
              Ok (PFloat (S754_finite s m (e - 10)))) as ->.
      { unfold truediv. cbn [to_float]. rewrite !ResultFacts.bind_Ok.
        cbn [is_zero lit_1024]. rewrite (div_1024 s m e Hd) by lia. reflexivity. }
      rewrite ResultFacts.bind_Ok, (IH (e - 10)) by lia.
      assert ((e + 52) / 10 = (e - 10 + 52) / 10 + 1) as Hq.
      { replace (e + 52) with (e - 10 + 52 + 1 * 10) by lia.
        apply Z.div_add. lia. }
      assert (0 <= (e - 10 + 52) / 10) as Hq0 by (apply Z.div_pos; lia).
      assert (divisions (length (u :: rest)) e = divisions (length rest) (e - 10) + 1)
        as ->.
      { unfold divisions. rewrite Hq. cbn [length]. rewrite Nat2Z.inj_succ. lia. }
      assert (0 <= divisions (length rest) (e - 10)) as Hk by (unfold divisions; lia).
      rewrite Z2Nat.inj_add by lia. rewrite Nat.add_1_r. cbn [nth].
      replace (e - 10 * (divisions (length rest) (e - 10) + 1))
        with (e - 10 - 10 * divisions (length rest) (e - 10)) by lia.
      reflexivity.
Qed.

(** X19.  A size is scaled without rounding, and by at most 1024^6.
    For a binary64 size with a full mantissa [m] and exponent [e] (its
    absolute value is between 2^(e+52) and 2^(e+53)), [sizeof_fmt]
    divides k = min(6, max(0, (e+52) div 10)) times by 1024; every
    division is exact, so the number shown is the size over 1024^k, and
    the unit is the k-th of "", K, M, G, T, P, or Y when k is 6: a size
    of 1024^6 bytes or more is shown in multiples of 1024^6 bytes under
    the unit Y.  Without a size the text is "N/A". *)
Theorem sizes_are_scaled_exactly (s : bool) (m : positive) (e : Z) (suffix : string) :
  digits2_pos m = 53%positive ->
  e <= 971 ->
  sizeof_fmt None suffix = Ok NotAvailable /\
  sizeof_fmt (Some (PFloat (S754_finite s m e))) suffix =
    Ok (Sized (PFloat (S754_finite s m (e - 10 * Z.min 6 (Z.max 0 ((e + 52) / 10)))))
          (nth (Z.to_nat (Z.min 6 (Z.max 0 ((e + 52) / 10)))) units "Y") suffix).
Proof.
  intros Hd He. split; [reflexivity|].
  apply (scale_full_mantissa s m suffix Hd units e He).
Qed.

(** 5 GiB, and 2^60 bytes. *)
Lemma sizes_are_scaled_exactly_witness :
  sizeof_fmt None "B" = Ok NotAvailable /\
  sizeof_fmt (Some (PFloat (S754_finite false 5629499534213120 (-20)))) "B" =
    Ok (Sized (PFloat (S754_finite false 5629499534213120
                         (-20 - 10 * Z.min 6 (Z.max 0 ((-20 + 52) / 10)))))
          (nth (Z.to_nat (Z.min 6 (Z.max 0 ((-20 + 52) / 10)))) units "Y") "B").
Proof.
  apply (sizes_are_scaled_exactly false 5629499534213120 (-20) "B").
  - reflexivity.
  - lia.
Defined.

Example five_gib_and_an_exbibyte :
  sizeof_fmt (Some (PFloat (S754_finite false 5629499534213120 (-20)))) "B" =
    Ok (Sized (PFloat (S754_finite false 5629499534213120 (-50))) "G" "B") /\
  value_of (PFloat (S754_finite false 5629499534213120 (-20))) =
    VFin (5629499534213120 # 1048576) /\
  value_of (PFloat (S754_finite false 5629499534213120 (-50))) =
    VFin (5629499534213120 # 1125899906842624) /\
  sizeof_fmt (Some (PFloat (S754_finite false 4503599627370496 8))) "B" =
    Ok (Sized (PFloat (S754_finite false 4503599627370496 (-52))) "Y" "B").
Proof. vm_compute. repeat split; reflexivity. Qed.

End SizeSpec.
